(** * Unified storage: the KV-backed storage backend

    A shallow embedding of [pkg/storage/unified/resource/storage_backend.go]:
    the write path ([WriteEvent]), the point read ([ReadResource]), the
    paginated list ([ListIterator] and [kvListIterator]), the history and
    trash listings ([ListHistory], [processTrashEntries],
    [kvHistoryIterator]) and the statistics scan ([GetResourceStats]).

    Go's [int64] is [Z]; the few places where the code does arithmetic on
    it go through [wrap64].  A Go [(T, error)] result is a [result T].  The
    backend struct is a record of store contents that is threaded through
    the monad [M]. *)

From Stdlib Require Import ZArith Ascii String List Sorted Permutation Lia Bool.
From stdpp Require Import base tactics option list gmap strings sorting.

Local Open Scope string_scope.
Local Open Scope Z_scope.

(** ** Machine integers *)

Definition wrap64 (z : Z) : Z := (z + 2 ^ 63) mod 2 ^ 64 - 2 ^ 63.

Definition int64_min : Z := - 2 ^ 63.
Definition int64_max : Z := 2 ^ 63 - 1.

Definition in_int64 (z : Z) : Prop := int64_min <= z <= int64_max.

Definition bytes : Type := list Byte.byte.

(** ** Errors and results *)

(** [ErrNotFound] and [ErrResourceAlreadyExists] are the package's sentinel
    errors; [ErrorNew] is an error built from a message alone
    ([fmt.Errorf] without [%w], or a failure raised by the key-value
    layer); [ErrorWrap] is [fmt.Errorf("msg: %w", err)]. *)
Inductive error : Type :=
| ErrNotFound
| ErrResourceAlreadyExists
| ErrorNew (msg : string)
| ErrorWrap (msg : string) (cause : error).

(** [err == ErrNotFound]: comparison with the sentinel, which a wrapped
    error never satisfies. *)
Definition isErrNotFound (e : error) : bool :=
  match e with ErrNotFound => true | _ => false end.

Fixpoint error_Error (e : error) : string :=
  match e with
  | ErrNotFound => "not found"
  | ErrResourceAlreadyExists => "resource already exists"
  | ErrorNew msg => msg
  | ErrorWrap msg cause => msg ++ ": " ++ error_Error cause
  end.

(** The outcome of a call: a value, a returned error, or a run-time panic
    (a slice made with a negative capacity). *)
Inductive result (A : Type) : Type :=
| Ok (a : A)
| Fail (e : error)
| Panic (msg : string).
Arguments Ok {A} a.
Arguments Fail {A} e.
Arguments Panic {A} msg.

(** ** Enumerations *)

Inductive DataAction : Type :=
| DataActionCreated
| DataActionUpdated
| DataActionDeleted.

Definition DataAction_eqb (a b : DataAction) : bool :=
  match a, b with
  | DataActionCreated, DataActionCreated
  | DataActionUpdated, DataActionUpdated
  | DataActionDeleted, DataActionDeleted => true
  | _, _ => false
  end.

Definition isDeleted (a : DataAction) : bool := DataAction_eqb a DataActionDeleted.

Inductive WatchEvent_Type : Type :=
| WatchEvent_UNKNOWN
| WatchEvent_ADDED
| WatchEvent_MODIFIED
| WatchEvent_DELETED
| WatchEvent_BOOKMARK
| WatchEvent_ERROR.

(** The number of a change type, as [%d] prints it. *)
Definition WatchEvent_Type_decimal (t : WatchEvent_Type) : string :=
  match t with
  | WatchEvent_UNKNOWN => "0"
  | WatchEvent_ADDED => "1"
  | WatchEvent_MODIFIED => "2"
  | WatchEvent_DELETED => "3"
  | WatchEvent_BOOKMARK => "4"
  | WatchEvent_ERROR => "5"
  end.

Inductive ResourceVersionMatchV2 : Type :=
| ResourceVersionMatchV2_UNKNOWN
| ResourceVersionMatchV2_Unset
| ResourceVersionMatchV2_Exact
| ResourceVersionMatchV2_NotOlderThan.

Definition isExact (m : ResourceVersionMatchV2) : bool :=
  match m with ResourceVersionMatchV2_Exact => true | _ => false end.

Definition isNotOlderThan (m : ResourceVersionMatchV2) : bool :=
  match m with ResourceVersionMatchV2_NotOlderThan => true | _ => false end.

Inductive ListRequest_Source : Type :=
| ListRequest_STORE
| ListRequest_HISTORY
| ListRequest_TRASH.

Definition isTrash (s : ListRequest_Source) : bool :=
  match s with ListRequest_TRASH => true | _ => false end.

(** ** Keys, records and requests *)

Module ResourceKey.
Record t : Type := mk
  { Namespace : string; Group : string; Resource : string; Name : string }.
End ResourceKey.

Module DataKey.
Record t : Type := mk
  { Namespace : string; Group : string; Resource : string; Name : string;
    ResourceVersion : Z; Action : DataAction }.
End DataKey.

Module MetaDataKey.
Record t : Type := mk
  { Namespace : string; Group : string; Resource : string; Name : string;
    ResourceVersion : Z; Action : DataAction; Folder : string }.
End MetaDataKey.

(** The request keys of the stores ([MetaGetRequestKey],
    [MetaListRequestKey], [ListRequestKey]) all have these four fields. *)
Module RequestKey.
Record t : Type := mk
  { Namespace : string; Group : string; Resource : string; Name : string }.
End RequestKey.

Module Event.
Record t : Type := mk
  { Namespace : string; Group : string; Resource : string; Name : string;
    ResourceVersion : Z; Action : DataAction; Folder : string;
    PreviousRV : Z }.
End Event.

(** [Folder] stands for [event.Object.GetFolder()]. *)
Module WriteEvent.
Record t : Type := mk
  { EventType : WatchEvent_Type; Key : ResourceKey.t; Value : bytes;
    Folder : string; PreviousRV : Z }.
End WriteEvent.

Module ContinueToken.
Record t : Type := mk
  { StartOffset : Z; ResourceVersion : Z; SortAscending : bool }.
End ContinueToken.

Module ReadRequest.
Record t : Type := mk
  { Key : option ResourceKey.t; ResourceVersion : Z }.
End ReadRequest.

Module ListRequest.
Record t : Type := mk
  { NextPageToken : string; ResourceVersion : Z;
    VersionMatchV2 : ResourceVersionMatchV2; Limit : Z;
    Options : option (option ResourceKey.t); Source : ListRequest_Source }.
End ListRequest.

Module ErrorResult.
Record t : Type := mk { Code : Z; Message : string }.
End ErrorResult.

Module BackendReadResponse.
Record t : Type := mk
  { Key : option ResourceKey.t; ResourceVersion : Z; Value : bytes;
    Folder : string; Error : option ErrorResult.t }.
End BackendReadResponse.

Module NamespacedResource.
Record t : Type := mk
  { Namespace : string; Group : string; Resource : string }.
End NamespacedResource.

Module ResourceStats.
Record t : Type := mk
  { NamespacedResource : NamespacedResource.t; Count : Z;
    ResourceVersion : Z }.
End ResourceStats.

Definition StatusBadRequest : Z := 400.
Definition StatusNotFound : Z := 404.
Definition StatusInternalServerError : Z := 500.

Definition defaultListBufferSize : Z := 100.

(** The metadata record; the type of the indexable document is the
    document builder's and is left open. *)
Module MetaData.
Record t (Doc : Type) : Type := mk { IndexableDocument : Doc }.
Arguments mk {Doc} _.
Arguments IndexableDocument {Doc} _.
End MetaData.

Module MetaDataObj.
Record t (Doc : Type) : Type := mk
  { Key : MetaDataKey.t; Value : MetaData.t Doc }.
Arguments mk {Doc} _ _.
Arguments Key {Doc} _.
Arguments Value {Doc} _.
End MetaDataObj.

#[global] Instance DataAction_eq_dec : EqDecision DataAction.
Proof. solve_decision. Defined.
#[global] Instance ResourceKey_eq_dec : EqDecision ResourceKey.t.
Proof. solve_decision. Defined.
#[global] Instance DataKey_eq_dec : EqDecision DataKey.t.
Proof. solve_decision. Defined.
#[global] Instance MetaDataKey_eq_dec : EqDecision MetaDataKey.t.
Proof. solve_decision. Defined.

(** ** The stores

    The key-value engine and the three store wrappers built on it
    ([dataStore], [metadataStore], [eventStore]) are collaborators of the
    backend whose code is not part of this development; they are modelled
    from the spec.  Their contents are kept in key order, which is the
    order a range scan yields. *)

(** The lexicographic chaining of two comparisons. *)
Definition lex (c1 c2 : comparison) : comparison :=
  match c1 with Eq => c2 | _ => c1 end.

Definition DataAction_index (a : DataAction) : Z :=
  match a with
  | DataActionCreated => 1
  | DataActionUpdated => 2
  | DataActionDeleted => 3
  end.

(** Modelled from the spec: the order of the keys of the data store,
    (namespace, group, resource, name, resource version, action) compared
    field by field (section 2). *)
Definition DataKey_compare (a b : DataKey.t) : comparison :=
  lex (String.compare a.(DataKey.Namespace) b.(DataKey.Namespace))
  (lex (String.compare a.(DataKey.Group) b.(DataKey.Group))
  (lex (String.compare a.(DataKey.Resource) b.(DataKey.Resource))
  (lex (String.compare a.(DataKey.Name) b.(DataKey.Name))
  (lex (Z.compare a.(DataKey.ResourceVersion) b.(DataKey.ResourceVersion))
       (Z.compare (DataAction_index a.(DataKey.Action))
                  (DataAction_index b.(DataKey.Action))))))).

(** Modelled from the spec: the order of the keys of the metadata store,
    "keyed the same way" as the data store, the folder last. *)
Definition MetaDataKey_compare (a b : MetaDataKey.t) : comparison :=
  lex (String.compare a.(MetaDataKey.Namespace) b.(MetaDataKey.Namespace))
  (lex (String.compare a.(MetaDataKey.Group) b.(MetaDataKey.Group))
  (lex (String.compare a.(MetaDataKey.Resource) b.(MetaDataKey.Resource))
  (lex (String.compare a.(MetaDataKey.Name) b.(MetaDataKey.Name))
  (lex (Z.compare a.(MetaDataKey.ResourceVersion)
                  b.(MetaDataKey.ResourceVersion))
  (lex (Z.compare (DataAction_index a.(MetaDataKey.Action))
                  (DataAction_index b.(MetaDataKey.Action)))
       (String.compare a.(MetaDataKey.Folder) b.(MetaDataKey.Folder))))))).

(** Modelled from the spec: the raw key-value [put] (section 6), atomic per
    key, into contents that a range scan yields in key order; a second
    write under the same key replaces the first. *)
Fixpoint kv_put {E : Type} (cmp : E -> E -> comparison) (e : E)
  (l : list E) : list E :=
  match l with
  | [] => [e]
  | e' :: l' =>
      match cmp e e' with
      | Lt => e :: e' :: l'
      | Eq => e :: l'
      | Gt => e' :: kv_put cmp e l'
      end
  end.

(** The backend: the generator's last identifier and the contents of the
    data, metadata and event stores. *)
Module kvStorageBackend.
Record t (Doc : Type) : Type := mk
  { snowflake : Z;
    dataStore : list (DataKey.t * bytes);
    metaStore : list (MetaDataObj.t Doc);
    eventStore : list Event.t }.
Arguments mk {Doc} _ _ _ _.
Arguments snowflake {Doc} _.
Arguments dataStore {Doc} _.
Arguments metaStore {Doc} _.
Arguments eventStore {Doc} _.
End kvStorageBackend.

(** Modelled from the spec: the store-layer failures (section 7).  The
    ways the key-value layer can fail under a store operation, by
    operation and argument; [None] is success. *)
Module Faults.
Record t : Type := mk
  { data_Save : DataKey.t -> option error;
    data_Get : DataKey.t -> option error;
    data_Read : DataKey.t -> option error;
    data_Keys : RequestKey.t -> option error;
    meta_Save : MetaDataKey.t -> option error;
    meta_Get : RequestKey.t -> option error;
    meta_List : RequestKey.t -> option error;
    event_Save : Event.t -> option error }.
End Faults.

Definition no_faults : Faults.t :=
  Faults.mk (fun _ => None) (fun _ => None) (fun _ => None) (fun _ => None)
            (fun _ => None) (fun _ => None) (fun _ => None) (fun _ => None).

(** An [io.ReadCloser] over a stored payload; reading it may fail, and a
    failed read is taken to yield no bytes. *)
Inductive ReadCloser : Type :=
| reader (content : bytes) (failure : option error).

Definition io_ReadAll (r : ReadCloser) : error + bytes :=
  match r with
  | reader content None => inr content
  | reader _ (Some e) => inl e
  end.

(** A store scan is a Go iterator of (key, error) pairs. *)
Definition Seq2 (K : Type) : Type := list (error + K).

(** Modelled from the spec: the key prefix of an ordered range scan
    (section 6), made of the leading non-empty fields of the request. *)
Definition prefixMatch (req : RequestKey.t) (ns g r n : string) : bool :=
  if decide (req.(RequestKey.Namespace) = "") then true
  else bool_decide (req.(RequestKey.Namespace) = ns) &&
  (if decide (req.(RequestKey.Group) = "") then true
   else bool_decide (req.(RequestKey.Group) = g) &&
   (if decide (req.(RequestKey.Resource) = "") then true
    else bool_decide (req.(RequestKey.Resource) = r) &&
    (if decide (req.(RequestKey.Name) = "") then true
     else bool_decide (req.(RequestKey.Name) = n)))).

Definition DataKey_matches (req : RequestKey.t) (k : DataKey.t) : bool :=
  prefixMatch req k.(DataKey.Namespace) k.(DataKey.Group)
    k.(DataKey.Resource) k.(DataKey.Name).

Definition MetaDataKey_matches (req : RequestKey.t) (k : MetaDataKey.t) : bool :=
  prefixMatch req k.(MetaDataKey.Namespace) k.(MetaDataKey.Group)
    k.(MetaDataKey.Resource) k.(MetaDataKey.Name).

(** Modelled from the spec: the records of one object identity, all four
    fields of the ResourceKey agreeing (section 3). *)
Definition MetaDataKey_sameObject (req : RequestKey.t) (k : MetaDataKey.t) : bool :=
  bool_decide (req.(RequestKey.Namespace) = k.(MetaDataKey.Namespace)) &&
  bool_decide (req.(RequestKey.Group) = k.(MetaDataKey.Group)) &&
  bool_decide (req.(RequestKey.Resource) = k.(MetaDataKey.Resource)) &&
  bool_decide (req.(RequestKey.Name) = k.(MetaDataKey.Name)).

Definition MetaDataKey_object (k : MetaDataKey.t) : RequestKey.t :=
  RequestKey.mk k.(MetaDataKey.Namespace) k.(MetaDataKey.Group)
    k.(MetaDataKey.Resource) k.(MetaDataKey.Name).

(** Modelled from the spec: "the MetaRecord with the highest RV"
    (section 3), the first one in scan order among equals. *)
Fixpoint highestRV (best : option MetaDataKey.t) (l : list MetaDataKey.t)
  : option MetaDataKey.t :=
  match l with
  | [] => best
  | k :: l' =>
      match best with
      | None => highestRV (Some k) l'
      | Some b =>
          if b.(MetaDataKey.ResourceVersion) <? k.(MetaDataKey.ResourceVersion)
          then highestRV (Some k) l'
          else highestRV best l'
      end
  end.

(** The iterator of [ListIterator]; the context and the data-store pointer
    of the Go struct are the monad's. *)
Module kvListIterator.
Record t : Type := mk
  { keys : list MetaDataKey.t; currentIndex : Z; listRV : Z; offset : Z;
    rv : Z; err : option error; value : bytes }.
End kvListIterator.

(** The iterator of [ListHistory] and [processTrashEntries]. *)
Module kvHistoryIterator.
Record t : Type := mk
  { keys : list DataKey.t; currentIndex : Z; listRV : Z;
    sortAscending : bool;
    rv : Z; err : option error; value : bytes; folder : string }.
End kvHistoryIterator.

(** ** Pure helpers of the listings *)

(** [sort.Slice]: a sort by the given strict order.  Go's sort is not
    stable; this one is, which only matters for entries that the order
    does not tell apart. *)
Fixpoint sort_insert {A : Type} (less : A -> A -> bool) (x : A) (l : list A)
  : list A :=
  match l with
  | [] => [x]
  | y :: l' => if less y x then y :: sort_insert less x l' else x :: y :: l'
  end.

Definition sort_Slice {A : Type} (less : A -> A -> bool) (l : list A) : list A :=
  List.fold_right (sort_insert less) [] l.

(** The version-match switch, which [ListHistory] and
    [processTrashEntries] both carry. *)
Definition filterVersionMatch (req : ListRequest.t) (keys : list DataKey.t)
  : error + list DataKey.t :=
  let rv := req.(ListRequest.ResourceVersion) in
  match req.(ListRequest.VersionMatchV2) with
  | ResourceVersionMatchV2_Exact =>
      if rv <=? 0
      then inl (ErrorNew
        "expecting an explicit resource version query when using Exact matching")
      else inr (List.filter
                  (fun key => key.(DataKey.ResourceVersion) =? rv) keys)
  | ResourceVersionMatchV2_NotOlderThan =>
      if 0 <? rv
      then inr (List.filter
                  (fun key => rv <=? key.(DataKey.ResourceVersion)) keys)
      else inr keys
  | _ =>
      if 0 <? rv
      then inr (List.filter
                  (fun key => key.(DataKey.ResourceVersion) <=? rv) keys)
      else inr keys
  end.

(** The highest RV among the Deleted entries, 0 when there is none. *)
Definition latestDeleteRV (keys : list DataKey.t) : Z :=
  List.fold_left
    (fun latest key =>
       if isDeleted key.(DataKey.Action) &&
          (latest <? key.(DataKey.ResourceVersion))
       then key.(DataKey.ResourceVersion) else latest)
    keys 0.

(** The "live" history rule: ignore the events before the last delete. *)
Definition liveHistory (req : ListRequest.t) (keys : list DataKey.t)
  : list DataKey.t :=
  let useLatestDeletionAsMinRV :=
    (req.(ListRequest.ResourceVersion) =? 0) &&
    negb (isTrash req.(ListRequest.Source)) &&
    negb (isExact req.(ListRequest.VersionMatchV2)) in
  if useLatestDeletionAsMinRV then
    let latest := latestDeleteRV keys in
    if 0 <? latest
    then List.filter (fun key => latest <? key.(DataKey.ResourceVersion)) keys
    else keys
  else keys.

Definition sortKeys (sortAscending : bool) (keys : list DataKey.t)
  : list DataKey.t :=
  if sortAscending
  then sort_Slice (fun a b => a.(DataKey.ResourceVersion) <?
                              b.(DataKey.ResourceVersion)) keys
  else sort_Slice (fun a b => b.(DataKey.ResourceVersion) <?
                              a.(DataKey.ResourceVersion)) keys.

(** Pagination: filter out the items up to and including [lastSeenRV]. *)
Definition pageKeys (lastSeenRV : Z) (sortAscending : bool)
  (keys : list DataKey.t) : list DataKey.t :=
  List.filter
    (fun key =>
       if lastSeenRV =? 0 then true
       else if sortAscending && (lastSeenRV <? key.(DataKey.ResourceVersion))
       then true
       else if negb sortAscending &&
               (key.(DataKey.ResourceVersion) <? lastSeenRV)
       then true
       else false)
    keys.

(** The latest delete event of [processTrashEntries]. *)
Definition latestDelete (deletedKeys : list DataKey.t) : option DataKey.t :=
  List.fold_left
    (fun latest key =>
       match latest with
       | None => Some key
       | Some l =>
           if l.(DataKey.ResourceVersion) <? key.(DataKey.ResourceVersion)
           then Some key else latest
       end)
    deletedKeys None.

(** The loops that gather a whole scan, stopping at the first error. *)
Fixpoint collectAll {K : Type} (acc : list K) (seq : Seq2 K) : error + list K :=
  match seq with
  | [] => inr acc
  | inl err :: _ => inl err
  | inr key :: rest => collectAll (acc ++ [key])%list rest
  end.

(** ** Pure helpers of the statistics scan *)

(** [strings.Split(s, sep)] for a one-character separator. *)
Fixpoint strings_Split (sep : Ascii.ascii) (s : string) : list string :=
  match s with
  | EmptyString => [""]
  | String c s' =>
      if Ascii.eqb c sep then "" :: strings_Split sep s'
      else
        match strings_Split sep s' with
        | [] => [String c ""]
        | part :: parts => String c part :: parts
        end
  end.

Definition slash : Ascii.ascii := "/"%char.

(** [fmt.Sprintf("%s/%s/%s", dataKey.Namespace, dataKey.Group, dataKey.Resource)] *)
Definition statsKey (dataKey : DataKey.t) : string :=
  (dataKey.(DataKey.Namespace) ++ "/" ++ dataKey.(DataKey.Group) ++ "/" ++
   dataKey.(DataKey.Resource))%string.

(** The scan loop of [GetResourceStats] over the data keys: [res] maps a
    group/resource key to the liveness of each name, [rvs] to a resource
    version. *)
Fixpoint scanStats (res : gmap string (gmap string bool)) (rvs : gmap string Z)
  (seq : Seq2 DataKey.t)
  : error + (gmap string (gmap string bool) * gmap string Z) :=
  match seq with
  | [] => inr (res, rvs)
  | inl err :: _ => inl err
  | inr dataKey :: rest =>
      let key := statsKey dataKey in
      let '(res, rvs) :=
        match res !! key with
        | Some _ => (res, rvs)
        | None => (<[key := ∅]> res, <[key := 1]> rvs)
        end in
      let res :=
        <[key := <[dataKey.(DataKey.Name) :=
                     negb (isDeleted dataKey.(DataKey.Action))]>
                   (default ∅ (res !! key))]> res in
      let rvs := <[key := dataKey.(DataKey.ResourceVersion)]> rvs in
      scanStats res rvs rest
  end.

(** The count loop over the names of one group/resource. *)
Definition countLive (names : gmap string bool) : Z :=
  List.fold_left
    (fun count entry => if entry.2 : bool then wrap64 (count + 1) else count)
    (map_to_list names) 0.

(** The loop that emits the rows; it panics on a key with fewer than three
    parts, which no key built by [statsKey] is. *)
Fixpoint statsRows (minCount : Z) (rvs : gmap string Z)
  (entries : list (string * gmap string bool)) (stats : list ResourceStats.t)
  : option (list ResourceStats.t) :=
  match entries with
  | [] => Some stats
  | (key, names) :: rest =>
      let parts := strings_Split slash key in
      let count := countLive names in
      if count <=? minCount then statsRows minCount rvs rest stats
      else
        match parts with
        | p0 :: p1 :: p2 :: _ =>
            statsRows minCount rvs rest
              (stats ++ [ResourceStats.mk (NamespacedResource.mk p0 p1 p2)
                           count (default 0 (rvs !! key))])%list
        | _ => None
        end
  end.

Section Backend.

Context {Doc : Type}.

(** Collaborators that the backend calls and that live outside this file:
    [event.Validate()], the document builder, the continuation-token codec
    and the folder accessor over a payload's metadata wrapper. *)
Variable Validate : WriteEvent.t -> option error.
Variable BuildDocument : ResourceKey.t -> Z -> bytes -> error + Doc.
Variable GetContinueToken : string -> error + ContinueToken.t.
Variable ContinueToken_String : ContinueToken.t -> string.
Variable GetFolder : bytes -> error + string.
Variable faults : Faults.t.

(** *** The state and error monad of the backend's methods *)

Definition M (A : Type) : Type :=
  kvStorageBackend.t Doc -> result A * kvStorageBackend.t Doc.

#[export] Instance M_ret : MRet M := fun A a k => (Ok a, k).

#[export] Instance M_bind : MBind M := fun A B f m k =>
  match m k with
  | (Ok a, k') => f a k'
  | (Fail e, k') => (Fail e, k')
  | (Panic msg, k') => (Panic msg, k')
  end.

Definition fail {A : Type} (e : error) : M A := fun k => (Fail e, k).
Definition panic {A : Type} (msg : string) : M A := fun k => (Panic msg, k).
Definition gets {A : Type} (f : kvStorageBackend.t Doc -> A) : M A :=
  fun k => (Ok (f k), k).

(** [if err != nil { return 0, fmt.Errorf("msg: %w", err) }] *)
Definition check (msg : string) (err : option error) : M unit :=
  match err with
  | Some e => fail (ErrorWrap msg e)
  | None => mret tt
  end.

(** *** Version generator *)

(** Modelled from the spec: the version generator (section 2), which hands
    out a strictly greater identifier on every call. *)
Definition snowflake_Generate : M Z := fun k =>
  let rv := k.(kvStorageBackend.snowflake) + 1 in
  (Ok rv,
   kvStorageBackend.mk rv k.(kvStorageBackend.dataStore)
     k.(kvStorageBackend.metaStore) k.(kvStorageBackend.eventStore)).

(** *** Data store *)

(** Modelled from the spec: [dataStore.Save], one atomic [put] of a
    DataRecord under (key, RV, action); a failed save writes nothing. *)
Definition dataStore_Save (key : DataKey.t) (value : bytes) : M (option error) :=
  fun k =>
  match faults.(Faults.data_Save) key with
  | Some e => (Ok (Some e), k)
  | None =>
      (Ok None,
       kvStorageBackend.mk k.(kvStorageBackend.snowflake)
         (kv_put (fun a b => DataKey_compare a.1 b.1) (key, value)
            k.(kvStorageBackend.dataStore))
         k.(kvStorageBackend.metaStore) k.(kvStorageBackend.eventStore))
  end.

(** Modelled from the spec: [dataStore.Get], the point get of a DataRecord;
    [ErrNotFound] when the key holds no record. *)
Definition dataStore_Get (key : DataKey.t) : M (error + ReadCloser) :=
  gets (fun k =>
    match faults.(Faults.data_Get) key with
    | Some e => inl e
    | None =>
        match List.find (fun e => bool_decide (e.1 = key))
                k.(kvStorageBackend.dataStore) with
        | Some (_, v) => inr (reader v (faults.(Faults.data_Read) key))
        | None => inl ErrNotFound
        end
    end).

(** Modelled from the spec: [dataStore.Keys], the ordered range scan of
    the data keys under a key prefix. *)
Definition dataStore_Keys (req : RequestKey.t) : M (Seq2 DataKey.t) :=
  gets (fun k =>
    match faults.(Faults.data_Keys) req with
    | Some e => [inl e]
    | None =>
        List.map inr
          (List.filter (DataKey_matches req)
             (List.map fst k.(kvStorageBackend.dataStore)))
    end).

(** *** Metadata store *)

(** Modelled from the spec: [metaStore.Save], one atomic [put] of a
    MetaRecord; a failed save writes nothing. *)
Definition metaStore_Save (obj : MetaDataObj.t Doc) : M (option error) :=
  fun k =>
  match faults.(Faults.meta_Save) obj.(MetaDataObj.Key) with
  | Some e => (Ok (Some e), k)
  | None =>
      (Ok None,
       kvStorageBackend.mk k.(kvStorageBackend.snowflake)
         k.(kvStorageBackend.dataStore)
         (kv_put (fun a b => MetaDataKey_compare a.(MetaDataObj.Key)
                               b.(MetaDataObj.Key)) obj
            k.(kvStorageBackend.metaStore))
         k.(kvStorageBackend.eventStore))
  end.

Definition metaKeys (k : kvStorageBackend.t Doc) : list MetaDataKey.t :=
  List.map MetaDataObj.Key k.(kvStorageBackend.metaStore).

(** Modelled from the spec: the "latest" access pattern of the metadata
    store (section 3, (a)): the MetaRecord of the object with the highest
    RV, provided its action is not Deleted; [ErrNotFound] otherwise. *)
Definition latestResourceKey (ms : list MetaDataKey.t) (req : RequestKey.t)
  : error + MetaDataKey.t :=
  match highestRV None (List.filter (MetaDataKey_sameObject req) ms) with
  | None => inl ErrNotFound
  | Some key =>
      if isDeleted key.(MetaDataKey.Action) then inl ErrNotFound else inr key
  end.

Definition metaStore_GetLatestResourceKey (req : RequestKey.t)
  : M (error + MetaDataKey.t) :=
  gets (fun k =>
    match faults.(Faults.meta_Get) req with
    | Some e => inl e
    | None => latestResourceKey (metaKeys k) req
    end).

(** Modelled from the spec: the "at RV" access pattern of the metadata
    store (section 3, (b)): the MetaRecord of the object whose RV is the
    greatest RV at or below the requested one, and the "latest" pattern
    when the requested RV is 0 (section 4.2). *)
Definition resourceKeyAtRevision (ms : list MetaDataKey.t)
  (req : RequestKey.t) (rv : Z) : error + MetaDataKey.t :=
  if rv =? 0 then latestResourceKey ms req
  else
    match highestRV None
            (List.filter
               (fun key => MetaDataKey_sameObject req key &&
                           (key.(MetaDataKey.ResourceVersion) <=? rv))
               ms) with
    | None => inl ErrNotFound
    | Some key => inr key
    end.

Definition metaStore_GetResourceKeyAtRevision (req : RequestKey.t) (rv : Z)
  : M (error + MetaDataKey.t) :=
  gets (fun k =>
    match faults.(Faults.meta_Get) req with
    | Some e => inl e
    | None => resourceKeyAtRevision (metaKeys k) req rv
    end).

(** Modelled from the spec: a record is visible "at RV" when its RV is at
    or below it (section 3, (b)); at 0, the latest state, every record is
    (section 4.2). *)
Definition visibleAt (rv : Z) (key : MetaDataKey.t) : bool :=
  (rv =? 0) || (key.(MetaDataKey.ResourceVersion) <=? rv).

(** Modelled from the spec: [key] is its object's record "at RV"
    (section 3, (b)): visible, and no visible record of the same object
    has a greater RV. *)
Definition currentAt (ms : list MetaDataKey.t) (rv : Z) (key : MetaDataKey.t)
  : bool :=
  visibleAt rv key &&
  List.forallb
    (fun other =>
       negb (MetaDataKey_sameObject (MetaDataKey_object key) other &&
             visibleAt rv other) ||
       (other.(MetaDataKey.ResourceVersion) <=? key.(MetaDataKey.ResourceVersion)))
    ms.

(** Modelled from the spec: [metaStore.ListResourceKeysAtRevision], the
    scan of the MetaRecords "at RV" under a key prefix (section 4.3), in
    store order: for every object under the prefix its record at that RV,
    unless that record is a deletion. *)
Definition listResourceKeysAtRevision (ms : list MetaDataKey.t)
  (req : RequestKey.t) (rv : Z) : list MetaDataKey.t :=
  List.filter
    (fun key => MetaDataKey_matches req key && currentAt ms rv key &&
                negb (isDeleted key.(MetaDataKey.Action)))
    ms.

Definition metaStore_ListResourceKeysAtRevision (req : RequestKey.t) (rv : Z)
  : M (Seq2 MetaDataKey.t) :=
  gets (fun k =>
    match faults.(Faults.meta_List) req with
    | Some e => [inl e]
    | None => List.map inr (listResourceKeysAtRevision (metaKeys k) req rv)
    end).

(** *** Event store *)

(** Modelled from the spec: [eventStore.Save], the append of one
    EventRecord to the event log; a failed save writes nothing. *)
Definition eventStore_Save (ev : Event.t) : M (option error) := fun k =>
  match faults.(Faults.event_Save) ev with
  | Some e => (Ok (Some e), k)
  | None =>
      (Ok None,
       kvStorageBackend.mk k.(kvStorageBackend.snowflake)
         k.(kvStorageBackend.dataStore) k.(kvStorageBackend.metaStore)
         (k.(kvStorageBackend.eventStore) ++ [ev])%list)
  end.

(** ** The backend's methods *)

(** *** Write path *)

Definition WriteEvent (event : WriteEvent.t) : M Z :=
  match Validate event with
  | Some err => fail (ErrorWrap "invalid event" err)
  | None =>
      let key := event.(WriteEvent.Key) in
      rv ← snowflake_Generate;
      action ←
        match event.(WriteEvent.EventType) with
        | WatchEvent_ADDED =>
            r ← metaStore_GetLatestResourceKey
                  (RequestKey.mk key.(ResourceKey.Namespace)
                     key.(ResourceKey.Group) key.(ResourceKey.Resource)
                     key.(ResourceKey.Name));
            match r with
            | inr _ => fail ErrResourceAlreadyExists
            | inl err =>
                if isErrNotFound err then mret DataActionCreated
                else fail (ErrorWrap "failed to check if resource exists" err)
            end
        | WatchEvent_MODIFIED => mret DataActionUpdated
        | WatchEvent_DELETED => mret DataActionDeleted
        | other =>
            fail (ErrorNew ("invalid event type: " ++
                            WatchEvent_Type_decimal other))
        end;
      match BuildDocument key rv event.(WriteEvent.Value) with
      | inl err => fail (ErrorWrap "failed to build document" err)
      | inr doc =>
          err ← dataStore_Save
                  (DataKey.mk key.(ResourceKey.Namespace)
                     key.(ResourceKey.Group) key.(ResourceKey.Resource)
                     key.(ResourceKey.Name) rv action)
                  event.(WriteEvent.Value);
          check "failed to write data" err;;
          err ← metaStore_Save
                  (MetaDataObj.mk
                     (MetaDataKey.mk key.(ResourceKey.Namespace)
                        key.(ResourceKey.Group) key.(ResourceKey.Resource)
                        key.(ResourceKey.Name) rv action
                        event.(WriteEvent.Folder))
                     (MetaData.mk doc));
          check "failed to write metadata" err;;
          err ← eventStore_Save
                  (Event.mk key.(ResourceKey.Namespace)
                     key.(ResourceKey.Group) key.(ResourceKey.Resource)
                     key.(ResourceKey.Name) rv action
                     event.(WriteEvent.Folder)
                     event.(WriteEvent.PreviousRV));
          check "failed to save event" err;;
          mret rv
      end
  end.

(** *** Point read *)

Definition errorResponse (code : Z) (message : string) : BackendReadResponse.t :=
  BackendReadResponse.mk None 0 [] "" (Some (ErrorResult.mk code message)).

Definition ReadResource (req : ReadRequest.t) : M BackendReadResponse.t :=
  match req.(ReadRequest.Key) with
  | None => mret (errorResponse StatusBadRequest "missing key")
  | Some key =>
      r ← metaStore_GetResourceKeyAtRevision
            (RequestKey.mk key.(ResourceKey.Namespace) key.(ResourceKey.Group)
               key.(ResourceKey.Resource) key.(ResourceKey.Name))
            req.(ReadRequest.ResourceVersion);
      match r with
      | inl err =>
          if isErrNotFound err
          then mret (errorResponse StatusNotFound "not found")
          else mret (errorResponse StatusInternalServerError (error_Error err))
      | inr meta =>
          d ← dataStore_Get
                (DataKey.mk key.(ResourceKey.Namespace) key.(ResourceKey.Group)
                   key.(ResourceKey.Resource) key.(ResourceKey.Name)
                   meta.(MetaDataKey.ResourceVersion)
                   meta.(MetaDataKey.Action));
          match d with
          | inl err =>
              mret (errorResponse StatusInternalServerError (error_Error err))
          | inr data =>
              match io_ReadAll data with
              | inl err =>
                  mret (errorResponse StatusInternalServerError
                          (error_Error err))
              | inr value =>
                  mret (BackendReadResponse.mk (Some key)
                          meta.(MetaDataKey.ResourceVersion) value
                          meta.(MetaDataKey.Folder) None)
              end
          end
      end
  end.

(** *** List (current state) *)

(** The scan loop of [ListIterator]: stop at the first error, skip the
    first [offset] keys, and stop once [limit1] (that is [req.Limit+1])
    keys are collected. *)
Fixpoint collectKeys (offset limit1 idx : Z) (keys : list MetaDataKey.t)
  (seq : Seq2 MetaDataKey.t) : error + list MetaDataKey.t :=
  match seq with
  | [] => inr keys
  | inl err :: _ => inl err
  | inr metaKey :: rest =>
      if idx <? offset then collectKeys offset limit1 (idx + 1) keys rest
      else
        let keys := (keys ++ [metaKey])%list in
        if limit1 <=? Z.of_nat (length keys) then inr keys
        else collectKeys offset limit1 idx keys rest
  end.

Definition ListIterator (req : ListRequest.t)
  (cb : kvListIterator.t -> M (option error)) : M Z :=
  match req.(ListRequest.Options) with
  | None | Some None => fail (ErrorNew "missing options or key in ListRequest")
  | Some (Some key) =>
      '(offset, resourceVersion) ←
        (if decide (req.(ListRequest.NextPageToken) = "")
         then mret (0, req.(ListRequest.ResourceVersion))
         else
           match GetContinueToken req.(ListRequest.NextPageToken) with
           | inl err => fail (ErrorWrap "invalid continue token" err)
           | inr token =>
               mret (token.(ContinueToken.StartOffset),
                     token.(ContinueToken.ResourceVersion))
           end);
      rv ← snowflake_Generate;
      let listRV := if 0 <? resourceVersion then resourceVersion else rv in
      if Z.min defaultListBufferSize (wrap64 (req.(ListRequest.Limit) + 1)) <? 0
      then panic "makeslice: cap out of range"
      else
        seq ← metaStore_ListResourceKeysAtRevision
                (RequestKey.mk key.(ResourceKey.Namespace)
                   key.(ResourceKey.Group) key.(ResourceKey.Resource)
                   key.(ResourceKey.Name))
                resourceVersion;
        match collectKeys offset (wrap64 (req.(ListRequest.Limit) + 1)) 0 []
                seq with
        | inl err => fail err
        | inr keys =>
            err ← cb (kvListIterator.mk keys (-1) listRV offset 0 None []);
            match err with
            | Some e => fail e
            | None => mret listRV
            end
        end
  end.

(** [Next] returns the boolean and the iterator as the call leaves it. *)
Definition kvListIterator_Next (i : kvListIterator.t)
  : M (bool * kvListIterator.t) :=
  let currentIndex := i.(kvListIterator.currentIndex) + 1 in
  let keys := i.(kvListIterator.keys) in
  let listRV := i.(kvListIterator.listRV) in
  let offset := i.(kvListIterator.offset) in
  if Z.of_nat (length keys) <=? currentIndex
  then mret (false,
             kvListIterator.mk keys currentIndex listRV offset
               i.(kvListIterator.rv) i.(kvListIterator.err)
               i.(kvListIterator.value))
  else
    match (if currentIndex <? 0 then None
           else List.nth_error keys (Z.to_nat currentIndex)) with
    | None => panic "index out of range"
    | Some key =>
        let rv := key.(MetaDataKey.ResourceVersion) in
        d ← dataStore_Get
              (DataKey.mk key.(MetaDataKey.Namespace) key.(MetaDataKey.Group)
                 key.(MetaDataKey.Resource) key.(MetaDataKey.Name)
                 key.(MetaDataKey.ResourceVersion) key.(MetaDataKey.Action));
        match d with
        | inl err =>
            mret (false,
                  kvListIterator.mk keys currentIndex listRV offset rv
                    (Some err) i.(kvListIterator.value))
        | inr data =>
            match io_ReadAll data with
            | inl err =>
                mret (false,
                      kvListIterator.mk keys currentIndex listRV offset rv
                        (Some err) [])
            | inr value =>
                mret (true,
                      kvListIterator.mk keys currentIndex listRV
                        (wrap64 (offset + 1)) rv None value)
            end
        end
    end.

Definition kvListIterator_Error (i : kvListIterator.t) : option error := None.

Definition kvListIterator_token (i : kvListIterator.t) : ContinueToken.t :=
  ContinueToken.mk i.(kvListIterator.offset) i.(kvListIterator.listRV) false.

Definition kvListIterator_ContinueToken (i : kvListIterator.t) : string :=
  ContinueToken_String (kvListIterator_token i).

Definition kvListIterator_ResourceVersion (i : kvListIterator.t) : Z :=
  i.(kvListIterator.rv).

Definition kvListIterator_Value (i : kvListIterator.t) : bytes :=
  i.(kvListIterator.value).

(** *** History and trash *)

Definition newHistoryIterator (keys : list DataKey.t) (listRV : Z)
  (sortAscending : bool) : kvHistoryIterator.t :=
  kvHistoryIterator.mk keys (-1) listRV sortAscending 0 None [] "".

(** [processTrashEntries] handles the listing of deleted items (trash). *)
Definition processTrashEntries (req : ListRequest.t) (key : ResourceKey.t)
  (fn : kvHistoryIterator.t -> M (option error))
  (historyKeys : list DataKey.t) (lastSeenRV : Z) (sortAscending : bool)
  (listRV : Z) : M Z :=
  let deletedKeys :=
    List.filter (fun key => isDeleted key.(DataKey.Action)) historyKeys in
  r ← metaStore_GetLatestResourceKey
        (RequestKey.mk key.(ResourceKey.Namespace) key.(ResourceKey.Group)
           key.(ResourceKey.Resource) key.(ResourceKey.Name));
  let trashKeys :=
    match r with
    | inl err =>
        if isErrNotFound err then
          match latestDelete deletedKeys with
          | Some latest => [latest]
          | None => []
          end
        else []
    | inr _ => []
    end in
  match filterVersionMatch req trashKeys with
  | inl err => fail err
  | inr trashKeys =>
      let trashKeys := sortKeys sortAscending trashKeys in
      let pagedKeys := pageKeys lastSeenRV sortAscending trashKeys in
      err ← fn (newHistoryIterator pagedKeys listRV sortAscending);
      match err with
      | Some e => fail e
      | None => mret listRV
      end
  end.

Definition ListHistory (req : ListRequest.t)
  (fn : kvHistoryIterator.t -> M (option error)) : M Z :=
  match req.(ListRequest.Options) with
  | None | Some None => fail (ErrorNew "missing options or key in ListRequest")
  | Some (Some key) =>
      if decide (key.(ResourceKey.Group) = "")
      then fail (ErrorNew "group is required")
      else if decide (key.(ResourceKey.Resource) = "")
      then fail (ErrorNew "resource is required")
      else if decide (key.(ResourceKey.Namespace) = "")
      then fail (ErrorNew "namespace is required")
      else if decide (key.(ResourceKey.Name) = "")
      then fail (ErrorNew "name is required")
      else
        '(lastSeenRV, sortAscending) ←
          (if decide (req.(ListRequest.NextPageToken) = "")
           then mret (0, isNotOlderThan req.(ListRequest.VersionMatchV2))
           else
             match GetContinueToken req.(ListRequest.NextPageToken) with
             | inl err => fail (ErrorWrap "invalid continue token" err)
             | inr token =>
                 mret (token.(ContinueToken.ResourceVersion),
                       token.(ContinueToken.SortAscending))
             end);
        listRV ← snowflake_Generate;
        if Z.min defaultListBufferSize (wrap64 (req.(ListRequest.Limit) + 1))
           <? 0
        then panic "makeslice: cap out of range"
        else
          seq ← dataStore_Keys
                  (RequestKey.mk key.(ResourceKey.Namespace)
                     key.(ResourceKey.Group) key.(ResourceKey.Resource)
                     key.(ResourceKey.Name));
          match collectAll [] seq with
          | inl err => fail err
          | inr historyKeys =>
              if isTrash req.(ListRequest.Source)
              then processTrashEntries req key fn historyKeys lastSeenRV
                     sortAscending listRV
              else
                match filterVersionMatch req historyKeys with
                | inl err => fail err
                | inr historyKeys =>
                    let historyKeys := liveHistory req historyKeys in
                    let historyKeys := sortKeys sortAscending historyKeys in
                    let pagedKeys :=
                      pageKeys lastSeenRV sortAscending historyKeys in
                    err ← fn (newHistoryIterator pagedKeys listRV
                                sortAscending);
                    match err with
                    | Some e => fail e
                    | None => mret listRV
                    end
                end
          end
  end.

Definition kvHistoryIterator_Next (i : kvHistoryIterator.t)
  : M (bool * kvHistoryIterator.t) :=
  let currentIndex := i.(kvHistoryIterator.currentIndex) + 1 in
  let keys := i.(kvHistoryIterator.keys) in
  let listRV := i.(kvHistoryIterator.listRV) in
  let asc := i.(kvHistoryIterator.sortAscending) in
  if Z.of_nat (length keys) <=? currentIndex
  then mret (false,
             kvHistoryIterator.mk keys currentIndex listRV asc
               i.(kvHistoryIterator.rv) i.(kvHistoryIterator.err)
               i.(kvHistoryIterator.value) i.(kvHistoryIterator.folder))
  else
    match (if currentIndex <? 0 then None
           else List.nth_error keys (Z.to_nat currentIndex)) with
    | None => panic "index out of range"
    | Some key =>
        let rv := key.(DataKey.ResourceVersion) in
        d ← dataStore_Get key;
        match d with
        | inl err =>
            mret (false,
                  kvHistoryIterator.mk keys currentIndex listRV asc rv
                    (Some err) i.(kvHistoryIterator.value)
                    i.(kvHistoryIterator.folder))
        | inr data =>
            match io_ReadAll data with
            | inl err =>
                mret (false,
                      kvHistoryIterator.mk keys currentIndex listRV asc rv
                        (Some err) [] i.(kvHistoryIterator.folder))
            | inr value =>
                match GetFolder value with
                | inl err =>
                    mret (false,
                          kvHistoryIterator.mk keys currentIndex listRV asc
                            rv (Some err) value i.(kvHistoryIterator.folder))
                | inr folder =>
                    mret (true,
                          kvHistoryIterator.mk keys currentIndex listRV asc
                            rv None value folder)
                end
            end
        end
    end.

Definition kvHistoryIterator_Error (i : kvHistoryIterator.t) : option error :=
  i.(kvHistoryIterator.err).

Definition kvHistoryIterator_token (i : kvHistoryIterator.t)
  : option ContinueToken.t :=
  let currentIndex := i.(kvHistoryIterator.currentIndex) in
  if (currentIndex <? 0) ||
     (Z.of_nat (length i.(kvHistoryIterator.keys)) <=? currentIndex)
  then None
  else
    match List.nth_error i.(kvHistoryIterator.keys) (Z.to_nat currentIndex) with
    | None => None
    | Some key =>
        Some (ContinueToken.mk i.(kvHistoryIterator.rv)
                key.(DataKey.ResourceVersion)
                i.(kvHistoryIterator.sortAscending))
    end.

Definition kvHistoryIterator_ContinueToken (i : kvHistoryIterator.t) : string :=
  match kvHistoryIterator_token i with
  | None => ""
  | Some token => ContinueToken_String token
  end.

(** *** Statistics *)

(** A Go map is ranged over in no particular order; the rows come out in
    the order of [map_to_list]. *)
Definition GetResourceStats (namespace : string) (minCount : Z)
  : M (list ResourceStats.t) :=
  seq ← dataStore_Keys (RequestKey.mk namespace "" "" "");
  match scanStats ∅ ∅ seq with
  | inl err => fail err
  | inr (res, rvs) =>
      match statsRows minCount rvs (map_to_list res) [] with
      | Some stats => mret stats
      | None => panic "index out of range"
      end
  end.

End Backend.

Arguments M : clear implicits.

(** ** The rest of the backend *)

(** The watch-stream payload. *)
Module WrittenEvent.
Record t : Type := mk
  { Key : ResourceKey.t; EventType : WatchEvent_Type; Folder : string;
    Value : bytes; ResourceVersion : Z; PreviousRV : Z; Timestamp : Z }.
End WrittenEvent.

(** [s[i]] on a Go slice: a panic when the index is out of range. *)
Definition slice_index {A : Type} (s : list A) (i : Z) : result A :=
  if (i <? 0) || (Z.of_nat (length s) <=? i) then Panic "index out of range"
  else
    match List.nth_error s (Z.to_nat i) with
    | Some a => Ok a
    | None => Panic "index out of range"
    end.

(** The accessors of the list iterator index [keys] at [currentIndex]
    without a bounds check. *)
Definition kvListIterator_Namespace (i : kvListIterator.t) : result string :=
  match slice_index i.(kvListIterator.keys) i.(kvListIterator.currentIndex) with
  | Ok key => Ok key.(MetaDataKey.Namespace)
  | Fail e => Fail e
  | Panic msg => Panic msg
  end.

Definition kvListIterator_Name (i : kvListIterator.t) : result string :=
  match slice_index i.(kvListIterator.keys) i.(kvListIterator.currentIndex) with
  | Ok key => Ok key.(MetaDataKey.Name)
  | Fail e => Fail e
  | Panic msg => Panic msg
  end.

Definition kvListIterator_Folder (i : kvListIterator.t) : result string :=
  match slice_index i.(kvListIterator.keys) i.(kvListIterator.currentIndex) with
  | Ok key => Ok key.(MetaDataKey.Folder)
  | Fail e => Fail e
  | Panic msg => Panic msg
  end.

(** The accessors of the history iterator; [Namespace] and [Name] check
    the bounds and answer the empty string outside them. *)
Definition kvHistoryIterator_ResourceVersion (i : kvHistoryIterator.t) : Z :=
  i.(kvHistoryIterator.rv).

Definition kvHistoryIterator_Namespace (i : kvHistoryIterator.t) : string :=
  let currentIndex := i.(kvHistoryIterator.currentIndex) in
  if (0 <=? currentIndex) &&
     (currentIndex <? Z.of_nat (length i.(kvHistoryIterator.keys)))
  then
    match List.nth_error i.(kvHistoryIterator.keys) (Z.to_nat currentIndex) with
    | Some key => key.(DataKey.Namespace)
    | None => ""
    end
  else "".

Definition kvHistoryIterator_Name (i : kvHistoryIterator.t) : string :=
  let currentIndex := i.(kvHistoryIterator.currentIndex) in
  if (0 <=? currentIndex) &&
     (currentIndex <? Z.of_nat (length i.(kvHistoryIterator.keys)))
  then
    match List.nth_error i.(kvHistoryIterator.keys) (Z.to_nat currentIndex) with
    | Some key => key.(DataKey.Name)
    | None => ""
    end
  else "".

Definition kvHistoryIterator_Folder (i : kvHistoryIterator.t) : string :=
  i.(kvHistoryIterator.folder).

Definition kvHistoryIterator_Value (i : kvHistoryIterator.t) : bytes :=
  i.(kvHistoryIterator.value).

(** The mapping of an action to the public change type in
    [WatchWriteEvents]. *)
Definition watchEventType (action : DataAction) : WatchEvent_Type :=
  match action with
  | DataActionCreated => WatchEvent_ADDED
  | DataActionUpdated => WatchEvent_MODIFIED
  | DataActionDeleted => WatchEvent_DELETED
  end.

(** [time.Second.Nanoseconds()] *)
Definition Second_Nanoseconds : Z := 1000000000.

Section BackendWatch.

Context {Doc : Type}.
Variable faults : Faults.t.

(** The goroutine of [WatchWriteEvents], run over the events that the
    notifier delivers: the events it sends, and whether it closes the
    channel.  It returns without closing when a payload cannot be fetched
    or read.  The notifier, the interleaving with writers and the bound of
    the channel are outside this function. *)
Fixpoint WatchWriteEvents_loop (notifierEvents : list Event.t)
  : M Doc (list WrittenEvent.t * bool) :=
  match notifierEvents with
  | [] => mret ([], true)
  | event :: rest =>
      d ← dataStore_Get faults
            (DataKey.mk event.(Event.Namespace) event.(Event.Group)
               event.(Event.Resource) event.(Event.Name)
               event.(Event.ResourceVersion) event.(Event.Action));
      match d with
      | inl _ => mret ([], false)
      | inr dataReader =>
          match io_ReadAll dataReader with
          | inl _ => mret ([], false)
          | inr data =>
              '(sent, closed) ← WatchWriteEvents_loop rest;
              mret (WrittenEvent.mk
                      (ResourceKey.mk event.(Event.Namespace)
                         event.(Event.Group) event.(Event.Resource)
                         event.(Event.Name))
                      (watchEventType event.(Event.Action))
                      event.(Event.Folder) data
                      event.(Event.ResourceVersion) event.(Event.PreviousRV)
                      (Z.quot event.(Event.ResourceVersion)
                         Second_Nanoseconds)
                    :: sent, closed)
          end
      end
  end.

End BackendWatch.

(** ** Vocabulary of the statements *)

(** The three stores hold the same records in [k] and [k']. *)
Definition sameStores {Doc : Type} (k k' : kvStorageBackend.t Doc) : Prop :=
  k'.(kvStorageBackend.dataStore) = k.(kvStorageBackend.dataStore) /\
  k'.(kvStorageBackend.metaStore) = k.(kvStorageBackend.metaStore) /\
  k'.(kvStorageBackend.eventStore) = k.(kvStorageBackend.eventStore).

Definition requestKeyOf (key : ResourceKey.t) : RequestKey.t :=
  RequestKey.mk key.(ResourceKey.Namespace) key.(ResourceKey.Group)
    key.(ResourceKey.Resource) key.(ResourceKey.Name).

(** The records that one write of [event] at version [rv] produces. *)
Definition dataKeyOf (event : WriteEvent.t) (rv : Z) (action : DataAction)
  : DataKey.t :=
  let key := event.(WriteEvent.Key) in
  DataKey.mk key.(ResourceKey.Namespace) key.(ResourceKey.Group)
    key.(ResourceKey.Resource) key.(ResourceKey.Name) rv action.

Definition metaKeyOf (event : WriteEvent.t) (rv : Z) (action : DataAction)
  : MetaDataKey.t :=
  let key := event.(WriteEvent.Key) in
  MetaDataKey.mk key.(ResourceKey.Namespace) key.(ResourceKey.Group)
    key.(ResourceKey.Resource) key.(ResourceKey.Name) rv action
    event.(WriteEvent.Folder).

Definition eventOf (event : WriteEvent.t) (rv : Z) (action : DataAction)
  : Event.t :=
  let key := event.(WriteEvent.Key) in
  Event.mk key.(ResourceKey.Namespace) key.(ResourceKey.Group)
    key.(ResourceKey.Resource) key.(ResourceKey.Name) rv action
    event.(WriteEvent.Folder) event.(WriteEvent.PreviousRV).

(** What the metadata store's "latest" lookup answers for [key] in [k]. *)
Definition latestLookup {Doc : Type} (faults : Faults.t) (key : ResourceKey.t)
  (k : kvStorageBackend.t Doc) : error + MetaDataKey.t :=
  match faults.(Faults.meta_Get) (requestKeyOf key) with
  | Some e => inl e
  | None => latestResourceKey (metaKeys k) (requestKeyOf key)
  end.

(** The outcome of the existence check that a write of type Added makes;
    the other change types make none. *)
Definition existenceCheck {Doc : Type} (faults : Faults.t)
  (event : WriteEvent.t) (k : kvStorageBackend.t Doc)
  : error + MetaDataKey.t :=
  latestLookup faults event.(WriteEvent.Key) k.

(** [event] gets past validation and the change-type switch with [action]. *)
Definition acceptedAs {Doc : Type} (Validate : WriteEvent.t -> option error)
  (faults : Faults.t) (event : WriteEvent.t) (k : kvStorageBackend.t Doc)
  (action : DataAction) : Prop :=
  Validate event = None /\
  match event.(WriteEvent.EventType) with
  | WatchEvent_ADDED =>
      action = DataActionCreated /\ existenceCheck faults event k = inl ErrNotFound
  | WatchEvent_MODIFIED => action = DataActionUpdated
  | WatchEvent_DELETED => action = DataActionDeleted
  | _ => False
  end.

(** The state a write leaves once the data, metadata and event records
    are put, in that order. *)
Definition putData {Doc : Type} (event : WriteEvent.t) (rv : Z) (action : DataAction)
  (k : kvStorageBackend.t Doc) : kvStorageBackend.t Doc :=
  kvStorageBackend.mk rv
    (kv_put (fun a b => DataKey_compare a.1 b.1)
       (dataKeyOf event rv action, event.(WriteEvent.Value))
       k.(kvStorageBackend.dataStore))
    k.(kvStorageBackend.metaStore) k.(kvStorageBackend.eventStore).

Definition putMeta {Doc : Type} (event : WriteEvent.t) (rv : Z) (action : DataAction)
  (doc : Doc) (k : kvStorageBackend.t Doc) : kvStorageBackend.t Doc :=
  kvStorageBackend.mk k.(kvStorageBackend.snowflake)
    k.(kvStorageBackend.dataStore)
    (kv_put (fun a b => MetaDataKey_compare a.(MetaDataObj.Key)
                          b.(MetaDataObj.Key))
       (MetaDataObj.mk (metaKeyOf event rv action) (MetaData.mk doc))
       k.(kvStorageBackend.metaStore))
    k.(kvStorageBackend.eventStore).

Definition putEvent {Doc : Type} (event : WriteEvent.t) (rv : Z) (action : DataAction)
  (k : kvStorageBackend.t Doc) : kvStorageBackend.t Doc :=
  kvStorageBackend.mk k.(kvStorageBackend.snowflake)
    k.(kvStorageBackend.dataStore) k.(kvStorageBackend.metaStore)
    (k.(kvStorageBackend.eventStore) ++ [eventOf event rv action])%list.

(** The backend once the generator has handed out one more identifier. *)
Definition tick {Doc : Type} (k : kvStorageBackend.t Doc) : kvStorageBackend.t Doc :=
  kvStorageBackend.mk (k.(kvStorageBackend.snowflake) + 1)
    k.(kvStorageBackend.dataStore) k.(kvStorageBackend.metaStore)
    k.(kvStorageBackend.eventStore).

(** How a listing ends once its callback has run: the callback's error, or
    the list version. *)
Definition afterCallback {Doc : Type} (listRV : Z)
  (out : result (option error) * kvStorageBackend.t Doc)
  : result Z * kvStorageBackend.t Doc :=
  match out with
  | (Ok None, k) => (Ok listRV, k)
  | (Ok (Some e), k) => (Fail e, k)
  | (Fail e, k) => (Fail e, k)
  | (Panic msg, k) => (Panic msg, k)
  end.

(** [ListIterator] on [req] in state [k] reaches its callback and hands
    it the iterator [iter]. *)
Definition listVisits {Doc : Type}
  (GetContinueToken : string -> error + ContinueToken.t) (faults : Faults.t)
  (req : ListRequest.t) (k : kvStorageBackend.t Doc) (iter : kvListIterator.t)
  : Prop :=
  forall cb,
    ListIterator GetContinueToken faults req cb k =
    afterCallback iter.(kvListIterator.listRV) (cb iter (tick k)).

(** [ListHistory] on [req] in state [k] reaches its callback and hands it
    the iterator [iter]. *)
Definition historyVisits {Doc : Type}
  (GetContinueToken : string -> error + ContinueToken.t) (faults : Faults.t)
  (req : ListRequest.t) (k : kvStorageBackend.t Doc)
  (iter : kvHistoryIterator.t) : Prop :=
  forall fn,
    ListHistory GetContinueToken faults req fn k =
    afterCallback iter.(kvHistoryIterator.listRV) (fn iter (tick k)).

(** The data keys of one object, as the data store's scan yields them. *)
Definition historyOf {Doc : Type} (key : ResourceKey.t)
  (k : kvStorageBackend.t Doc) : list DataKey.t :=
  List.filter (DataKey_matches (requestKeyOf key))
    (List.map fst k.(kvStorageBackend.dataStore)).

(** A history request that names its object in full. *)
Definition namesObject (req : ListRequest.t) (key : ResourceKey.t) : Prop :=
  req.(ListRequest.Options) = Some (Some key) /\
  key.(ResourceKey.Group) <> "" /\ key.(ResourceKey.Resource) <> "" /\
  key.(ResourceKey.Namespace) <> "" /\ key.(ResourceKey.Name) <> "".

(** The page size leaves the buffer capacity non-negative. *)
Definition capacityOk (req : ListRequest.t) : Prop :=
  0 <= Z.min defaultListBufferSize (wrap64 (req.(ListRequest.Limit) + 1)).

Definition dataKeyOfMeta (key : MetaDataKey.t) : DataKey.t :=
  DataKey.mk key.(MetaDataKey.Namespace) key.(MetaDataKey.Group)
    key.(MetaDataKey.Resource) key.(MetaDataKey.Name)
    key.(MetaDataKey.ResourceVersion) key.(MetaDataKey.Action).

(** The cursor of a history request: no token, hence no [lastSeenRV]
    and the direction of the match mode, or a token that decodes and pins
    both. *)
Definition historyCursor
  (GetContinueToken : string -> error + ContinueToken.t)
  (req : ListRequest.t) (lastSeenRV : Z) (sortAscending : bool) : Prop :=
  (req.(ListRequest.NextPageToken) = "" /\ lastSeenRV = 0 /\
   sortAscending = isNotOlderThan req.(ListRequest.VersionMatchV2)) \/
  (req.(ListRequest.NextPageToken) <> "" /\
   exists token,
     GetContinueToken req.(ListRequest.NextPageToken) = inr token /\
     lastSeenRV = token.(ContinueToken.ResourceVersion) /\
     sortAscending = token.(ContinueToken.SortAscending)).

(** The entries of a history listing before they are sorted and paged:
    for trash, the version-matched latest delete of an object that the
    lookup reports as not found; otherwise the version-matched history
    under the live rule. *)
Definition historyCandidates {Doc : Type} (faults : Faults.t)
  (req : ListRequest.t) (key : ResourceKey.t) (k : kvStorageBackend.t Doc)
  : error + list DataKey.t :=
  if isTrash req.(ListRequest.Source) then
    filterVersionMatch req
      match latestLookup faults key k with
      | inl err =>
          if isErrNotFound err then
            match latestDelete
                    (List.filter (fun key => isDeleted key.(DataKey.Action))
                       (historyOf key k)) with
            | Some latest => [latest]
            | None => []
            end
          else []
      | inr _ => []
      end
  else
    match filterVersionMatch req (historyOf key k) with
    | inl err => inl err
    | inr keys => inr (liveHistory req keys)
    end.

(** [key] lies strictly beyond [lastSeenRV] in the direction. *)
Definition beyond (sortAscending : bool) (lastSeenRV : Z) (key : DataKey.t)
  : bool :=
  if sortAscending then lastSeenRV <? key.(DataKey.ResourceVersion)
  else key.(DataKey.ResourceVersion) <? lastSeenRV.

(** Sorted by RV in the direction. *)
Definition sortedBy (sortAscending : bool) (keys : list DataKey.t) : Prop :=
  if sortAscending
  then StronglySorted
         (fun a b => a.(DataKey.ResourceVersion) <= b.(DataKey.ResourceVersion))
         keys
  else StronglySorted
         (fun a b => b.(DataKey.ResourceVersion) <= a.(DataKey.ResourceVersion))
         keys.

(** [req] with another page token. *)
Definition withToken (req : ListRequest.t) (token : string) : ListRequest.t :=
  ListRequest.mk token req.(ListRequest.ResourceVersion)
    req.(ListRequest.VersionMatchV2) req.(ListRequest.Limit)
    req.(ListRequest.Options) req.(ListRequest.Source).

(** Exact matching comes with an explicit resource version. *)
Definition exactHasVersion (req : ListRequest.t) : Prop :=
  isExact req.(ListRequest.VersionMatchV2) = true ->
  0 < req.(ListRequest.ResourceVersion).

(** Every stored record carries a version that the generator has already
    handed out. *)
Definition versionsBounded {Doc : Type} (k : kvStorageBackend.t Doc) : Prop :=
  (forall rec, In rec k.(kvStorageBackend.dataStore) ->
     rec.1.(DataKey.ResourceVersion) <= k.(kvStorageBackend.snowflake)) /\
  (forall obj, In obj k.(kvStorageBackend.metaStore) ->
     obj.(MetaDataObj.Key).(MetaDataKey.ResourceVersion) <=
       k.(kvStorageBackend.snowflake)) /\
  (forall ev, In ev k.(kvStorageBackend.eventStore) ->
     ev.(Event.ResourceVersion) <= k.(kvStorageBackend.snowflake)).

(** The change types that [WriteEvent] maps to an action. *)
Definition isWriteType (t : WatchEvent_Type) : bool :=
  match t with
  | WatchEvent_ADDED | WatchEvent_MODIFIED | WatchEvent_DELETED => true
  | _ => false
  end.

Section BackendDrivers.

Context {Doc : Type}.
Variable faults : Faults.t.

(** A caller's loop over the list iterator: up to [n] calls of [Next],
    stopping at the first that returns false; the answer of the last
    call and the iterator as it leaves it. *)
Fixpoint kvListIterator_NextN (n : nat) (i : kvListIterator.t)
  : M Doc (bool * kvListIterator.t) :=
  match n with
  | O => mret (true, i)
  | S n' =>
      '(more, i') ← kvListIterator_Next faults i;
      if more : bool then kvListIterator_NextN n' i' else mret (false, i')
  end.

(** The payload of the record that a metadata key points to can be
    fetched and read in [k]. *)
Definition readable (k : kvStorageBackend.t Doc) (key : MetaDataKey.t)
  (value : bytes) : Prop :=
  (dataStore_Get faults (dataKeyOfMeta key) k).1 =
    Ok (inr (reader value None)).

End BackendDrivers.

(** The list iterator that [ListIterator] hands to its callback. *)
Definition newListIterator (keys : list MetaDataKey.t) (listRV offset : Z)
  : kvListIterator.t :=
  kvListIterator.mk keys (-1) listRV offset 0 None [].

(** The cursor of a list request: no token, hence offset 0 and the
    request's resource version, or a token that decodes and gives both. *)
Definition listCursor
  (GetContinueToken : string -> error + ContinueToken.t)
  (req : ListRequest.t) (offset resourceVersion : Z) : Prop :=
  (req.(ListRequest.NextPageToken) = "" /\ offset = 0 /\
   resourceVersion = req.(ListRequest.ResourceVersion)) \/
  (req.(ListRequest.NextPageToken) <> "" /\
   exists token,
     GetContinueToken req.(ListRequest.NextPageToken) = inr token /\
     offset = token.(ContinueToken.StartOffset) /\
     resourceVersion = token.(ContinueToken.ResourceVersion)).

(** The keys of the page that [ListIterator] collects from a scan: at
    most [Limit + 1] of the entries past the first [offset], and never
    fewer than one when there is one. *)
Definition pageOf (req : ListRequest.t) (offset : Z)
  (scan : list MetaDataKey.t) : list MetaDataKey.t :=
  List.firstn (Z.to_nat (Z.max 1 (wrap64 (req.(ListRequest.Limit) + 1))))
    (List.skipn (Z.to_nat offset) scan).


(** [s] holds no slash. *)
Fixpoint noSlash (s : string) : bool :=
  match s with
  | EmptyString => true
  | String c s' => negb (Ascii.eqb c slash) && noSlash s'
  end.

(** The value [f] of the last scanned key that [sel] selects. *)
Fixpoint lastOf {A : Type} (sel : DataKey.t -> bool) (f : DataKey.t -> A)
  (scanned : list DataKey.t) : option A :=
  match scanned with
  | [] => None
  | dataKey :: rest =>
      match lastOf sel f rest with
      | Some a => Some a
      | None => if sel dataKey then Some (f dataKey) else None
      end
  end.

(** [dataKey] belongs to the namespace, group and resource. *)
Definition inGroupResource (ns g r : string) (dataKey : DataKey.t) : bool :=
  bool_decide (dataKey.(DataKey.Namespace) = ns) &&
  bool_decide (dataKey.(DataKey.Group) = g) &&
  bool_decide (dataKey.(DataKey.Resource) = r).

(** Whether the last scanned key of the name in the group/resource is not
    a deletion. *)
Definition lastLive (scanned : list DataKey.t) (ns g r name : string)
  : option bool :=
  lastOf (fun dataKey => inGroupResource ns g r dataKey &&
                         bool_decide (dataKey.(DataKey.Name) = name))
    (fun dataKey => negb (isDeleted dataKey.(DataKey.Action))) scanned.

(** The version of the last scanned key of the group/resource. *)
Definition lastVersion (scanned : list DataKey.t) (ns g r : string)
  : option Z :=
  lastOf (inGroupResource ns g r) DataKey.ResourceVersion scanned.

(** The data keys under a namespace, as the statistics scan yields them. *)
Definition scannedUnder {Doc : Type} (namespace : string)
  (k : kvStorageBackend.t Doc) : list DataKey.t :=
  List.filter (DataKey_matches (RequestKey.mk namespace "" "" ""))
    (List.map fst k.(kvStorageBackend.dataStore)).

(** The liveness that the scan's table holds for a name of a key. *)
Definition liveOf (res : gmap string (gmap string bool)) (key name : string)
  : option bool :=
  match res !! key with
  | Some names => names !! name
  | None => None
  end.

(** The fields of a scanned key hold no slash. *)
Definition slashFree (dataKey : DataKey.t) : Prop :=
  noSlash dataKey.(DataKey.Namespace) = true /\
  noSlash dataKey.(DataKey.Group) = true /\
  noSlash dataKey.(DataKey.Resource) = true.

(** The data key that [WatchWriteEvents] fetches for a notifier event. *)
Definition eventDataKey (event : Event.t) : DataKey.t :=
  DataKey.mk event.(Event.Namespace) event.(Event.Group)
    event.(Event.Resource) event.(Event.Name)
    event.(Event.ResourceVersion) event.(Event.Action).

(** The payload that the watch fetches and reads for [event] in [k], when
    both steps succeed. *)
Definition fetched {Doc : Type} (faults : Faults.t)
  (k : kvStorageBackend.t Doc) (event : Event.t) : option bytes :=
  match (dataStore_Get faults (eventDataKey event) k).1 with
  | Ok (inr dataReader) =>
      match io_ReadAll dataReader with
      | inr data => Some data
      | inl _ => None
      end
  | _ => None
  end.

(** [written] is what the watch sends for the notifier event [event]. *)
Definition delivers {Doc : Type} (faults : Faults.t)
  (k : kvStorageBackend.t Doc) (event : Event.t) (written : WrittenEvent.t)
  : Prop :=
  written.(WrittenEvent.Key) =
    ResourceKey.mk event.(Event.Namespace) event.(Event.Group)
      event.(Event.Resource) event.(Event.Name) /\
  written.(WrittenEvent.EventType) = watchEventType event.(Event.Action) /\
  written.(WrittenEvent.Folder) = event.(Event.Folder) /\
  fetched faults k event = Some written.(WrittenEvent.Value) /\
  written.(WrittenEvent.ResourceVersion) = event.(Event.ResourceVersion) /\
  written.(WrittenEvent.PreviousRV) = event.(Event.PreviousRV) /\
  written.(WrittenEvent.Timestamp) =
    Z.quot event.(Event.ResourceVersion) Second_Nanoseconds.

(** The version match of a history request holds of a revision. *)
Definition versionMatches (req : ListRequest.t) (entry : DataKey.t) : Prop :=
  let rv := req.(ListRequest.ResourceVersion) in
  match req.(ListRequest.VersionMatchV2) with
  | ResourceVersionMatchV2_Exact => entry.(DataKey.ResourceVersion) = rv
  | ResourceVersionMatchV2_NotOlderThan =>
      0 < rv -> rv <= entry.(DataKey.ResourceVersion)
  | _ => 0 < rv -> entry.(DataKey.ResourceVersion) <= rv
  end.

(** The stored revisions of the object that a history request lists,
    whatever the page: those that the version match selects and, for
    trash, the Deleted revision of highest version of an object that the
    latest lookup reports as not found; otherwise, for a request without
    resource version and without Exact matching, only the revisions newer
    than every Deleted one. *)
Definition listed {Doc : Type} (faults : Faults.t) (req : ListRequest.t)
  (key : ResourceKey.t) (k : kvStorageBackend.t Doc) (entry : DataKey.t)
  : Prop :=
  In entry (historyOf key k) /\
  versionMatches req entry /\
  if isTrash req.(ListRequest.Source) then
    entry.(DataKey.Action) = DataActionDeleted /\
    (forall other, In other (historyOf key k) ->
       other.(DataKey.Action) = DataActionDeleted ->
       other.(DataKey.ResourceVersion) <= entry.(DataKey.ResourceVersion)) /\
    latestLookup faults key k = inl ErrNotFound
  else
    req.(ListRequest.ResourceVersion) = 0 ->
    isExact req.(ListRequest.VersionMatchV2) = false ->
    forall deleted,
      In deleted (historyOf key k) ->
      deleted.(DataKey.Action) = DataActionDeleted ->
      0 < deleted.(DataKey.ResourceVersion) ->
      deleted.(DataKey.ResourceVersion) < entry.(DataKey.ResourceVersion).

(** ** Sample collaborators and states *)

Definition sample_Validate : WriteEvent.t -> option error := fun _ => None.

Definition sample_BuildDocument : ResourceKey.t -> Z -> bytes -> error + bytes :=
  fun _ _ value => inr value.

Definition sample_key (name : string) : ResourceKey.t :=
  ResourceKey.mk "default" "dashboard.grafana.app" "dashboards" name.

Definition sample_event (type : WatchEvent_Type) (name : string)
  : WriteEvent.t :=
  WriteEvent.mk type (sample_key name) [Byte.x7b; Byte.x7d] "folder" 0.

Definition sample_empty : kvStorageBackend.t bytes :=
  kvStorageBackend.mk 100 [] [] [].

Definition sample_write (faults : Faults.t) (type : WatchEvent_Type)
  (name : string) (k : kvStorageBackend.t bytes) : kvStorageBackend.t bytes :=
  (WriteEvent sample_Validate sample_BuildDocument faults
     (sample_event type name) k).2.

(** [b] created at 101, then [a] created at 102. *)
Definition sample_two : kvStorageBackend.t bytes :=
  sample_write no_faults WatchEvent_ADDED "a"
    (sample_write no_faults WatchEvent_ADDED "b" sample_empty).

(** ... then [a] updated at 103 and deleted at 104. *)
Definition sample_deleted : kvStorageBackend.t bytes :=
  sample_write no_faults WatchEvent_DELETED "a"
    (sample_write no_faults WatchEvent_MODIFIED "a" sample_two).

(** ... then [a] created again at 105 and updated at 106. *)
Definition sample_recreated : kvStorageBackend.t bytes :=
  sample_write no_faults WatchEvent_MODIFIED "a"
    (sample_write no_faults WatchEvent_ADDED "a" sample_deleted).

Definition backend_failure : error := ErrorNew "kv: connection refused".

(** The metadata store is unreachable for point lookups. *)
Definition meta_Get_down : Faults.t :=
  Faults.mk (fun _ => None) (fun _ => None) (fun _ => None) (fun _ => None)
            (fun _ => None) (fun _ => Some backend_failure) (fun _ => None)
            (fun _ => None).

(** The metadata store rejects every save. *)
Definition meta_Save_down : Faults.t :=
  Faults.mk (fun _ => None) (fun _ => None) (fun _ => None) (fun _ => None)
            (fun _ => Some backend_failure) (fun _ => None) (fun _ => None)
            (fun _ => None).

(** The data store fails every point get. *)
Definition data_Get_down : Faults.t :=
  Faults.mk (fun _ => None) (fun _ => Some backend_failure) (fun _ => None)
            (fun _ => None) (fun _ => None) (fun _ => None) (fun _ => None)
            (fun _ => None).

(** A shared store whose generator stands at 100 while another backend
    instance, whose generator runs ahead, has written object [0] at 200;
    [a] and [b] were written at 50 and 60. *)
Definition sample_meta (name : string) (rv : Z) (action : DataAction)
  : MetaDataObj.t bytes :=
  MetaDataObj.mk
    (MetaDataKey.mk "default" "dashboard.grafana.app" "dashboards" name rv
       action "folder")
    (MetaData.mk []).

Definition sample_data (name : string) (rv : Z) (action : DataAction)
  : DataKey.t * bytes :=
  (DataKey.mk "default" "dashboard.grafana.app" "dashboards" name rv action,
   [Byte.x7b; Byte.x7d]).

Definition sample_dataKey (name : string) (rv : Z) (action : DataAction)
  : DataKey.t :=
  (sample_data name rv action).1.

Definition sample_ahead : kvStorageBackend.t bytes :=
  kvStorageBackend.mk 100
    [sample_data "0" 200 DataActionCreated;
     sample_data "a" 50 DataActionCreated;
     sample_data "b" 60 DataActionCreated]
    [sample_meta "0" 200 DataActionCreated;
     sample_meta "a" 50 DataActionCreated;
     sample_meta "b" 60 DataActionCreated]
    [].

Definition sample_metaKey (name : string) (rv : Z) : MetaDataKey.t :=
  (sample_meta name rv DataActionCreated).(MetaDataObj.Key).

(** A list request for the dashboards of the namespace. *)
Definition sample_list (token : string) (rv limit : Z) : ListRequest.t :=
  ListRequest.mk token rv ResourceVersionMatchV2_Unset limit
    (Some (Some (sample_key ""))) ListRequest_STORE.

(** A history request for dashboard [a]. *)
Definition sample_history (token : string) (rv : Z)
  (vmatch : ResourceVersionMatchV2) (source : ListRequest_Source)
  : ListRequest.t :=
  ListRequest.mk token rv vmatch 10 (Some (Some (sample_key "a"))) source.

(** A codec double: every token string decodes to the given token. *)
Definition decodes_to (token : ContinueToken.t)
  : string -> error + ContinueToken.t :=
  fun _ => inr token.

(** ** Proofs *)

(** Unfolds the monad's operations so that a method applied to a state
    computes. *)
Ltac unfold_M :=
  unfold mbind, mret, M_bind, M_ret, fail, panic, gets, check in *.

Section WriteProofs.

Context {Doc : Type}.
Variable Validate : WriteEvent.t -> option error.
Variable BuildDocument : ResourceKey.t -> Z -> bytes -> error + Doc.
Variable faults : Faults.t.

Lemma isErrNotFound_true (e : error) : isErrNotFound e = true <-> e = ErrNotFound.
Proof. destruct e; simpl; split; congruence. Qed.

Lemma kv_put_In {E : Type} (cmp : E -> E -> comparison) (e : E) (l : list E) :
  In e (kv_put cmp e l).
Proof.
  induction l as [|e' l IH]; simpl; [by left|].
  destruct (cmp e e'); simpl; auto.
Qed.

(** The run of an accepted write whose document builds, step by step. *)
Lemma WriteEvent_accepted_run (event : WriteEvent.t)
  (k : kvStorageBackend.t Doc) (action : DataAction) (doc : Doc) :
  acceptedAs Validate faults event k action ->
  BuildDocument event.(WriteEvent.Key) (k.(kvStorageBackend.snowflake) + 1)
    event.(WriteEvent.Value) = inr doc ->
  let rv := k.(kvStorageBackend.snowflake) + 1 in
  WriteEvent Validate BuildDocument faults event k =
  match faults.(Faults.data_Save) (dataKeyOf event rv action) with
  | Some e =>
      (Fail (ErrorWrap "failed to write data" e),
       kvStorageBackend.mk rv k.(kvStorageBackend.dataStore)
         k.(kvStorageBackend.metaStore) k.(kvStorageBackend.eventStore))
  | None =>
      match faults.(Faults.meta_Save) (metaKeyOf event rv action) with
      | Some e =>
          (Fail (ErrorWrap "failed to write metadata" e),
           putData event rv action k)
      | None =>
          match faults.(Faults.event_Save) (eventOf event rv action) with
          | Some e =>
              (Fail (ErrorWrap "failed to save event" e),
               putMeta event rv action doc (putData event rv action k))
          | None =>
              (Ok rv,
               putEvent event rv action
                 (putMeta event rv action doc (putData event rv action k)))
          end
      end
  end.
Proof.
  intros [Hvalid Hacc] Hdoc rv.
  unfold WriteEvent. rewrite Hvalid.
  unfold existenceCheck, latestLookup, requestKeyOf in Hacc.
  unfold snowflake_Generate, metaStore_GetLatestResourceKey,
    dataStore_Save, metaStore_Save, eventStore_Save.
  unfold_M. unfold metaKeys in *. subst rv. simpl.
  destruct (event.(WriteEvent.EventType)); try contradiction.
  1: destruct Hacc as [Ha Hc]; cbn [kvStorageBackend.metaStore]; rewrite Hc.
  all: subst action.
  all: simpl; rewrite Hdoc.
  all: unfold putData, putMeta, putEvent, dataKeyOf, metaKeyOf, eventOf; simpl.
  all: destruct (Faults.data_Save faults _); [done|]; simpl.
  all: destruct (Faults.meta_Save faults _); [done|]; simpl.
  all: by destruct (Faults.event_Save faults _).
Qed.

(** C3: a write of type Added first resolves the latest MetaRecord of the
    key.  If the lookup finds a live record the write fails with
    AlreadyExists; if the lookup fails with an error other than NotFound
    that error is returned (wrapped); in both cases the three stores are
    left as they were.  A write of type Added that returns a version, or
    that changes a store, had a NotFound lookup. *)
Theorem WriteEvent_Added_existence_check (event : WriteEvent.t)
  (k : kvStorageBackend.t Doc) :
  event.(WriteEvent.EventType) = WatchEvent_ADDED ->
  Validate event = None ->
  let out := WriteEvent Validate BuildDocument faults event k in
  (forall found, existenceCheck faults event k = inr found ->
     out.1 = Fail ErrResourceAlreadyExists /\ sameStores k out.2) /\
  (forall err, existenceCheck faults event k = inl err -> err <> ErrNotFound ->
     out.1 = Fail (ErrorWrap "failed to check if resource exists" err) /\
     sameStores k out.2) /\
  ((~ sameStores k out.2 \/ exists rv, out.1 = Ok rv) ->
     existenceCheck faults event k = inl ErrNotFound) /\
  (existenceCheck faults event k = inl ErrNotFound ->
   forall doc,
     let rv := k.(kvStorageBackend.snowflake) + 1 in
     BuildDocument event.(WriteEvent.Key) rv event.(WriteEvent.Value) = inr doc ->
     faults.(Faults.data_Save) (dataKeyOf event rv DataActionCreated) = None ->
     faults.(Faults.meta_Save) (metaKeyOf event rv DataActionCreated) = None ->
     faults.(Faults.event_Save) (eventOf event rv DataActionCreated) = None ->
     out.1 = Ok rv /\
     In (dataKeyOf event rv DataActionCreated, event.(WriteEvent.Value))
        out.2.(kvStorageBackend.dataStore)).
Proof.
  intros Htype Hvalid out.
  assert (Hout : forall r, existenceCheck faults event k = r ->
            match r with
            | inr _ => out.1 = Fail ErrResourceAlreadyExists /\ sameStores k out.2
            | inl err =>
                err = ErrNotFound \/
                (out.1 = Fail (ErrorWrap "failed to check if resource exists" err)
                 /\ sameStores k out.2)
            end).
  { intros r Hr. subst out. unfold WriteEvent. rewrite Hvalid, Htype.
    unfold existenceCheck, latestLookup, requestKeyOf in Hr.
    unfold_M. unfold snowflake_Generate, metaStore_GetLatestResourceKey.
    unfold_M. unfold metaKeys in *. simpl. rewrite Hr.
    destruct r as [err|found]; simpl.
    - destruct (isErrNotFound err) eqn:Hnf.
      + left. by apply isErrNotFound_true.
      + right. by repeat split.
    - by repeat split. }
  split; [|split; [|split]].
  - intros found Hr. exact (Hout _ Hr).
  - intros err Hr Hne. destruct (Hout _ Hr) as [?|?]; [contradiction|done].
  - intros Hmoved.
    destruct (existenceCheck faults event k) as [err|found] eqn:Hr.
    + destruct (Hout _ eq_refl) as [->|[Hfail Hsame]]; [done|].
      destruct Hmoved as [Hm|[rv Hrv]]; [contradiction|congruence].
    + destruct (Hout _ eq_refl) as [Hfail Hsame].
      destruct Hmoved as [Hm|[rv Hrv]]; [contradiction|congruence].
  - intros Hnf doc rv Hdoc Hd Hm He. subst out.
    rewrite (WriteEvent_accepted_run event k DataActionCreated doc).
    + fold rv. rewrite Hd, Hm, He. simpl. split; [done|apply kv_put_In].
    + split; [done|]. by rewrite Htype.
    + done.
Qed.

(** C4: an accepted write whose document builds puts, in this order, the
    DataRecord, the MetaRecord with the built document and the folder, and
    the EventRecord with the caller's PreviousRV, all three under the
    version minted for the write.  When a put fails the write returns that
    error and the records put before it stay: a failed data save leaves
    the stores as they were, a failed metadata save leaves the DataRecord
    in the data store, a failed event save leaves the DataRecord and the
    MetaRecord. *)
Theorem WriteEvent_persists_in_order (event : WriteEvent.t)
  (k : kvStorageBackend.t Doc) (action : DataAction) (doc : Doc) :
  acceptedAs Validate faults event k action ->
  BuildDocument event.(WriteEvent.Key) (k.(kvStorageBackend.snowflake) + 1)
    event.(WriteEvent.Value) = inr doc ->
  let rv := k.(kvStorageBackend.snowflake) + 1 in
  let out := WriteEvent Validate BuildDocument faults event k in
  let dataRec := (dataKeyOf event rv action, event.(WriteEvent.Value)) in
  let metaRec :=
    MetaDataObj.mk (metaKeyOf event rv action) (MetaData.mk doc) in
  let eventRec := eventOf event rv action in
  let dataPut :=
    out.2.(kvStorageBackend.dataStore) =
      kv_put (fun a b => DataKey_compare a.1 b.1) dataRec
        k.(kvStorageBackend.dataStore) /\
    In dataRec out.2.(kvStorageBackend.dataStore) in
  let metaPut :=
    out.2.(kvStorageBackend.metaStore) =
      kv_put (fun a b => MetaDataKey_compare a.(MetaDataObj.Key)
                            b.(MetaDataObj.Key)) metaRec
        k.(kvStorageBackend.metaStore) /\
    In metaRec out.2.(kvStorageBackend.metaStore) in
  match faults.(Faults.data_Save) dataRec.1,
        faults.(Faults.meta_Save) metaRec.(MetaDataObj.Key),
        faults.(Faults.event_Save) eventRec with
  | Some e, _, _ =>
      out.1 = Fail (ErrorWrap "failed to write data" e) /\ sameStores k out.2
  | None, Some e, _ =>
      out.1 = Fail (ErrorWrap "failed to write metadata" e) /\ dataPut /\
      out.2.(kvStorageBackend.metaStore) = k.(kvStorageBackend.metaStore) /\
      out.2.(kvStorageBackend.eventStore) = k.(kvStorageBackend.eventStore)
  | None, None, Some e =>
      out.1 = Fail (ErrorWrap "failed to save event" e) /\ dataPut /\
      metaPut /\
      out.2.(kvStorageBackend.eventStore) = k.(kvStorageBackend.eventStore)
  | None, None, None =>
      out.1 = Ok rv /\ dataPut /\ metaPut /\
      out.2.(kvStorageBackend.eventStore) =
        (k.(kvStorageBackend.eventStore) ++ [eventRec])%list
  end.
Proof.
  intros Hacc Hdoc rv out dataRec metaRec eventRec dataPut metaPut.
  subst out dataPut metaPut.
  rewrite (WriteEvent_accepted_run event k action doc Hacc Hdoc).
  fold rv. subst dataRec metaRec eventRec. simpl.
  destruct (faults.(Faults.data_Save) (dataKeyOf event rv action)).
  { simpl. by repeat split. }
  destruct (faults.(Faults.meta_Save) (metaKeyOf event rv action)).
  { simpl. repeat split; apply kv_put_In. }
  destruct (faults.(Faults.event_Save) (eventOf event rv action)).
  { simpl. repeat split; apply kv_put_In. }
  simpl. repeat split; apply kv_put_In.
Qed.

End WriteProofs.

Section ReadProofs.

Context {Doc : Type}.
Variable faults : Faults.t.

Lemma highestRV_spec (l : list MetaDataKey.t) (best : option MetaDataKey.t)
  (m : MetaDataKey.t) :
  highestRV best l = Some m ->
  (best = Some m \/ In m l) /\
  (forall b, best = Some b ->
     b.(MetaDataKey.ResourceVersion) <= m.(MetaDataKey.ResourceVersion)) /\
  (forall x, In x l ->
     x.(MetaDataKey.ResourceVersion) <= m.(MetaDataKey.ResourceVersion)).
Proof.
  revert best. induction l as [|x l IH]; intros best H; simpl in H.
  - subst best. split; [by left|]. split.
    + intros b [= ->]. lia.
    + intros x [].
  - destruct best as [b|].
    + destruct (Z.ltb_spec b.(MetaDataKey.ResourceVersion)
                  x.(MetaDataKey.ResourceVersion)) as [Hlt|Hge].
      * destruct (IH _ H) as (Hin & Hb & Hall). split; [|split].
        -- destruct Hin as [[= ->]|Hin]; right; [by left|by right].
        -- intros b' [= <-]. specialize (Hb x eq_refl). lia.
        -- intros y [<-|Hy]; [by apply Hb|by apply Hall].
      * destruct (IH _ H) as (Hin & Hb & Hall). split; [|split].
        -- destruct Hin as [Hin|Hin]; [by left|right; by right].
        -- done.
        -- intros y [<-|Hy]; [|by apply Hall].
           specialize (Hb b eq_refl). lia.
    + destruct (IH _ H) as (Hin & Hb & Hall). split; [|split].
      * destruct Hin as [[= ->]|Hin]; right; [by left|by right].
      * intros b [=].
      * intros y [<-|Hy]; [by apply Hb|by apply Hall].
Qed.

Lemma highestRV_None (l : list MetaDataKey.t) (best : option MetaDataKey.t) :
  highestRV best l = None -> best = None /\ l = [].
Proof.
  revert best. induction l as [|x l IH]; intros best H; simpl in H; [done|].
  destruct best as [b|].
  - destruct (_ <? _); by destruct (IH _ H).
  - by destruct (IH _ H).
Qed.

(** What the "latest" lookup returns: the object's record with the highest
    RV, which is not a deletion. *)
Lemma latestResourceKey_spec (ms : list MetaDataKey.t) (req : RequestKey.t)
  (m : MetaDataKey.t) :
  latestResourceKey ms req = inr m ->
  In m ms /\ MetaDataKey_sameObject req m = true /\
  isDeleted m.(MetaDataKey.Action) = false /\
  (forall m', In m' ms -> MetaDataKey_sameObject req m' = true ->
     m'.(MetaDataKey.ResourceVersion) <= m.(MetaDataKey.ResourceVersion)).
Proof.
  unfold latestResourceKey. intros H.
  destruct (highestRV None _) as [key|] eqn:Hh; [|done].
  destruct (isDeleted key.(MetaDataKey.Action)) eqn:Hdel; [done|].
  injection H as ->.
  destruct (highestRV_spec _ _ _ Hh) as ([?|Hin] & _ & Hall); [done|].
  apply filter_In in Hin as [Hin Hsame].
  repeat split; try done.
  intros m' Hm' Hs. apply Hall. by apply filter_In.
Qed.

(** What the "at RV" lookup returns for a requested RV other than 0: the
    object's record with the greatest RV at or below the requested one. *)
Lemma resourceKeyAtRevision_spec (ms : list MetaDataKey.t)
  (req : RequestKey.t) (rv : Z) (m : MetaDataKey.t) :
  rv <> 0 ->
  resourceKeyAtRevision ms req rv = inr m ->
  In m ms /\ MetaDataKey_sameObject req m = true /\
  m.(MetaDataKey.ResourceVersion) <= rv /\
  (forall m', In m' ms -> MetaDataKey_sameObject req m' = true ->
     m'.(MetaDataKey.ResourceVersion) <= rv ->
     m'.(MetaDataKey.ResourceVersion) <= m.(MetaDataKey.ResourceVersion)).
Proof.
  unfold resourceKeyAtRevision. intros Hrv H.
  destruct (Z.eqb_spec rv 0) as [|_]; [done|].
  destruct (highestRV None _) as [key|] eqn:Hh; [|done].
  injection H as ->.
  destruct (highestRV_spec _ _ _ Hh) as ([?|Hin] & _ & Hall); [done|].
  apply filter_In in Hin as [Hin Hc].
  apply andb_true_iff in Hc as [Hsame Hle]. apply Z.leb_le in Hle.
  repeat split; try done.
  intros m' Hm' Hs Hle'. apply Hall. apply filter_In. split; [done|].
  apply andb_true_iff. split; [done|]. by apply Z.leb_le.
Qed.

(** C8: [ReadResource] on a request that carries a key resolves the
    MetaRecord through the metadata store: barring a store failure, for a
    requested version other than 0 the resolved record is the object's
    record with the greatest RV at or below the requested one, and for
    version 0 it is the object's latest record, which is live.  When the
    resolution yields NotFound the response is the 404 "not found" result;
    every other resolution error, and a failure to get or read the
    payload, is a 500 result; and when the payload is read the response
    carries the key, the payload, the resolved record's folder and its
    RV.  The read changes no store. *)
Theorem ReadResource_resolves_at_revision (req : ReadRequest.t)
  (key : ResourceKey.t) (k : kvStorageBackend.t Doc) :
  req.(ReadRequest.Key) = Some key ->
  let rv := req.(ReadRequest.ResourceVersion) in
  let out := ReadResource faults req k in
  let resolved :=
    (metaStore_GetResourceKeyAtRevision faults (requestKeyOf key) rv k).1 in
  out.2 = k /\
  (forall m, faults.(Faults.meta_Get) (requestKeyOf key) = None ->
     resolved = Ok (inr m) ->
     In m (metaKeys k) /\ MetaDataKey_sameObject (requestKeyOf key) m = true /\
     (rv <> 0 -> m.(MetaDataKey.ResourceVersion) <= rv) /\
     (rv = 0 -> isDeleted m.(MetaDataKey.Action) = false) /\
     (forall m', In m' (metaKeys k) ->
        MetaDataKey_sameObject (requestKeyOf key) m' = true ->
        rv = 0 \/ m'.(MetaDataKey.ResourceVersion) <= rv ->
        m'.(MetaDataKey.ResourceVersion) <= m.(MetaDataKey.ResourceVersion))) /\
  (resolved = Ok (inl ErrNotFound) ->
     out.1 = Ok (errorResponse StatusNotFound "not found")) /\
  (forall err, resolved = Ok (inl err) -> err <> ErrNotFound ->
     out.1 = Ok (errorResponse StatusInternalServerError (error_Error err))) /\
  (forall m, resolved = Ok (inr m) ->
     match (dataStore_Get faults
              (DataKey.mk key.(ResourceKey.Namespace) key.(ResourceKey.Group)
                 key.(ResourceKey.Resource) key.(ResourceKey.Name)
                 m.(MetaDataKey.ResourceVersion) m.(MetaDataKey.Action)) k).1
     with
     | Ok (inr data) =>
         match io_ReadAll data with
         | inr value =>
             out.1 = Ok (BackendReadResponse.mk (Some key)
                           m.(MetaDataKey.ResourceVersion) value
                           m.(MetaDataKey.Folder) None)
         | inl err =>
             out.1 = Ok (errorResponse StatusInternalServerError
                           (error_Error err))
         end
     | Ok (inl err) =>
         out.1 = Ok (errorResponse StatusInternalServerError (error_Error err))
     | _ => False
     end).
Proof.
  intros Hkey rv out resolved.
  subst out resolved. unfold ReadResource. rewrite Hkey.
  unfold metaStore_GetResourceKeyAtRevision, dataStore_Get, requestKeyOf.
  unfold_M. fold rv. simpl.
  set (rk := RequestKey.mk _ _ _ _).
  split; [|split; [|split; [|split]]].
  - destruct (faults.(Faults.meta_Get) rk) as [e|].
    + by destruct (isErrNotFound e).
    + destruct (resourceKeyAtRevision (metaKeys k) rk rv) as [e|m].
      * by destruct (isErrNotFound e).
      * simpl. destruct (faults.(Faults.data_Get) _); [done|].
        destruct (List.find _ _) as [[? v]|]; [|done].
        by destruct (io_ReadAll _).
  - intros m Hnofault Hres. rewrite Hnofault in Hres.
    injection Hres as Hres.
    destruct (Z.eq_dec rv 0) as [Hz|Hnz].
    + unfold resourceKeyAtRevision in Hres. rewrite Hz in Hres. simpl in Hres.
      destruct (latestResourceKey_spec _ _ _ Hres) as (Hin & Hs & Hd & Hall).
      repeat split; try done. intros m' Hm' Hs' _. by apply Hall.
    + destruct (resourceKeyAtRevision_spec _ _ _ _ Hnz Hres)
        as (Hin & Hs & Hle & Hall).
      repeat split; try done.
      intros m' Hm' Hs' [?|?]; [done|]. by apply Hall.
  - intros Hres. injection Hres as Hres. by rewrite Hres.
  - intros err Hres Hne. injection Hres as Hres. rewrite Hres.
    destruct (isErrNotFound err) eqn:Hnf; [|done].
    by apply isErrNotFound_true in Hnf.
  - intros m Hres. injection Hres as Hres. rewrite Hres. simpl.
    destruct (faults.(Faults.data_Get) _); [done|].
    destruct (List.find _ _) as [[? v]|]; [|done].
    simpl. by destruct (faults.(Faults.data_Read) _).
Qed.

End ReadProofs.

Section ListProofs.

Context {Doc : Type}.
Variable GetContinueToken : string -> error + ContinueToken.t.
Variable faults : Faults.t.

Lemma afterCallback_bind (listRV : Z)
  (cb : M Doc (option error)) (k : kvStorageBackend.t Doc) :
  (err ← cb;
   match err with
   | Some e => fail e
   | None => mret listRV
   end) k = afterCallback listRV (cb k).
Proof.
  unfold_M. unfold afterCallback.
  by destruct (cb k) as [[[e|]|e|msg] k'].
Qed.

(** The run of [ListIterator] up to its callback. *)
Lemma ListIterator_visits (req : ListRequest.t) (key : ResourceKey.t)
  (k : kvStorageBackend.t Doc) (offset resourceVersion : Z)
  (keys : list MetaDataKey.t) :
  req.(ListRequest.Options) = Some (Some key) ->
  capacityOk req ->
  (req.(ListRequest.NextPageToken) = "" /\ offset = 0 /\
   resourceVersion = req.(ListRequest.ResourceVersion)) \/
  (req.(ListRequest.NextPageToken) <> "" /\
   exists token,
     GetContinueToken req.(ListRequest.NextPageToken) = inr token /\
     offset = token.(ContinueToken.StartOffset) /\
     resourceVersion = token.(ContinueToken.ResourceVersion)) ->
  faults.(Faults.meta_List) (requestKeyOf key) = None ->
  collectKeys offset (wrap64 (req.(ListRequest.Limit) + 1)) 0 []
    (List.map inr
       (listResourceKeysAtRevision (metaKeys k) (requestKeyOf key)
          resourceVersion)) = inr keys ->
  listVisits GetContinueToken faults req k
    (kvListIterator.mk keys (-1)
       (if 0 <? resourceVersion then resourceVersion
        else k.(kvStorageBackend.snowflake) + 1)
       offset 0 None []).
Proof.
  intros Hopt Hcap Htok Hfault Hkeys cb.
  unfold ListIterator. rewrite Hopt.
  assert (Hcursor :
    (if decide (req.(ListRequest.NextPageToken) = "")
     then mret (0, req.(ListRequest.ResourceVersion))
     else
       match GetContinueToken req.(ListRequest.NextPageToken) with
       | inl err => fail (ErrorWrap "invalid continue token" err)
       | inr token =>
           mret (token.(ContinueToken.StartOffset),
                 token.(ContinueToken.ResourceVersion))
       end : M Doc (Z * Z)) = mret (offset, resourceVersion)).
  { destruct Htok as [(Hnil & -> & ->)|(Hne & token & Hdec & -> & ->)].
    - by rewrite decide_True.
    - rewrite decide_False by done. by rewrite Hdec. }
  rewrite Hcursor. clear Hcursor.
  unfold capacityOk in Hcap.
  unfold snowflake_Generate, metaStore_ListResourceKeysAtRevision.
  unfold_M. unfold requestKeyOf, metaKeys in *.
  cbn [kvStorageBackend.metaStore kvStorageBackend.snowflake].
  destruct (Z.ltb_spec
              (Z.min defaultListBufferSize
                 (wrap64 (req.(ListRequest.Limit) + 1))) 0); [lia|].
  rewrite Hfault. cbn [kvStorageBackend.metaStore].
  rewrite Hkeys. unfold afterCallback, tick.
  by destruct (cb _ _) as [[[e|]|e|msg] k'].
Qed.

(** C10: [Error] of the list iterator returns nil on every iterator.  In
    particular, when [Next] stops because the data store fails to get the
    record, or because reading its payload fails, [Next] returns false with
    the failure stored in the iterator and [Error] still returns nil, which
    is what [Next] and [Error] return at the end of the page. *)
Theorem kvListIterator_Error_always_nil :
  (forall i : kvListIterator.t, kvListIterator_Error i = None) /\
  (forall (i : kvListIterator.t) (k : kvStorageBackend.t Doc)
          (key : MetaDataKey.t) (e : error),
     let idx := i.(kvListIterator.currentIndex) + 1 in
     let got := (dataStore_Get faults (dataKeyOfMeta key) k).1 in
     0 <= idx ->
     List.nth_error i.(kvListIterator.keys) (Z.to_nat idx) = Some key ->
     (got = Ok (inl e) \/
      exists data, got = Ok (inr data) /\ io_ReadAll data = inl e) ->
     exists i',
       kvListIterator_Next faults i k = (Ok (false, i'), k) /\
       i'.(kvListIterator.err) = Some e /\
       kvListIterator_Error i' = None) /\
  (forall (i : kvListIterator.t) (k : kvStorageBackend.t Doc),
     Z.of_nat (length i.(kvListIterator.keys)) <=
       i.(kvListIterator.currentIndex) + 1 ->
     exists i',
       kvListIterator_Next faults i k = (Ok (false, i'), k) /\
       kvListIterator_Error i' = None).
Proof.
  split; [done|]. split.
  - intros i k key e idx got Hidx Hnth Hfail.
    assert (Hlen : (Z.to_nat idx < length i.(kvListIterator.keys))%nat).
    { apply nth_error_Some. by rewrite Hnth. }
    unfold kvListIterator_Next. fold idx.
    destruct (Z.leb_spec (Z.of_nat (length i.(kvListIterator.keys))) idx);
      [lia|].
    destruct (Z.ltb_spec idx 0); [lia|].
    rewrite Hnth. unfold_M.
    change (DataKey.mk _ _ _ _ _ _) with (dataKeyOfMeta key).
    subst got.
    destruct (dataStore_Get faults (dataKeyOfMeta key) k) as [r k'] eqn:Hget.
    assert (k' = k) as ->.
    { unfold dataStore_Get in Hget. unfold_M. congruence. }
    simpl in Hfail.
    destruct Hfail as [->|(data & -> & Hread)].
    + eexists. split; [reflexivity|]. done.
    + rewrite Hread. eexists. split; [reflexivity|]. done.
  - intros i k Hend. unfold kvListIterator_Next.
    destruct (Z.leb_spec (Z.of_nat (length i.(kvListIterator.keys)))
                (i.(kvListIterator.currentIndex) + 1)); [|lia].
    eexists. split; [reflexivity|]. done.
Qed.

End ListProofs.

(** C1 (what the code does on the first page): a [ListIterator] call with
    no continuation token and no resource version mints list version 101
    but scans the metadata at version 0, the latest state, so its page
    holds object [0], written at 200, which the scan at 101 does not see.
    The token the iterator issues carries 101, the page fetched with it is
    scanned at 101 and, one entry being skipped, starts at [b]: [a] is on
    neither page. *)
Theorem ListIterator_first_page_scans_latest :
  let first :=
    kvListIterator.mk [sample_metaKey "0" 200; sample_metaKey "a" 50]
      (-1) 101 0 0 None [] in
  let read :=
    kvListIterator.mk [sample_metaKey "0" 200; sample_metaKey "a" 50]
      0 101 1 200 None [Byte.x7b; Byte.x7d] in
  listVisits (decodes_to (ContinueToken.mk 0 0 false)) no_faults
    (sample_list "" 0 1) sample_ahead first /\
  listResourceKeysAtRevision (metaKeys sample_ahead)
    (requestKeyOf (sample_key "")) first.(kvListIterator.listRV) =
    [sample_metaKey "a" 50; sample_metaKey "b" 60] /\
  kvListIterator_Next no_faults first (tick sample_ahead) =
    (Ok (true, read), tick sample_ahead) /\
  kvListIterator_token read = ContinueToken.mk 1 101 false /\
  listVisits (decodes_to (kvListIterator_token read)) no_faults
    (sample_list "page-2" 0 1) (tick sample_ahead)
    (kvListIterator.mk [sample_metaKey "b" 60] (-1) 101 1 0 None []).
Proof.
  intros first read. repeat split.
  - apply (ListIterator_visits _ _ _ (sample_key "") sample_ahead 0 0);
      [reflexivity|by vm_compute|by left|reflexivity|by vm_compute].
  - apply (ListIterator_visits _ _ _ (sample_key "") (tick sample_ahead)
             1 101); [reflexivity|by vm_compute| |reflexivity|by vm_compute].
    right. split; [done|]. by eexists.
Qed.

Section HistoryProofs.

Context {Doc : Type}.
Variable faults : Faults.t.

Lemma collectAll_map_inr {K : Type} (l acc : list K) :
  collectAll acc (List.map inr l) = inr (acc ++ l)%list.
Proof.
  revert acc. induction l as [|x l IH]; intros acc; simpl.
  - by rewrite app_nil_r.
  - rewrite IH. by rewrite <- app_assoc.
Qed.

Lemma sort_insert_Permutation {A : Type} (less : A -> A -> bool) (x : A)
  (l : list A) : Permutation (x :: l) (sort_insert less x l).
Proof.
  induction l as [|y l IH]; simpl; [done|].
  destruct (less y x); [|done].
  etransitivity; [apply perm_swap|]. by apply perm_skip.
Qed.

Lemma sort_Slice_Permutation {A : Type} (less : A -> A -> bool) (l : list A) :
  Permutation l (sort_Slice less l).
Proof.
  induction l as [|x l IH]; simpl; [done|].
  etransitivity; [|apply sort_insert_Permutation]. by apply perm_skip.
Qed.

Lemma sort_insert_sorted {A : Type} (f : A -> Z) (x : A) (l : list A) :
  StronglySorted (fun a b => f a <= f b) l ->
  StronglySorted (fun a b => f a <= f b)
    (sort_insert (fun a b => f a <? f b) x l).
Proof.
  induction 1 as [|y l Hs IH Hall]; simpl.
  - repeat constructor.
  - destruct (Z.ltb_spec (f y) (f x)) as [Hlt|Hge].
    + constructor; [done|].
      apply List.Forall_forall. intros z Hz.
      apply (Permutation_in _ (Permutation_sym
               (sort_insert_Permutation _ x l))) in Hz.
      destruct Hz as [<-|Hz]; [lia|].
      rewrite List.Forall_forall in Hall. by apply Hall.
    + constructor; [by constructor|].
      constructor; [done|].
      eapply List.Forall_impl; [|exact Hall]. simpl. intros. lia.
Qed.

Lemma sort_Slice_sorted {A : Type} (f : A -> Z) (l : list A) :
  StronglySorted (fun a b => f a <= f b)
    (sort_Slice (fun a b => f a <? f b) l).
Proof.
  induction l as [|x l IH]; simpl; [constructor|].
  by apply sort_insert_sorted.
Qed.

Lemma sort_Slice_ext {A : Type} (less less' : A -> A -> bool) (l : list A) :
  (forall a b, less a b = less' a b) ->
  sort_Slice less l = sort_Slice less' l.
Proof.
  intros Hext. induction l as [|x l IH]; simpl; [done|].
  rewrite IH. generalize (sort_Slice less' l). intros l'.
  induction l' as [|y l' IH']; simpl; [done|].
  rewrite Hext. destruct (less' y x); [|done]. by rewrite IH'.
Qed.

Lemma StronglySorted_weaken {A : Type} (R R' : A -> A -> Prop) (l : list A) :
  (forall a b, R a b -> R' a b) -> StronglySorted R l -> StronglySorted R' l.
Proof.
  intros Himp. induction 1 as [|x l Hs IH Hall]; constructor; [done|].
  eapply List.Forall_impl; [|exact Hall]. apply Himp.
Qed.

Lemma sortKeys_sorted (sortAscending : bool) (keys : list DataKey.t) :
  sortedBy sortAscending (sortKeys sortAscending keys).
Proof.
  unfold sortedBy, sortKeys. destruct sortAscending.
  - apply (sort_Slice_sorted DataKey.ResourceVersion).
  - rewrite (sort_Slice_ext _
      (fun a b => - a.(DataKey.ResourceVersion) <?
                  - b.(DataKey.ResourceVersion))).
    + eapply StronglySorted_weaken;
        [|apply (sort_Slice_sorted
                   (fun a => - a.(DataKey.ResourceVersion)))].
      simpl. intros. lia.
    + intros a b.
      destruct (Z.ltb_spec b.(DataKey.ResourceVersion)
                  a.(DataKey.ResourceVersion));
      destruct (Z.ltb_spec (- a.(DataKey.ResourceVersion))
                  (- b.(DataKey.ResourceVersion))); lia.
Qed.

Lemma sortKeys_Permutation (sortAscending : bool) (keys : list DataKey.t) :
  Permutation keys (sortKeys sortAscending keys).
Proof. unfold sortKeys. destruct sortAscending; apply sort_Slice_Permutation. Qed.

Lemma filter_sortedBy (sortAscending : bool) (p : DataKey.t -> bool)
  (keys : list DataKey.t) :
  sortedBy sortAscending keys -> sortedBy sortAscending (List.filter p keys).
Proof.
  unfold sortedBy.
  assert (Hgen : forall R : DataKey.t -> DataKey.t -> Prop,
            StronglySorted R keys -> StronglySorted R (List.filter p keys)).
  { intros R. induction 1 as [|x l Hs IH Hall]; simpl; [constructor|].
    destruct (p x); [|done]. constructor; [done|].
    rewrite List.Forall_forall in *. intros y Hy. apply Hall.
    by apply filter_In in Hy as [Hy _]. }
  destruct sortAscending; apply Hgen.
Qed.

Lemma pageKeys_zero (sortAscending : bool) (keys : list DataKey.t) :
  pageKeys 0 sortAscending keys = keys.
Proof.
  unfold pageKeys. simpl. induction keys as [|x l IH]; simpl; congruence.
Qed.

Lemma pageKeys_beyond (lastSeenRV : Z) (sortAscending : bool)
  (keys : list DataKey.t) :
  lastSeenRV <> 0 ->
  pageKeys lastSeenRV sortAscending keys =
  List.filter (beyond sortAscending lastSeenRV) keys.
Proof.
  intros Hne. unfold pageKeys, beyond.
  destruct (Z.eqb_spec lastSeenRV 0) as [|_]; [done|].
  apply filter_ext. intros key.
  destruct sortAscending; simpl; by destruct (_ <? _).
Qed.

(** The run of [ListHistory] up to its callback. *)
Lemma ListHistory_visits
  (GetContinueToken : string -> error + ContinueToken.t)
  (req : ListRequest.t) (key : ResourceKey.t)
  (k : kvStorageBackend.t Doc) (lastSeenRV : Z) (sortAscending : bool) :
  namesObject req key ->
  capacityOk req ->
  historyCursor GetContinueToken req lastSeenRV sortAscending ->
  faults.(Faults.data_Keys) (requestKeyOf key) = None ->
  match historyCandidates faults req key k with
  | inl err =>
      forall fn,
        ListHistory GetContinueToken faults req fn k = (Fail err, tick k)
  | inr candidates =>
      historyVisits GetContinueToken faults req k
        (newHistoryIterator
           (pageKeys lastSeenRV sortAscending
              (sortKeys sortAscending candidates))
           (k.(kvStorageBackend.snowflake) + 1) sortAscending)
  end.
Proof.
  intros (Hopt & Hg & Hr & Hn & Hm) Hcap Hcur Hfault.
  assert (Hrun : forall fn,
    ListHistory GetContinueToken faults req fn k =
    match historyCandidates faults req key k with
    | inl err => (Fail err, tick k)
    | inr candidates =>
        afterCallback (k.(kvStorageBackend.snowflake) + 1)
          (fn (newHistoryIterator
                 (pageKeys lastSeenRV sortAscending
                    (sortKeys sortAscending candidates))
                 (k.(kvStorageBackend.snowflake) + 1) sortAscending)
              (tick k))
    end).
  { intros fn. unfold ListHistory. rewrite Hopt.
    rewrite !decide_False by done.
    assert (Hcursor :
      (if decide (req.(ListRequest.NextPageToken) = "")
       then mret (0, isNotOlderThan req.(ListRequest.VersionMatchV2))
       else
         match GetContinueToken req.(ListRequest.NextPageToken) with
         | inl err => fail (ErrorWrap "invalid continue token" err)
         | inr token =>
             mret (token.(ContinueToken.ResourceVersion),
                   token.(ContinueToken.SortAscending))
         end : M Doc (Z * bool)) = mret (lastSeenRV, sortAscending)).
    { destruct Hcur as [(Hnil & -> & ->)|(Hne & token & Hdec & -> & ->)].
      - by rewrite decide_True.
      - rewrite decide_False by done. by rewrite Hdec. }
    rewrite Hcursor. clear Hcursor.
    unfold capacityOk in Hcap.
    unfold processTrashEntries, snowflake_Generate, dataStore_Keys,
      metaStore_GetLatestResourceKey.
    unfold_M. fold (requestKeyOf key).
    cbn [kvStorageBackend.dataStore kvStorageBackend.snowflake].
    destruct (Z.ltb_spec
                (Z.min defaultListBufferSize
                   (wrap64 (req.(ListRequest.Limit) + 1))) 0); [lia|].
    rewrite Hfault. cbn [kvStorageBackend.dataStore].
    rewrite collectAll_map_inr. cbn [app].
    unfold historyCandidates, latestLookup. fold (historyOf key k).
    fold (tick k). change (metaKeys (tick k)) with (metaKeys k).
    destruct (isTrash req.(ListRequest.Source)).
    - destruct (filterVersionMatch req _) as [err|trashKeys]; [done|].
      unfold afterCallback.
      by destruct (fn _ _) as [[[e|]|e|msg] k'].
    - destruct (filterVersionMatch req _) as [err|historyKeys]; [done|].
      unfold afterCallback.
      by destruct (fn _ _) as [[[e|]|e|msg] k']. }
  destruct (historyCandidates faults req key k) as [err|candidates] eqn:Hc.
  - intros fn. by rewrite Hrun.
  - intros fn. by rewrite Hrun.
Qed.

Lemma filterVersionMatch_inr (req : ListRequest.t) (keys : list DataKey.t) :
  exactHasVersion req ->
  exists matched,
    filterVersionMatch req keys = inr matched /\
    (exists p, matched = List.filter p keys) /\
    (req.(ListRequest.ResourceVersion) = 0 -> matched = keys).
Proof.
  unfold exactHasVersion, filterVersionMatch. intros Hexact.
  assert (Hall : keys = List.filter (fun _ => true) keys).
  { induction keys as [|x l IH]; simpl; congruence. }
  destruct (req.(ListRequest.VersionMatchV2)); simpl in *.
  1,2,4: destruct (Z.ltb_spec 0 req.(ListRequest.ResourceVersion));
    eexists; (split; [reflexivity|]);
    (split; [by eauto|intros; try done; lia]).
  specialize (Hexact eq_refl).
  destruct (Z.leb_spec req.(ListRequest.ResourceVersion) 0); [lia|].
  eexists. split; [reflexivity|]. split; [by eauto|lia].
Qed.

Lemma historyCandidates_inr (req : ListRequest.t) (key : ResourceKey.t)
  (k : kvStorageBackend.t Doc) :
  exactHasVersion req ->
  exists candidates, historyCandidates faults req key k = inr candidates.
Proof.
  intros Hexact. unfold historyCandidates.
  destruct (isTrash req.(ListRequest.Source)).
  - destruct (filterVersionMatch_inr req
                match latestLookup faults key k with
                | inl err =>
                    if isErrNotFound err then
                      match latestDelete
                              (List.filter
                                 (fun key => isDeleted key.(DataKey.Action))
                                 (historyOf key k)) with
                      | Some latest => [latest]
                      | None => []
                      end
                    else []
                | inr _ => []
                end Hexact) as (matched & -> & _). by eexists.
  - destruct (filterVersionMatch_inr req (historyOf key k) Hexact)
      as (matched & -> & _). by eexists.
Qed.

Lemma latestDeleteRV_fold (keys : list DataKey.t) (start : Z) :
  let latest :=
    List.fold_left
      (fun latest key =>
         if isDeleted key.(DataKey.Action) &&
            (latest <? key.(DataKey.ResourceVersion))
         then key.(DataKey.ResourceVersion) else latest)
      keys start in
  start <= latest /\
  forall deleted, In deleted keys ->
    deleted.(DataKey.Action) = DataActionDeleted ->
    deleted.(DataKey.ResourceVersion) <= latest.
Proof.
  revert start. induction keys as [|x l IH]; intros start; simpl.
  - split; [lia|]. intros ? [].
  - match goal with
    | |- context [List.fold_left _ l ?n] => set (next := n)
    end.
    destruct (IH next) as [Hle Hall].
    assert (Hnext : start <= next /\
              (x.(DataKey.Action) = DataActionDeleted ->
               x.(DataKey.ResourceVersion) <= next)).
    { subst next. destruct (isDeleted x.(DataKey.Action)) eqn:Hd; simpl.
      - destruct (Z.ltb_spec start x.(DataKey.ResourceVersion)); lia.
      - split; [lia|]. intros Hx. by rewrite Hx in Hd. }
    destruct Hnext as [Hs Hx]. split; [lia|].
    intros deleted [<-|Hin] Hdel.
    + specialize (Hx Hdel). lia.
    + by apply Hall.
Qed.

(** The live rule on a request without a resource version: what it keeps
    is newer than every deletion of the history. *)
Lemma liveHistory_after_deletes (req : ListRequest.t) (keys : list DataKey.t)
  (deleted entry : DataKey.t) :
  req.(ListRequest.ResourceVersion) = 0 ->
  isTrash req.(ListRequest.Source) = false ->
  isExact req.(ListRequest.VersionMatchV2) = false ->
  In deleted keys -> deleted.(DataKey.Action) = DataActionDeleted ->
  0 < deleted.(DataKey.ResourceVersion) ->
  In entry (liveHistory req keys) ->
  In entry keys /\
  deleted.(DataKey.ResourceVersion) < entry.(DataKey.ResourceVersion).
Proof.
  intros Hrv Htrash Hexact Hin Hdel Hpos Hentry.
  unfold liveHistory in Hentry. rewrite Hrv, Htrash, Hexact in Hentry.
  simpl in Hentry.
  destruct (latestDeleteRV_fold keys 0) as [_ Hall].
  fold (latestDeleteRV keys) in Hall. specialize (Hall _ Hin Hdel).
  destruct (Z.ltb_spec 0 (latestDeleteRV keys)); [|lia].
  apply filter_In in Hentry as [He Hlt]. apply Z.ltb_lt in Hlt.
  split; [done|lia].
Qed.

Lemma latestDelete_fold (keys : list DataKey.t) (start : option DataKey.t)
  (found : DataKey.t) :
  List.fold_left
    (fun latest key =>
       match latest with
       | None => Some key
       | Some l =>
           if l.(DataKey.ResourceVersion) <? key.(DataKey.ResourceVersion)
           then Some key else latest
       end)
    keys start = Some found ->
  (start = Some found \/ In found keys) /\
  (forall s, start = Some s ->
     s.(DataKey.ResourceVersion) <= found.(DataKey.ResourceVersion)) /\
  (forall key, In key keys ->
     key.(DataKey.ResourceVersion) <= found.(DataKey.ResourceVersion)).
Proof.
  revert start. induction keys as [|x l IH]; intros start H; simpl in H.
  - subst start. split; [by left|]. split; [|intros ? []].
    intros s [= ->]. lia.
  - destruct (IH _ H) as (Hin & Hs & Hall). clear IH H.
    destruct start as [s|].
    + destruct (Z.ltb_spec s.(DataKey.ResourceVersion)
                  x.(DataKey.ResourceVersion)) as [Hlt|Hge].
      * specialize (Hs x eq_refl). split; [|split].
        -- destruct Hin as [[= ->]|Hin]; right; [by left|by right].
        -- intros s' [= <-]. lia.
        -- intros key [<-|Hk]; [done|by apply Hall].
      * specialize (Hs s eq_refl). split; [|split].
        -- destruct Hin as [Hin|Hin]; [by left|right; by right].
        -- intros s' [= <-]. done.
        -- intros key [<-|Hk]; [lia|by apply Hall].
    + specialize (Hs x eq_refl). split; [|split].
      * destruct Hin as [[= ->]|Hin]; right; [by left|by right].
      * intros s' [=].
      * intros key [<-|Hk]; [done|by apply Hall].
Qed.

(** Version matching, sorting and paging leave a single entry or drop it. *)
Lemma page_of_at_most_one (req : ListRequest.t) (lastSeenRV : Z)
  (sortAscending : bool) (trashKeys matched : list DataKey.t) :
  filterVersionMatch req trashKeys = inr matched ->
  (trashKeys = [] \/ exists latest, trashKeys = [latest]) ->
  pageKeys lastSeenRV sortAscending (sortKeys sortAscending matched) = [] \/
  pageKeys lastSeenRV sortAscending (sortKeys sortAscending matched) = trashKeys.
Proof.
  intros Hm Hone.
  assert (Hsub : exists p, matched = List.filter p trashKeys).
  { unfold filterVersionMatch in Hm.
    assert (Hall : trashKeys = List.filter (fun _ => true) trashKeys).
    { clear. induction trashKeys as [|x l IH]; simpl; congruence. }
    destruct (req.(ListRequest.VersionMatchV2));
      repeat match type of Hm with
             | (if ?c then _ else _) = _ => destruct c
             end; try done; injection Hm as <-; eauto. }
  destruct Hsub as [p ->].
  destruct Hone as [->|[latest ->]].
  - left. by destruct sortAscending.
  - simpl. destruct (p latest).
    + assert (Hsort : sortKeys sortAscending [latest] = [latest]).
      { by destruct sortAscending. }
      rewrite Hsort. unfold pageKeys. simpl.
      destruct (if lastSeenRV =? 0 then _ else _); [by right|by left].
    + left. by destruct sortAscending.
Qed.

(** C5 (amended): in live mode, when the version match is not Exact, the
    source is not TRASH and the request carries no resource version, a
    history listing hands its callback no entry at or below a Deleted
    revision of the object: every entry is a revision of the object that
    is newer than every Deleted revision (resource versions being
    positive). *)
Theorem ListHistory_live_window_without_version
  (GetContinueToken : string -> error + ContinueToken.t)
  (req : ListRequest.t) (key : ResourceKey.t) (k : kvStorageBackend.t Doc)
  (lastSeenRV : Z) (sortAscending : bool) :
  namesObject req key ->
  capacityOk req ->
  faults.(Faults.data_Keys) (requestKeyOf key) = None ->
  historyCursor GetContinueToken req lastSeenRV sortAscending ->
  isTrash req.(ListRequest.Source) = false ->
  isExact req.(ListRequest.VersionMatchV2) = false ->
  req.(ListRequest.ResourceVersion) = 0 ->
  exists keys,
    historyVisits GetContinueToken faults req k
      (newHistoryIterator keys (k.(kvStorageBackend.snowflake) + 1)
         sortAscending) /\
    forall deleted entry,
      In deleted (historyOf key k) ->
      deleted.(DataKey.Action) = DataActionDeleted ->
      0 < deleted.(DataKey.ResourceVersion) ->
      In entry keys ->
      In entry (historyOf key k) /\
      deleted.(DataKey.ResourceVersion) < entry.(DataKey.ResourceVersion).
Proof.
  intros Hnames Hcap Hfault Hcur Htrash Hexact Hrv.
  pose proof (ListHistory_visits GetContinueToken req key k lastSeenRV
                sortAscending Hnames Hcap Hcur Hfault) as Hrun.
  assert (Hev : exactHasVersion req).
  { unfold exactHasVersion. by rewrite Hexact. }
  destruct (filterVersionMatch_inr req (historyOf key k) Hev)
    as (matched & Hm & _ & Hsame).
  specialize (Hsame Hrv). subst matched.
  unfold historyCandidates in Hrun. rewrite Htrash, Hm in Hrun.
  eexists. split; [exact Hrun|].
  intros deleted entry Hin Hdel Hpos Hentry.
  unfold pageKeys in Hentry. apply filter_In in Hentry as [Hentry _].
  apply (Permutation_in _ (Permutation_sym (sortKeys_Permutation _ _)))
    in Hentry.
  by apply (liveHistory_after_deletes req _ deleted entry).
Qed.

(** C6: a history listing with Source = TRASH hands its callback at most
    one entry.  When it hands one, that entry is the Deleted revision of
    the object with the highest resource version and the metadata store's
    latest lookup answered NotFound; when the lookup finds the object
    live, the callback gets no entry. *)
Theorem ListHistory_trash_latest_delete
  (GetContinueToken : string -> error + ContinueToken.t)
  (req : ListRequest.t) (key : ResourceKey.t) (k : kvStorageBackend.t Doc)
  (lastSeenRV : Z) (sortAscending : bool) :
  namesObject req key ->
  capacityOk req ->
  faults.(Faults.data_Keys) (requestKeyOf key) = None ->
  historyCursor GetContinueToken req lastSeenRV sortAscending ->
  exactHasVersion req ->
  req.(ListRequest.Source) = ListRequest_TRASH ->
  exists keys,
    historyVisits GetContinueToken faults req k
      (newHistoryIterator keys (k.(kvStorageBackend.snowflake) + 1)
         sortAscending) /\
    (keys = [] \/
     exists deleted,
       keys = [deleted] /\
       In deleted (historyOf key k) /\
       deleted.(DataKey.Action) = DataActionDeleted /\
       (forall other, In other (historyOf key k) ->
          other.(DataKey.Action) = DataActionDeleted ->
          other.(DataKey.ResourceVersion) <=
            deleted.(DataKey.ResourceVersion)) /\
       latestLookup faults key k = inl ErrNotFound) /\
    (forall live, latestLookup faults key k = inr live -> keys = []).
Proof.
  intros Hnames Hcap Hfault Hcur Hev Hsrc.
  pose proof (ListHistory_visits GetContinueToken req key k lastSeenRV
                sortAscending Hnames Hcap Hcur Hfault) as Hrun.
  unfold historyCandidates in Hrun. rewrite Hsrc in Hrun. simpl in Hrun.
  set (deletedKeys :=
         List.filter (fun key => isDeleted key.(DataKey.Action))
           (historyOf key k)) in *.
  set (trashKeys :=
         match latestLookup faults key k with
         | inl err =>
             if isErrNotFound err then
               match latestDelete deletedKeys with
               | Some latest => [latest]
               | None => []
               end
             else []
         | inr _ => []
         end) in *.
  destruct (filterVersionMatch_inr req trashKeys Hev) as (matched & Hm & _).
  rewrite Hm in Hrun.
  eexists. split; [exact Hrun|].
  assert (Htrash :
    trashKeys = [] \/
    exists deleted,
      trashKeys = [deleted] /\ In deleted (historyOf key k) /\
      deleted.(DataKey.Action) = DataActionDeleted /\
      (forall other, In other (historyOf key k) ->
         other.(DataKey.Action) = DataActionDeleted ->
         other.(DataKey.ResourceVersion) <=
           deleted.(DataKey.ResourceVersion)) /\
      latestLookup faults key k = inl ErrNotFound).
  { subst trashKeys.
    destruct (latestLookup faults key k) as [err|live]; [|by left].
    destruct (isErrNotFound err) eqn:Hnf; [|by left].
    apply isErrNotFound_true in Hnf. subst err.
    destruct (latestDelete deletedKeys) as [latest|] eqn:Hl; [|by left].
    right. exists latest.
    destruct (latestDelete_fold _ _ _ Hl) as ([?|Hin] & _ & Hall); [done|].
    apply filter_In in Hin as [Hin Hdel].
    repeat split; try done.
    - by destruct (latest.(DataKey.Action)).
    - intros other Ho Hd. apply Hall. apply filter_In. split; [done|].
      by rewrite Hd. }
  assert (Hone : trashKeys = [] \/ exists latest, trashKeys = [latest]).
  { destruct Htrash as [?|(d & ? & _)]; [by left|right; by exists d]. }
  destruct (page_of_at_most_one req lastSeenRV sortAscending _ _ Hm Hone)
    as [Hp|Hp]; rewrite Hp.
  - split; [by left|done].
  - split.
    + destruct Htrash as [?|(d & Hd & ?)]; [by left|].
      right. exists d. by rewrite Hd.
    + intros live Hlive. subst trashKeys. by rewrite Hlive.
Qed.

(** The token that the history iterator issues at an entry carries that
    entry's resource version and the iterator's direction. *)
Lemma kvHistoryIterator_token_entry (i : kvHistoryIterator.t)
  (token : ContinueToken.t) :
  kvHistoryIterator_token i = Some token ->
  exists key,
    List.nth_error i.(kvHistoryIterator.keys)
      (Z.to_nat i.(kvHistoryIterator.currentIndex)) = Some key /\
    token.(ContinueToken.ResourceVersion) = key.(DataKey.ResourceVersion) /\
    token.(ContinueToken.SortAscending) = i.(kvHistoryIterator.sortAscending).
Proof.
  unfold kvHistoryIterator_token. intros H.
  destruct (_ || _); [done|].
  destruct (List.nth_error _ _) as [key|]; [|done].
  injection H as <-. by exists key.
Qed.

(** Resuming after a boundary entry: in a listing sorted in the direction
    whose resource versions are distinct, the entries strictly beyond the
    boundary's RV are exactly the entries that follow the boundary. *)
Lemma exclusive_cursor_resumes (sortAscending : bool)
  (before after : list DataKey.t) (boundary : DataKey.t) :
  sortedBy sortAscending (before ++ boundary :: after) ->
  NoDup (List.map DataKey.ResourceVersion (before ++ boundary :: after)) ->
  List.filter (beyond sortAscending boundary.(DataKey.ResourceVersion))
    (before ++ boundary :: after) = after.
Proof.
  set (R := fun a b : DataKey.t =>
              if sortAscending
              then a.(DataKey.ResourceVersion) <= b.(DataKey.ResourceVersion)
              else b.(DataKey.ResourceVersion) <= a.(DataKey.ResourceVersion)).
  intros Hsorted Hnodup.
  assert (Hs : StronglySorted R (before ++ boundary :: after)).
  { unfold sortedBy in Hsorted. subst R. by destruct sortAscending. }
  clear Hsorted.
  induction before as [|x before IH]; simpl in *.
  - apply StronglySorted_inv in Hs as [_ Hall].
    apply NoDup_cons in Hnodup as [Hnotin _].
    assert (Hb : beyond sortAscending boundary.(DataKey.ResourceVersion)
                   boundary = false).
    { unfold beyond. destruct sortAscending; apply Z.ltb_irrefl. }
    rewrite Hb. clear Hb.
    induction after as [|y after IHa]; simpl; [done|].
    apply List.Forall_cons_iff in Hall as [Hy Hall].
    assert (Hne : y.(DataKey.ResourceVersion) <>
                  boundary.(DataKey.ResourceVersion)).
    { intros Heq. apply Hnotin. simpl. rewrite Heq. by left. }
    assert (Hby : beyond sortAscending boundary.(DataKey.ResourceVersion) y
                  = true).
    { unfold beyond. subst R. simpl in Hy.
      destruct sortAscending; apply Z.ltb_lt; lia. }
    rewrite Hby. f_equal. apply IHa; [|done].
    intros Hin. apply Hnotin. simpl. by right.
  - apply StronglySorted_inv in Hs as [Hs Hall].
    apply NoDup_cons in Hnodup as [Hnotin Hnodup].
    assert (Hx : beyond sortAscending boundary.(DataKey.ResourceVersion) x
                 = false).
    { rewrite List.Forall_forall in Hall.
      specialize (Hall boundary). subst R. simpl in Hall.
      assert (Hin : In boundary (before ++ boundary :: after)).
      { apply in_or_app. right. by left. }
      specialize (Hall Hin). unfold beyond.
      destruct sortAscending; apply Z.ltb_ge; lia. }
    rewrite Hx. by apply IH.
Qed.

End HistoryProofs.

Section StatsProofs.

Lemma scanStats_app (l1 l2 : Seq2 DataKey.t)
  (res : gmap string (gmap string bool)) (rvs : gmap string Z) :
  scanStats res rvs (l1 ++ l2)%list =
  match scanStats res rvs l1 with
  | inl err => inl err
  | inr (res', rvs') => scanStats res' rvs' l2
  end.
Proof.
  revert res rvs. induction l1 as [|[err|dataKey] l1 IH]; intros res rvs;
    simpl; [done|done|].
  destruct (res !! statsKey dataKey); apply IH.
Qed.

(** The version that the scan keeps for a group/resource is the version of
    the key scanned last, whatever was scanned before it. *)
Lemma scanStats_last_version (scanned : list DataKey.t) (last : DataKey.t)
  (res res' : gmap string (gmap string bool)) (rvs rvs' : gmap string Z) :
  scanStats res rvs (List.map inr (scanned ++ [last])%list) = inr (res', rvs') ->
  rvs' !! statsKey last = Some last.(DataKey.ResourceVersion).
Proof.
  rewrite List.map_app, scanStats_app.
  destruct (scanStats res rvs (List.map inr scanned)) as [err|[res0 rvs0]];
    [done|].
  simpl. destruct (res0 !! statsKey last); intros [= <- <-];
    apply lookup_insert_eq.
Qed.

End StatsProofs.

(** ** The claims at the sample states *)

(** C9 (what the code does): the metadata store refuses the latest lookup
    of a trash listing with a failure other than NotFound, and
    [ListHistory] completes: the callback is handed an empty trash and the
    call returns the list version, no error.  The same listing against a
    healthy store hands the callback the deletion of [a] at 104. *)
Theorem ListHistory_trash_swallows_lookup_failure :
  let req :=
    sample_history "" 0 ResourceVersionMatchV2_Unset ListRequest_TRASH in
  let codec := decodes_to (ContinueToken.mk 0 0 false) in
  latestLookup meta_Get_down (sample_key "a") sample_deleted =
    inl backend_failure /\
  backend_failure <> ErrNotFound /\
  historyVisits codec meta_Get_down req sample_deleted
    (newHistoryIterator [] 105 false) /\
  ListHistory codec meta_Get_down req (fun _ => mret None) sample_deleted =
    (Ok 105, tick sample_deleted) /\
  historyVisits codec no_faults req sample_deleted
    (newHistoryIterator [sample_dataKey "a" 104 DataActionDeleted] 105 false).
Proof.
  intros req codec.
  assert (Hdown :
    historyVisits codec meta_Get_down req sample_deleted
      (newHistoryIterator [] 105 false)).
  { apply (ListHistory_visits meta_Get_down codec req (sample_key "a")
             sample_deleted 0 false);
      [by repeat split|by vm_compute|by left|reflexivity]. }
  split; [reflexivity|]. split; [done|]. split; [exact Hdown|].
  split; [exact (Hdown (fun _ => mret None))|].
  apply (ListHistory_visits no_faults codec req (sample_key "a")
           sample_deleted 0 false);
    [by repeat split|by vm_compute|by left|reflexivity].
Qed.

(** C5 (counterexample): object [a] was created at 102, updated at 103,
    deleted at 104, created again at 105 and updated at 106.  A live-mode
    history request with the default version match and resource version
    106 is handed all five revisions, the deletion at 104 and the two
    revisions before it included. *)
Lemma ListHistory_live_window_with_version_keeps_old :
  let req :=
    sample_history "" 106 ResourceVersionMatchV2_Unset ListRequest_HISTORY in
  let deleted := sample_dataKey "a" 104 DataActionDeleted in
  let entry := sample_dataKey "a" 102 DataActionCreated in
  exists keys,
    historyVisits (decodes_to (ContinueToken.mk 0 0 false)) no_faults req
      sample_recreated (newHistoryIterator keys 107 false) /\
    isTrash req.(ListRequest.Source) = false /\
    isExact req.(ListRequest.VersionMatchV2) = false /\
    In deleted (historyOf (sample_key "a") sample_recreated) /\
    deleted.(DataKey.Action) = DataActionDeleted /\
    In entry keys /\ In deleted keys /\
    entry.(DataKey.ResourceVersion) <= deleted.(DataKey.ResourceVersion).
Proof.
  intros req deleted entry.
  exists [sample_dataKey "a" 106 DataActionUpdated;
          sample_dataKey "a" 105 DataActionCreated;
          sample_dataKey "a" 104 DataActionDeleted;
          sample_dataKey "a" 103 DataActionUpdated;
          sample_dataKey "a" 102 DataActionCreated].
  split.
  { apply (ListHistory_visits no_faults
             (decodes_to (ContinueToken.mk 0 0 false)) req (sample_key "a")
             sample_recreated 0 false);
      [by repeat split|by vm_compute|by left|reflexivity]. }
  repeat split; try done; vm_compute; tauto.
Qed.

(** C2 (what the code does): [b] was written at 101 and [a] at 102; the
    scan, in key order, ends on [b], and the row of the dashboards carries
    resource version 101 although the key of [a] at 102 was scanned. *)
Theorem GetResourceStats_reports_last_scanned_version :
  let scanned := List.map fst sample_two.(kvStorageBackend.dataStore) in
  (GetResourceStats no_faults "default" 0 sample_two).1 =
    Ok [ResourceStats.mk
          (NamespacedResource.mk "default" "dashboard.grafana.app"
             "dashboards") 2 101] /\
  scanned = [sample_dataKey "a" 102 DataActionCreated;
             sample_dataKey "b" 101 DataActionCreated] /\
  (forall key, In key scanned -> key.(DataKey.ResourceVersion) <= 102).
Proof.
  intros scanned. split; [by vm_compute|]. split; [by vm_compute|].
  intros key Hin. vm_compute in Hin.
  destruct Hin as [<-|[<-|[]]]; vm_compute; discriminate.
Qed.

(** ** The general statements at the sample states *)

Lemma WriteEvent_Added_existence_check_witness :
  (sample_event WatchEvent_ADDED "b").(WriteEvent.EventType) =
    WatchEvent_ADDED /\
  sample_Validate (sample_event WatchEvent_ADDED "b") = None /\
  (WriteEvent sample_Validate sample_BuildDocument no_faults
     (sample_event WatchEvent_ADDED "b") sample_two).1 =
    Fail ErrResourceAlreadyExists /\
  sameStores sample_two
    (WriteEvent sample_Validate sample_BuildDocument no_faults
       (sample_event WatchEvent_ADDED "b") sample_two).2.
Proof.
  split; [reflexivity|]. split; [reflexivity|].
  destruct (WriteEvent_Added_existence_check sample_Validate
              sample_BuildDocument no_faults
              (sample_event WatchEvent_ADDED "b") sample_two
              eq_refl eq_refl) as [Hfound _].
  exact (Hfound (sample_metaKey "b" 101) eq_refl).
Defined.

Lemma WriteEvent_persists_in_order_witness :
  let event := sample_event WatchEvent_MODIFIED "a" in
  let out :=
    WriteEvent sample_Validate sample_BuildDocument meta_Save_down event
      sample_two in
  acceptedAs sample_Validate meta_Save_down event sample_two
    DataActionUpdated /\
  sample_BuildDocument event.(WriteEvent.Key) 103 event.(WriteEvent.Value) =
    inr event.(WriteEvent.Value) /\
  out.1 = Fail (ErrorWrap "failed to write metadata" backend_failure) /\
  In (dataKeyOf event 103 DataActionUpdated, event.(WriteEvent.Value))
     out.2.(kvStorageBackend.dataStore) /\
  out.2.(kvStorageBackend.metaStore) = sample_two.(kvStorageBackend.metaStore).
Proof.
  intros event out.
  assert (Hacc : acceptedAs sample_Validate meta_Save_down event sample_two
                   DataActionUpdated) by (split; reflexivity).
  split; [exact Hacc|]. split; [reflexivity|].
  pose proof (WriteEvent_persists_in_order sample_Validate
                sample_BuildDocument meta_Save_down event sample_two
                DataActionUpdated event.(WriteEvent.Value) Hacc eq_refl) as H.
  cbv zeta in H. cbn [meta_Save_down Faults.data_Save Faults.meta_Save fst]
    in H.
  destruct H as (Hfail & (_ & Hin) & Hmeta & _).
  split; [exact Hfail|]. split; [exact Hin|exact Hmeta].
Defined.

Lemma ListHistory_live_window_without_version_witness :
  let req :=
    sample_history "" 0 ResourceVersionMatchV2_Unset ListRequest_HISTORY in
  let codec := decodes_to (ContinueToken.mk 0 0 false) in
  let key := sample_key "a" in
  namesObject req key /\
  capacityOk req /\
  no_faults.(Faults.data_Keys) (requestKeyOf key) = None /\
  historyCursor codec req 0 false /\
  isTrash req.(ListRequest.Source) = false /\
  isExact req.(ListRequest.VersionMatchV2) = false /\
  req.(ListRequest.ResourceVersion) = 0 /\
  exists keys,
    historyVisits codec no_faults req sample_recreated
      (newHistoryIterator keys 107 false) /\
    forall deleted entry,
      In deleted (historyOf key sample_recreated) ->
      deleted.(DataKey.Action) = DataActionDeleted ->
      0 < deleted.(DataKey.ResourceVersion) ->
      In entry keys ->
      In entry (historyOf key sample_recreated) /\
      deleted.(DataKey.ResourceVersion) < entry.(DataKey.ResourceVersion).
Proof.
  intros req codec key.
  assert (Hnames : namesObject req key) by (by repeat split).
  assert (Hcap : capacityOk req) by (by vm_compute).
  assert (Hcur : historyCursor codec req 0 false) by (by left).
  repeat (split; [first [exact Hnames|exact Hcap|exact Hcur|reflexivity]|]).
  exact (ListHistory_live_window_without_version no_faults codec req key
           sample_recreated 0 false Hnames Hcap eq_refl Hcur eq_refl eq_refl
           eq_refl).
Defined.

Lemma ListHistory_trash_latest_delete_witness :
  let req :=
    sample_history "" 0 ResourceVersionMatchV2_Unset ListRequest_TRASH in
  let codec := decodes_to (ContinueToken.mk 0 0 false) in
  let key := sample_key "a" in
  namesObject req key /\
  capacityOk req /\
  no_faults.(Faults.data_Keys) (requestKeyOf key) = None /\
  historyCursor codec req 0 false /\
  exactHasVersion req /\
  req.(ListRequest.Source) = ListRequest_TRASH /\
  exists keys,
    historyVisits codec no_faults req sample_deleted
      (newHistoryIterator keys 105 false) /\
    (keys = [] \/
     exists deleted,
       keys = [deleted] /\
       In deleted (historyOf key sample_deleted) /\
       deleted.(DataKey.Action) = DataActionDeleted /\
       (forall other, In other (historyOf key sample_deleted) ->
          other.(DataKey.Action) = DataActionDeleted ->
          other.(DataKey.ResourceVersion) <=
            deleted.(DataKey.ResourceVersion)) /\
       latestLookup no_faults key sample_deleted = inl ErrNotFound) /\
    (forall live, latestLookup no_faults key sample_deleted = inr live ->
       keys = []).
Proof.
  intros req codec key.
  assert (Hnames : namesObject req key) by (by repeat split).
  assert (Hcap : capacityOk req) by (by vm_compute).
  assert (Hcur : historyCursor codec req 0 false) by (by left).
  assert (Hev : exactHasVersion req) by (intros Hexact; discriminate Hexact).
  repeat (split;
    [first [exact Hnames|exact Hcap|exact Hcur|exact Hev|reflexivity]|]).
  exact (ListHistory_trash_latest_delete no_faults codec req key
           sample_deleted 0 false Hnames Hcap eq_refl Hcur Hev eq_refl).
Defined.

Lemma ReadResource_resolves_at_revision_witness :
  let req := ReadRequest.mk (Some (sample_key "a")) 103 in
  req.(ReadRequest.Key) = Some (sample_key "a") /\
  (ReadResource no_faults req sample_recreated).1 =
    Ok (BackendReadResponse.mk (Some (sample_key "a")) 103
          [Byte.x7b; Byte.x7d] "folder" None).
Proof.
  intros req. split; [reflexivity|].
  destruct (ReadResource_resolves_at_revision no_faults req (sample_key "a")
              sample_recreated eq_refl) as (_ & _ & _ & _ & Hread).
  exact (Hread (MetaDataKey.mk "default" "dashboard.grafana.app"
                  "dashboards" "a" 103 DataActionUpdated "folder") eq_refl).
Defined.

(** ** Further properties of the backend *)

Section WriteMore.

Context {Doc : Type}.
Variable Validate : WriteEvent.t -> option error.
Variable BuildDocument : ResourceKey.t -> Z -> bytes -> error + Doc.
Variable faults : Faults.t.

(** The ways a write ends before it reaches the stores. *)
Lemma WriteEvent_cases (event : WriteEvent.t) (k : kvStorageBackend.t Doc) :
  let out := WriteEvent Validate BuildDocument faults event k in
  (exists err, Validate event = Some err /\
     out = (Fail (ErrorWrap "invalid event" err), k)) \/
  (Validate event = None /\
   isWriteType event.(WriteEvent.EventType) = false /\
   out = (Fail (ErrorNew ("invalid event type: " ++
                          WatchEvent_Type_decimal
                            event.(WriteEvent.EventType))), tick k)) \/
  (Validate event = None /\
   event.(WriteEvent.EventType) = WatchEvent_ADDED /\
   exists e, out = (Fail e, tick k) /\
     ((exists found, existenceCheck faults event k = inr found /\
         e = ErrResourceAlreadyExists) \/
      (exists err, existenceCheck faults event k = inl err /\
         err <> ErrNotFound /\
         e = ErrorWrap "failed to check if resource exists" err))) \/
  (exists action, acceptedAs Validate faults event k action /\
     exists err,
       BuildDocument event.(WriteEvent.Key)
         (k.(kvStorageBackend.snowflake) + 1) event.(WriteEvent.Value) =
         inl err /\
       out = (Fail (ErrorWrap "failed to build document" err), tick k)) \/
  (exists action doc, acceptedAs Validate faults event k action /\
     BuildDocument event.(WriteEvent.Key)
       (k.(kvStorageBackend.snowflake) + 1) event.(WriteEvent.Value) =
       inr doc).
Proof.
  intros out. subst out.
  destruct (Validate event) as [verr|] eqn:Hvalid.
  { left. exists verr. split; [done|]. unfold WriteEvent. by rewrite Hvalid. }
  right.
  assert (Hacc : forall action,
    match event.(WriteEvent.EventType) with
    | WatchEvent_ADDED =>
        action = DataActionCreated /\
        existenceCheck faults event k = inl ErrNotFound
    | WatchEvent_MODIFIED => action = DataActionUpdated
    | WatchEvent_DELETED => action = DataActionDeleted
    | _ => False
    end ->
    (exists err,
       BuildDocument event.(WriteEvent.Key)
         (k.(kvStorageBackend.snowflake) + 1) event.(WriteEvent.Value) =
         inl err /\
       WriteEvent Validate BuildDocument faults event k =
         (Fail (ErrorWrap "failed to build document" err), tick k)) \/
    (exists doc,
       BuildDocument event.(WriteEvent.Key)
         (k.(kvStorageBackend.snowflake) + 1) event.(WriteEvent.Value) =
         inr doc)).
  { intros action Hsw.
    destruct (BuildDocument event.(WriteEvent.Key)
                (k.(kvStorageBackend.snowflake) + 1)
                event.(WriteEvent.Value)) as [err|doc] eqn:Hdoc;
      [left|right; by eexists].
    exists err. split; [done|].
    unfold WriteEvent. rewrite Hvalid.
    unfold existenceCheck, latestLookup, requestKeyOf in Hsw.
    unfold snowflake_Generate, metaStore_GetLatestResourceKey.
    unfold_M. unfold metaKeys in *. simpl.
    destruct (event.(WriteEvent.EventType)); try contradiction.
    1: destruct Hsw as [_ Hc]; cbn [kvStorageBackend.metaStore]; rewrite Hc.
    all: simpl; by rewrite Hdoc. }
  destruct (event.(WriteEvent.EventType)) eqn:Htype.
  1,5,6: left; split; [done|]; split; [done|];
    unfold WriteEvent; rewrite Hvalid, Htype; reflexivity.
  - (* Added *)
    right.
    destruct (existenceCheck faults event k) as [err|found] eqn:Hcheck.
    + destruct (isErrNotFound err) eqn:Hnf.
      * apply isErrNotFound_true in Hnf. subst err. right.
        destruct (Hacc DataActionCreated (conj eq_refl eq_refl))
          as [(err & Hd & Hout)|(doc & Hd)].
        -- left. exists DataActionCreated. split; [|by exists err].
           split; [done|]. by rewrite Htype.
        -- right. exists DataActionCreated, doc. split; [|done].
           split; [done|]. by rewrite Htype.
      * left. split; [done|]. split; [done|].
        eexists. split.
        2:{ right. exists err. split; [done|]. split; [|reflexivity].
            intros ->. discriminate Hnf. }
        unfold WriteEvent. rewrite Hvalid, Htype.
        unfold existenceCheck, latestLookup, requestKeyOf in Hcheck.
        unfold snowflake_Generate, metaStore_GetLatestResourceKey.
        unfold_M. unfold metaKeys in *. simpl. rewrite Hcheck.
        simpl. by rewrite Hnf.
    + left. split; [done|]. split; [done|].
      eexists. split.
      2:{ left. by exists found. }
      unfold WriteEvent. rewrite Hvalid, Htype.
      unfold existenceCheck, latestLookup, requestKeyOf in Hcheck.
      unfold snowflake_Generate, metaStore_GetLatestResourceKey.
      unfold_M. unfold metaKeys in *. simpl. by rewrite Hcheck.
  - (* Modified *)
    right. right.
    destruct (Hacc DataActionUpdated eq_refl) as [(err & Hd & Hout)|(doc & Hd)].
    + left. exists DataActionUpdated. split; [|by exists err].
      split; [done|]. by rewrite Htype.
    + right. exists DataActionUpdated, doc. split; [|done].
      split; [done|]. by rewrite Htype.
  - (* Deleted *)
    right. right.
    destruct (Hacc DataActionDeleted eq_refl) as [(err & Hd & Hout)|(doc & Hd)].
    + left. exists DataActionDeleted. split; [|by exists err].
      split; [done|]. by rewrite Htype.
    + right. exists DataActionDeleted, doc. split; [|done].
      split; [done|]. by rewrite Htype.
Qed.

End WriteMore.

Section WriteComposition.

Context {Doc : Type}.
Variable Validate : WriteEvent.t -> option error.
Variable BuildDocument : ResourceKey.t -> Z -> bytes -> error + Doc.
Variable faults : Faults.t.

Lemma lex_Eq (c1 c2 : comparison) : lex c1 c2 = Eq <-> c1 = Eq /\ c2 = Eq.
Proof. destruct c1, c2; simpl; split; try done; by intros [? ?]. Qed.

Lemma DataAction_index_inj (a b : DataAction) :
  DataAction_index a = DataAction_index b -> a = b.
Proof. by destruct a, b. Qed.

Lemma String_compare_Eq (s1 s2 : string) :
  String.compare s1 s2 = Eq <-> s1 = s2.
Proof.
  split; [apply String.compare_eq_iff|]. intros <-.
  pose proof (String.compare_antisym s1 s1) as H.
  by destruct (String.compare s1 s1).
Qed.

Lemma DataKey_compare_Eq (a b : DataKey.t) :
  DataKey_compare a b = Eq <-> a = b.
Proof.
  unfold DataKey_compare.
  rewrite !lex_Eq, !String_compare_Eq, !Z.compare_eq_iff.
  destruct a, b; simpl. split.
  - intros (-> & -> & -> & -> & -> & Ha).
    by apply DataAction_index_inj in Ha as ->.
  - by intros [= -> -> -> -> -> ->].
Qed.

Lemma MetaDataKey_compare_Eq (a b : MetaDataKey.t) :
  MetaDataKey_compare a b = Eq <-> a = b.
Proof.
  unfold MetaDataKey_compare.
  rewrite !lex_Eq, !String_compare_Eq, !Z.compare_eq_iff.
  destruct a, b; simpl. split.
  - intros (-> & -> & -> & -> & -> & Ha & ->).
    by apply DataAction_index_inj in Ha as ->.
  - by intros [= -> -> -> -> -> -> ->].
Qed.

Lemma kv_put_In_inv {E : Type} (cmp : E -> E -> comparison) (e x : E)
  (l : list E) : In x (kv_put cmp e l) -> x = e \/ In x l.
Proof.
  induction l as [|e' l IH]; simpl.
  - intros [<-|[]]. by left.
  - destruct (cmp e e'); simpl.
    + intros [<-|H]; [by left|right; by right].
    + intros [<-|H]; [by left|by right].
    + intros [<-|H]; [right; by left|].
      destruct (IH H) as [?|?]; [by left|right; by right].
Qed.

Lemma kv_put_keeps {E : Type} (cmp : E -> E -> comparison) (e x : E)
  (l : list E) : In x l -> cmp e x <> Eq -> In x (kv_put cmp e l).
Proof.
  intros Hin Hne. induction l as [|e' l IH]; simpl in *; [done|].
  destruct (cmp e e') eqn:Hc; simpl.
  - destruct Hin as [->|Hin]; [done|]. by right.
  - by right.
  - destruct Hin as [->|Hin]; [by left|]. right. by apply IH.
Qed.


(** X1: a write that fails validation mints no version and leaves the
    backend as it was; every validated write advances the generator by
    exactly one, whether it then succeeds or fails, and a version it
    returns is that new identifier. *)
Theorem WriteEvent_mints_one_version_per_valid_event (event : WriteEvent.t)
  (k : kvStorageBackend.t Doc) :
  let out := WriteEvent Validate BuildDocument faults event k in
  match Validate event with
  | Some err => out = (Fail (ErrorWrap "invalid event" err), k)
  | None =>
      out.2.(kvStorageBackend.snowflake) = k.(kvStorageBackend.snowflake) + 1 /\
      forall rv, out.1 = Ok rv -> rv = k.(kvStorageBackend.snowflake) + 1
  end.
Proof.
  intros out.
  destruct (WriteEvent_cases Validate BuildDocument faults event k)
    as [(err & Hv & Hout)|[(Hv & _ & Hout)|[(Hv & _ & e & Hout & _)|
        [(action & Hacc & err & Hd & Hout)|(action & doc & Hacc & Hd)]]]];
    fold out in Hout || idtac.
  - by rewrite Hv.
  - rewrite Hv, Hout. by split.
  - rewrite Hv, Hout. by split.
  - destruct Hacc as [Hv _]. rewrite Hv, Hout. by split.
  - pose proof (WriteEvent_accepted_run Validate BuildDocument faults event k
                  action doc Hacc Hd) as Hrun.
    destruct Hacc as [Hv _]. rewrite Hv. subst out. rewrite Hrun.
    destruct (faults.(Faults.data_Save) _); [by split|].
    destruct (faults.(Faults.meta_Save) _); [by split|].
    destruct (faults.(Faults.event_Save) _); [by split|].
    simpl. split; [done|]. by intros rv [= <-].
Qed.

(** X2: a validated write that is turned down before the persistence
    steps, for a change type other than Added, Modified or Deleted or
    because the document does not build, returns the corresponding error
    and writes to no store. *)
Theorem WriteEvent_rejected_before_persistence (event : WriteEvent.t)
  (k : kvStorageBackend.t Doc) :
  Validate event = None ->
  let out := WriteEvent Validate BuildDocument faults event k in
  (isWriteType event.(WriteEvent.EventType) = false ->
   out.1 = Fail (ErrorNew ("invalid event type: " ++
                           WatchEvent_Type_decimal
                             event.(WriteEvent.EventType))) /\
   sameStores k out.2) /\
  (forall action err,
     acceptedAs Validate faults event k action ->
     BuildDocument event.(WriteEvent.Key)
       (k.(kvStorageBackend.snowflake) + 1) event.(WriteEvent.Value) =
       inl err ->
     out.1 = Fail (ErrorWrap "failed to build document" err) /\
     sameStores k out.2).
Proof.
  intros Hvalid out.
  destruct (WriteEvent_cases Validate BuildDocument faults event k)
    as [(err & Hv & Hout)|[(Hv & Ht & Hout)|[(Hv & Ht & e & Hout & Hwhy)|
        [(action & Hacc & err & Hd & Hout)|(action & doc & Hacc & Hd)]]]];
    fold out in Hout || idtac.
  - congruence.
  - split.
    + intros _. rewrite Hout. by repeat split.
    + intros action err [_ Hacc]. by destruct (event.(WriteEvent.EventType)).
  - split.
    + intros Hw. by rewrite Ht in Hw.
    + intros action err [_ Hacc]. rewrite Ht in Hacc.
      destruct Hacc as [_ Hcheck].
      destruct Hwhy as [(found & Hf & _)|(err' & He & Hne & _)];
        congruence.
  - split.
    + intros Hw. destruct Hacc as [_ Hacc].
      by destruct (event.(WriteEvent.EventType)).
    + intros action' err' _ Hd'. rewrite Hd in Hd'. injection Hd' as <-.
      rewrite Hout. by repeat split.
  - split.
    + intros Hw. destruct Hacc as [_ Hacc].
      by destruct (event.(WriteEvent.EventType)).
    + intros action' err' _ Hd'. congruence.
Qed.

(** X3: writes of type Modified and Deleted make no existence check: once
    validated they are persisted whatever the stores hold and whether or
    not the metadata lookup is available. *)
Theorem WriteEvent_update_delete_unguarded (event : WriteEvent.t)
  (k : kvStorageBackend.t Doc) (action : DataAction) (doc : Doc) :
  Validate event = None ->
  action <> DataActionCreated ->
  event.(WriteEvent.EventType) = watchEventType action ->
  let rv := k.(kvStorageBackend.snowflake) + 1 in
  BuildDocument event.(WriteEvent.Key) rv event.(WriteEvent.Value) = inr doc ->
  faults.(Faults.data_Save) (dataKeyOf event rv action) = None ->
  faults.(Faults.meta_Save) (metaKeyOf event rv action) = None ->
  faults.(Faults.event_Save) (eventOf event rv action) = None ->
  let out := WriteEvent Validate BuildDocument faults event k in
  out.1 = Ok rv /\
  In (dataKeyOf event rv action, event.(WriteEvent.Value))
     out.2.(kvStorageBackend.dataStore) /\
  In (MetaDataObj.mk (metaKeyOf event rv action) (MetaData.mk doc))
     out.2.(kvStorageBackend.metaStore) /\
  out.2.(kvStorageBackend.eventStore) =
    (k.(kvStorageBackend.eventStore) ++ [eventOf event rv action])%list.
Proof.
  intros Hvalid Hnc Htype rv Hdoc Hd Hm He out.
  assert (Hacc : acceptedAs Validate faults event k action).
  { split; [done|]. rewrite Htype. by destruct action. }
  subst out.
  rewrite (WriteEvent_accepted_run Validate BuildDocument faults event k
             action doc Hacc Hdoc).
  fold rv. rewrite Hd, Hm, He. simpl.
  repeat split; apply kv_put_In.
Qed.


(** A write that returns a version went through every step. *)
Lemma WriteEvent_Ok_inv (event : WriteEvent.t) (k : kvStorageBackend.t Doc)
  (rv : Z) :
  (WriteEvent Validate BuildDocument faults event k).1 = Ok rv ->
  rv = k.(kvStorageBackend.snowflake) + 1 /\
  exists action doc,
    acceptedAs Validate faults event k action /\
    BuildDocument event.(WriteEvent.Key) rv event.(WriteEvent.Value) =
      inr doc /\
    WriteEvent Validate BuildDocument faults event k =
      (Ok rv, putEvent event rv action
                (putMeta event rv action doc (putData event rv action k))).
Proof.
  intros Hok.
  destruct (WriteEvent_cases Validate BuildDocument faults event k)
    as [(err & Hv & Hout)|[(Hv & Ht & Hout)|[(Hv & Ht & e & Hout & Hwhy)|
        [(action & Hacc & err & Hd & Hout)|(action & doc & Hacc & Hd)]]]];
    try (rewrite Hout in Hok; discriminate Hok).
  pose proof (WriteEvent_accepted_run Validate BuildDocument faults event k
                action doc Hacc Hd) as Hrun.
  cbv zeta in Hrun. rewrite Hrun in Hok |- *.
  destruct (faults.(Faults.data_Save) _); [discriminate Hok|].
  destruct (faults.(Faults.meta_Save) _); [discriminate Hok|].
  destruct (faults.(Faults.event_Save) _); [discriminate Hok|].
  simpl in Hok. injection Hok as <-. split; [done|].
  by exists action, doc.
Qed.

(** X4: the stores are append-only under [WriteEvent] and their versions
    stay behind the generator: whatever the event and however the write
    ends, every record that was stored is still stored, the event log only
    grows at its end, and no stored version exceeds the generator's last
    identifier. *)
Theorem WriteEvent_append_only (event : WriteEvent.t)
  (k : kvStorageBackend.t Doc) :
  versionsBounded k ->
  let out := WriteEvent Validate BuildDocument faults event k in
  versionsBounded out.2 /\
  (forall rec, In rec k.(kvStorageBackend.dataStore) ->
     In rec out.2.(kvStorageBackend.dataStore)) /\
  (forall obj, In obj k.(kvStorageBackend.metaStore) ->
     In obj out.2.(kvStorageBackend.metaStore)) /\
  (exists added,
     out.2.(kvStorageBackend.eventStore) =
       (k.(kvStorageBackend.eventStore) ++ added)%list).
Proof.
  intros (Hbd & Hbm & Hbe) out.
  assert (Htick : versionsBounded (tick k)).
  { repeat split; simpl; intros x Hx;
      [specialize (Hbd x Hx)|specialize (Hbm x Hx)|specialize (Hbe x Hx)];
      lia. }
  assert (Hsame : forall e k', (k' = k \/ k' = tick k) ->
            out = (Fail e, k') ->
            versionsBounded out.2 /\
            (forall rec, In rec k.(kvStorageBackend.dataStore) ->
               In rec out.2.(kvStorageBackend.dataStore)) /\
            (forall obj, In obj k.(kvStorageBackend.metaStore) ->
               In obj out.2.(kvStorageBackend.metaStore)) /\
            (exists added,
               out.2.(kvStorageBackend.eventStore) =
                 (k.(kvStorageBackend.eventStore) ++ added)%list)).
  { intros e k' Hk' ->. simpl.
    destruct Hk' as [->| ->]; (split; [done|]); simpl;
      (split; [done|]); (split; [done|]); exists []; by rewrite app_nil_r. }
  destruct (WriteEvent_cases Validate BuildDocument faults event k)
    as [(err & Hv & Hout)|[(Hv & Ht & Hout)|[(Hv & Ht & e & Hout & Hwhy)|
        [(action & Hacc & err & Hd & Hout)|(action & doc & Hacc & Hd)]]]];
    try (eapply Hsame; [|exact Hout]; auto; fail).
  pose proof (WriteEvent_accepted_run Validate BuildDocument faults event k
                action doc Hacc Hd) as Hrun.
  cbv zeta in Hrun. subst out. rewrite Hrun. clear Hrun Hsame.
  set (rv := k.(kvStorageBackend.snowflake) + 1) in *.
  assert (Hdata : forall rec,
            In rec (kv_put (fun a b => DataKey_compare a.1 b.1)
                      (dataKeyOf event rv action, event.(WriteEvent.Value))
                      k.(kvStorageBackend.dataStore)) ->
            rec.1.(DataKey.ResourceVersion) <= rv).
  { intros rec Hin. apply kv_put_In_inv in Hin as [->|Hin]; simpl; [lia|].
    specialize (Hbd rec Hin). lia. }
  assert (Hdkeep : forall rec, In rec k.(kvStorageBackend.dataStore) ->
            In rec (kv_put (fun a b => DataKey_compare a.1 b.1)
                      (dataKeyOf event rv action, event.(WriteEvent.Value))
                      k.(kvStorageBackend.dataStore))).
  { intros rec Hin. apply kv_put_keeps; [done|]. simpl.
    intros Heq. apply DataKey_compare_Eq in Heq.
    specialize (Hbd rec Hin). rewrite <- Heq in Hbd. simpl in Hbd. lia. }
  assert (Hmeta : forall obj,
            In obj (kv_put (fun a b => MetaDataKey_compare a.(MetaDataObj.Key)
                                         b.(MetaDataObj.Key))
                      (MetaDataObj.mk (metaKeyOf event rv action)
                         (MetaData.mk doc))
                      k.(kvStorageBackend.metaStore)) ->
            obj.(MetaDataObj.Key).(MetaDataKey.ResourceVersion) <= rv).
  { intros obj Hin. apply kv_put_In_inv in Hin as [->|Hin]; simpl; [lia|].
    specialize (Hbm obj Hin). lia. }
  assert (Hmkeep : forall obj, In obj k.(kvStorageBackend.metaStore) ->
            In obj (kv_put (fun a b => MetaDataKey_compare a.(MetaDataObj.Key)
                                         b.(MetaDataObj.Key))
                      (MetaDataObj.mk (metaKeyOf event rv action)
                         (MetaData.mk doc))
                      k.(kvStorageBackend.metaStore))).
  { intros obj Hin. apply kv_put_keeps; [done|]. simpl.
    intros Heq. apply MetaDataKey_compare_Eq in Heq.
    specialize (Hbm obj Hin). rewrite <- Heq in Hbm. simpl in Hbm. lia. }
  assert (Hev : forall ev, In ev k.(kvStorageBackend.eventStore) ->
            ev.(Event.ResourceVersion) <= rv).
  { intros ev Hin. specialize (Hbe ev Hin). lia. }
  assert (Hmold : forall obj, In obj k.(kvStorageBackend.metaStore) ->
            obj.(MetaDataObj.Key).(MetaDataKey.ResourceVersion) <= rv).
  { intros obj Hin. specialize (Hbm obj Hin). lia. }
  destruct (faults.(Faults.data_Save) _).
  { simpl. split; [exact Htick|]. repeat split; try done.
    exists []. by rewrite app_nil_r. }
  destruct (faults.(Faults.meta_Save) _).
  { simpl. split; [by repeat split|]. repeat split; try done.
    exists []. by rewrite app_nil_r. }
  destruct (faults.(Faults.event_Save) _).
  { simpl. split; [by repeat split|]. repeat split; try done.
    exists []. by rewrite app_nil_r. }
  simpl. split.
  - repeat split; simpl; try done.
    intros ev Hin. apply in_app_or in Hin as [Hin|[<-|[]]]; [by apply Hev|].
    simpl. lia.
  - repeat split; try done. by eexists.
Qed.


Lemma MetaDataKey_sameObject_metaKeyOf (event : WriteEvent.t) (rv : Z)
  (action : DataAction) :
  MetaDataKey_sameObject (requestKeyOf event.(WriteEvent.Key))
    (metaKeyOf event rv action) = true.
Proof.
  unfold MetaDataKey_sameObject, requestKeyOf, metaKeyOf. simpl.
  by rewrite !bool_decide_eq_true_2.
Qed.

(** After a completed write at a version above every stored one, the
    written MetaRecord is the object's record with the highest RV, both
    among all its records and among those at or below that version. *)
Lemma highestRV_after_write (event : WriteEvent.t)
  (k : kvStorageBackend.t Doc) (action : DataAction) (doc : Doc)
  (p : MetaDataKey.t -> bool) :
  versionsBounded k ->
  let rv := k.(kvStorageBackend.snowflake) + 1 in
  p (metaKeyOf event rv action) = true ->
  highestRV None
    (List.filter
       (fun key => MetaDataKey_sameObject (requestKeyOf event.(WriteEvent.Key))
                     key && p key)
       (metaKeys (putEvent event rv action
                    (putMeta event rv action doc
                       (putData event rv action k))))) =
  Some (metaKeyOf event rv action).
Proof.
  intros (_ & Hbm & _) rv Hp.
  set (new := metaKeyOf event rv action).
  set (L := List.filter _ _).
  assert (Hnew : In new L).
  { subst L. apply filter_In. split.
    - unfold metaKeys, putEvent, putMeta. simpl.
      apply (in_map MetaDataObj.Key _
               (MetaDataObj.mk new (MetaData.mk doc))), kv_put_In.
    - apply andb_true_iff. split; [apply MetaDataKey_sameObject_metaKeyOf|exact Hp]. }
  destruct (highestRV None L) as [r|] eqn:Hh.
  2:{ apply highestRV_None in Hh as [_ Hnil]. by rewrite Hnil in Hnew. }
  destruct (highestRV_spec _ _ _ Hh) as ([?|Hin] & _ & Hall); [done|].
  specialize (Hall new Hnew).
  subst L. apply filter_In in Hin as [Hin _].
  unfold metaKeys, putEvent, putMeta in Hin. simpl in Hin.
  apply in_map_iff in Hin as (obj & <- & Hobj).
  apply kv_put_In_inv in Hobj as [->|Hold]; [done|].
  specialize (Hbm obj Hold). subst new. simpl in Hall. lia.
Qed.

Lemma latestLookup_after_write (event : WriteEvent.t)
  (k : kvStorageBackend.t Doc) (action : DataAction) (doc : Doc) :
  versionsBounded k ->
  faults.(Faults.meta_Get) (requestKeyOf event.(WriteEvent.Key)) = None ->
  let rv := k.(kvStorageBackend.snowflake) + 1 in
  latestLookup faults event.(WriteEvent.Key)
    (putEvent event rv action
       (putMeta event rv action doc (putData event rv action k))) =
  if isDeleted action then inl ErrNotFound
  else inr (metaKeyOf event rv action).
Proof.
  intros Hb Hfault rv. unfold latestLookup, latestResourceKey.
  rewrite Hfault.
  pose proof (highestRV_after_write event k action doc (fun _ => true) Hb
                eq_refl) as Hh.
  cbv zeta in Hh. fold rv in Hh.
  erewrite filter_ext in Hh; [rewrite Hh|].
  - done.
  - intros key. simpl. by rewrite andb_true_r.
Qed.

Lemma find_kv_put (key : DataKey.t) (value : bytes)
  (l : list (DataKey.t * bytes)) :
  List.find (fun e => bool_decide (e.1 = key))
    (kv_put (fun a b => DataKey_compare a.1 b.1) (key, value) l) =
  Some (key, value).
Proof.
  induction l as [|e' l IH]; simpl.
  - by rewrite bool_decide_eq_true_2.
  - destruct (DataKey_compare key e'.1) eqn:Hc; simpl.
    + by rewrite bool_decide_eq_true_2.
    + by rewrite bool_decide_eq_true_2.
    + rewrite bool_decide_eq_false_2; [done|].
      intros Heq. rewrite Heq in Hc.
      assert (DataKey_compare key key = Eq) by by apply DataKey_compare_Eq.
      congruence.
Qed.

(** X5: read your write.  After a write of type Added or Modified that
    returns version [rv], on a backend whose stored versions the generator
    had already passed and whose lookups do not fail, [ReadResource] for
    the key returns the written payload, the folder and [rv], both for
    resource version 0 (latest) and for [rv] itself. *)
Theorem ReadResource_after_WriteEvent (event : WriteEvent.t)
  (k : kvStorageBackend.t Doc) (rv : Z) :
  versionsBounded k ->
  let out := WriteEvent Validate BuildDocument faults event k in
  out.1 = Ok rv ->
  event.(WriteEvent.EventType) <> WatchEvent_DELETED ->
  faults.(Faults.meta_Get) (requestKeyOf event.(WriteEvent.Key)) = None ->
  (forall action,
     faults.(Faults.data_Get) (dataKeyOf event rv action) = None /\
     faults.(Faults.data_Read) (dataKeyOf event rv action) = None) ->
  forall at_rv, at_rv = 0 \/ at_rv = rv ->
    (ReadResource faults
       (ReadRequest.mk (Some event.(WriteEvent.Key)) at_rv) out.2).1 =
    Ok (BackendReadResponse.mk (Some event.(WriteEvent.Key)) rv
          event.(WriteEvent.Value) event.(WriteEvent.Folder) None).
Proof.
  intros Hb out Hok Hnd Hmg Hdg at_rv Hat.
  destruct (WriteEvent_Ok_inv event k rv Hok)
    as (Hrv & action & doc & Hacc & Hdoc & Hrun).
  subst out. rewrite Hrun. simpl.
  assert (Hlive : isDeleted action = false).
  { destruct Hacc as [_ Hacc].
    destruct (event.(WriteEvent.EventType)); try done.
    - by destruct Hacc as [-> _].
    - by subst action. }
  assert (Hres : resourceKeyAtRevision
            (metaKeys (putEvent event rv action
                         (putMeta event rv action doc
                            (putData event rv action k))))
            (requestKeyOf event.(WriteEvent.Key)) at_rv =
          inr (metaKeyOf event rv action)).
  { unfold resourceKeyAtRevision.
    destruct (Z.eqb_spec at_rv 0) as [Hz|Hnz].
    - pose proof (latestLookup_after_write event k action doc Hb Hmg) as Hl.
      cbv zeta in Hl. rewrite <- Hrv in Hl.
      unfold latestLookup in Hl. rewrite Hmg, Hlive in Hl. exact Hl.
    - destruct Hat as [?| ->]; [done|].
      pose proof (highestRV_after_write event k action doc
                    (fun key => key.(MetaDataKey.ResourceVersion) <=? rv) Hb)
        as Hh.
      cbv zeta in Hh. rewrite <- Hrv in Hh. rewrite Hh; [done|].
      simpl. apply Z.leb_refl. }
  unfold ReadResource. simpl.
  unfold metaStore_GetResourceKeyAtRevision, dataStore_Get. unfold_M.
  fold (requestKeyOf event.(WriteEvent.Key)). rewrite Hmg, Hres.
  cbn [MetaDataKey.ResourceVersion MetaDataKey.Action MetaDataKey.Folder
       metaKeyOf].
  fold (dataKeyOf event rv action).
  destruct (Hdg action) as [-> Hread].
  cbn [putEvent putMeta putData kvStorageBackend.dataStore].
  rewrite find_kv_put. simpl. by rewrite Hread.
Qed.





End WriteComposition.

Section ListMore.

Context {Doc : Type}.
Variable faults : Faults.t.

(** X9: every response of [ReadResource] is either a result, with the
    request's key and no error, or an error with code 400, 404 or 500 and
    no key, payload, folder or version; the code is 400 exactly when the
    request has no key.  The read leaves the backend as it was. *)
Theorem ReadResource_response_shape (req : ReadRequest.t)
  (k : kvStorageBackend.t Doc) :
  exists rsp,
    ReadResource faults req k = (Ok rsp, k) /\
    ((rsp.(BackendReadResponse.Error) = None /\
      rsp.(BackendReadResponse.Key) = req.(ReadRequest.Key) /\
      req.(ReadRequest.Key) <> None) \/
     (exists code message,
        rsp = errorResponse code message /\
        (code = StatusBadRequest \/ code = StatusNotFound \/
         code = StatusInternalServerError) /\
        (code = StatusBadRequest <-> req.(ReadRequest.Key) = None))).
Proof.
  unfold ReadResource.
  destruct (req.(ReadRequest.Key)) as [key|] eqn:Hkey.
  2:{ eexists. split; [reflexivity|]. right.
      exists StatusBadRequest, "missing key". by repeat split; auto. }
  unfold metaStore_GetResourceKeyAtRevision, dataStore_Get. unfold_M.
  assert (Hne : forall code message,
            code = StatusNotFound \/ code = StatusInternalServerError ->
            (errorResponse code message).(BackendReadResponse.Error) = None /\
            (errorResponse code message).(BackendReadResponse.Key) = Some key /\
            Some key <> None \/
            (exists code' message',
               errorResponse code message = errorResponse code' message' /\
               (code' = StatusBadRequest \/ code' = StatusNotFound \/
                code' = StatusInternalServerError) /\
               (code' = StatusBadRequest <-> Some key = None))).
  { intros code message Hcode. right. exists code, message.
    split; [done|]. split; [tauto|].
    split; [|done]. intros ->. by destruct Hcode. }
  destruct (match faults.(Faults.meta_Get) _ with
            | Some e => _ | None => _ end) as [err|meta]; simpl.
  - destruct (isErrNotFound err); eexists; (split; [reflexivity|]);
      apply Hne; auto.
  - destruct (match faults.(Faults.data_Get) _ with
              | Some e => _ | None => _ end) as [err|data]; simpl.
    + eexists. split; [reflexivity|]. apply Hne; auto.
    + destruct (io_ReadAll data); eexists; (split; [reflexivity|]).
      * apply Hne; auto.
      * left. by repeat split.
Qed.

Lemma collectKeys_collect (offset limit1 idx : Z) (keys l : list MetaDataKey.t) :
  offset <= idx ->
  collectKeys offset limit1 idx keys (List.map inr l) =
  inr (keys ++
       List.firstn (Z.to_nat (Z.max 1 (limit1 - Z.of_nat (length keys)))) l)%list.
Proof.
  intros Hidx. revert keys. induction l as [|x l IH]; intros keys; simpl.
  - by rewrite firstn_nil, app_nil_r.
  - destruct (Z.ltb_spec idx offset); [lia|].
    rewrite length_app. simpl.
    destruct (Z.leb_spec limit1 (Z.of_nat (length keys + 1))) as [Hstop|Hgo].
    + replace (Z.to_nat (Z.max 1 (limit1 - Z.of_nat (length keys))))
        with 1%nat by lia.
      done.
    + rewrite IH, length_app. simpl.
      replace (Z.to_nat (Z.max 1 (limit1 - Z.of_nat (length keys))))
        with (S (Z.to_nat (Z.max 1 (limit1 - Z.of_nat (length keys + 1)))))
        by lia.
      simpl. by rewrite <- app_assoc.
Qed.

Lemma collectKeys_skip (offset limit1 idx : Z) (l : list MetaDataKey.t) :
  collectKeys offset limit1 idx [] (List.map inr l) =
  inr (List.firstn (Z.to_nat (Z.max 1 limit1))
         (List.skipn (Z.to_nat (offset - idx)) l)).
Proof.
  revert idx. induction l as [|x l IH]; intros idx.
  - simpl. by rewrite skipn_nil, firstn_nil.
  - destruct (Z.ltb_spec idx offset) as [Hlt|Hge].
    + simpl. destruct (Z.ltb_spec idx offset); [|lia].
      rewrite IH.
      replace (Z.to_nat (offset - idx)) with (S (Z.to_nat (offset - (idx + 1))))
        by lia.
      done.
    + rewrite (collectKeys_collect offset limit1 idx [] (x :: l) Hge).
      replace (Z.to_nat (offset - idx)) with 0%nat by lia.
      simpl. by rewrite Z.sub_0_r.
Qed.


(** The callback of [ListIterator] is handed the page of the scan. *)
Lemma ListIterator_page_run
  (GetContinueToken : string -> error + ContinueToken.t)
  (req : ListRequest.t) (key : ResourceKey.t) (k : kvStorageBackend.t Doc)
  (offset resourceVersion : Z) :
  req.(ListRequest.Options) = Some (Some key) ->
  capacityOk req ->
  listCursor GetContinueToken req offset resourceVersion ->
  faults.(Faults.meta_List) (requestKeyOf key) = None ->
  listVisits GetContinueToken faults req k
    (newListIterator
       (pageOf req offset
          (listResourceKeysAtRevision (metaKeys k) (requestKeyOf key)
             resourceVersion))
       (if 0 <? resourceVersion then resourceVersion
        else k.(kvStorageBackend.snowflake) + 1)
       offset).
Proof.
  intros Hopt Hcap Hcur Hfault.
  apply (ListIterator_visits GetContinueToken faults req key k offset
           resourceVersion); try done.
  rewrite collectKeys_skip. unfold pageOf. by rewrite Z.sub_0_r.
Qed.

(** X10: the page of a list call.  A [ListIterator] call whose request names
    a key, whose cursor is [offset] at [resourceVersion] and whose scan
    does not fail hands its callback the scan's entries past the first
    [offset], at most [Limit + 1] of them and at least one when there is
    one, in scan order; the iterator starts before the first entry, at
    that offset, and carries the list version: [resourceVersion] when it
    is positive, a freshly minted identifier otherwise. *)
Theorem ListIterator_page
  (GetContinueToken : string -> error + ContinueToken.t)
  (req : ListRequest.t) (key : ResourceKey.t) (k : kvStorageBackend.t Doc)
  (offset resourceVersion : Z) :
  req.(ListRequest.Options) = Some (Some key) ->
  capacityOk req ->
  listCursor GetContinueToken req offset resourceVersion ->
  faults.(Faults.meta_List) (requestKeyOf key) = None ->
  listVisits GetContinueToken faults req k
    (newListIterator
       (pageOf req offset
          (listResourceKeysAtRevision (metaKeys k) (requestKeyOf key)
             resourceVersion))
       (if 0 <? resourceVersion then resourceVersion
        else k.(kvStorageBackend.snowflake) + 1)
       offset).
Proof.
  intros Hopt Hcap Hcur Hfault.
  by apply ListIterator_page_run.
Qed.

(** X11: a page size below -1 crashes the listings.  When [Limit + 1] is
    negative as a 64-bit integer (Limit below -1, or the largest int64),
    [ListIterator] and [ListHistory] on an otherwise well-formed request
    panic on the buffer allocation, after a version is minted and before
    any store is read or the callback runs. *)
Theorem listings_panic_on_negative_capacity
  (GetContinueToken : string -> error + ContinueToken.t)
  (req : ListRequest.t) (key : ResourceKey.t) (k : kvStorageBackend.t Doc) :
  req.(ListRequest.Options) = Some (Some key) ->
  in_int64 req.(ListRequest.Limit) ->
  req.(ListRequest.Limit) < -1 \/ req.(ListRequest.Limit) = int64_max ->
  req.(ListRequest.NextPageToken) = "" ->
  (forall cb,
     ListIterator GetContinueToken faults req cb k =
     (Panic "makeslice: cap out of range", tick k)) /\
  (key.(ResourceKey.Group) <> "" -> key.(ResourceKey.Resource) <> "" ->
   key.(ResourceKey.Namespace) <> "" -> key.(ResourceKey.Name) <> "" ->
   forall fn,
     ListHistory GetContinueToken faults req fn k =
     (Panic "makeslice: cap out of range", tick k)).
Proof.
  intros Hopt Hrange Hlimit Htok.
  assert (Hneg : (Z.min defaultListBufferSize
                    (wrap64 (req.(ListRequest.Limit) + 1)) <? 0) = true).
  { apply Z.ltb_lt. unfold wrap64, defaultListBufferSize.
    unfold in_int64, int64_min, int64_max in *.
    destruct Hlimit as [Hlt| ->].
    - rewrite Z.mod_small by lia. lia.
    - replace (2 ^ 63 - 1 + 1 + 2 ^ 63) with (0 + 1 * 2 ^ 64) by lia.
      rewrite Z.mod_add by lia. rewrite Z.mod_small by lia. lia. }
  split.
  - intros cb. unfold ListIterator. rewrite Hopt, Htok.
    rewrite decide_True by done.
    unfold snowflake_Generate. unfold_M. simpl.
    cbv beta iota. by rewrite Hneg.
  - intros Hg Hr Hn Hm fn. unfold ListHistory. rewrite Hopt, Htok.
    rewrite !decide_False by done. rewrite decide_True by done.
    unfold snowflake_Generate. unfold_M. simpl.
    cbv beta iota. by rewrite Hneg.
Qed.


Lemma wrap64_small (z : Z) : in_int64 z -> wrap64 z = z.
Proof.
  unfold in_int64, int64_min, int64_max, wrap64. intros H.
  rewrite Z.mod_small; lia.
Qed.

(** One call of [Next] on an entry whose payload can be read. *)
Lemma kvListIterator_Next_reads (i : kvListIterator.t)
  (k : kvStorageBackend.t Doc) (key : MetaDataKey.t) (value : bytes) :
  0 <= i.(kvListIterator.currentIndex) + 1 ->
  List.nth_error i.(kvListIterator.keys)
    (Z.to_nat (i.(kvListIterator.currentIndex) + 1)) = Some key ->
  readable faults k key value ->
  kvListIterator_Next faults i k =
  (Ok (true,
       kvListIterator.mk i.(kvListIterator.keys)
         (i.(kvListIterator.currentIndex) + 1) i.(kvListIterator.listRV)
         (wrap64 (i.(kvListIterator.offset) + 1))
         key.(MetaDataKey.ResourceVersion) None value), k).
Proof.
  intros Hidx Hnth Hread.
  assert (Hlen : (Z.to_nat (i.(kvListIterator.currentIndex) + 1) <
                  length i.(kvListIterator.keys))%nat).
  { apply nth_error_Some. by rewrite Hnth. }
  unfold kvListIterator_Next.
  destruct (Z.leb_spec (Z.of_nat (length i.(kvListIterator.keys)))
              (i.(kvListIterator.currentIndex) + 1)); [lia|].
  destruct (Z.ltb_spec (i.(kvListIterator.currentIndex) + 1) 0); [lia|].
  rewrite Hnth. unfold_M.
  change (DataKey.mk _ _ _ _ _ _) with (dataKeyOfMeta key).
  unfold readable in Hread.
  destruct (dataStore_Get faults (dataKeyOfMeta key) k) as [r k'] eqn:Hget.
  assert (k' = k) as ->.
  { unfold dataStore_Get in Hget. unfold_M. congruence. }
  simpl in Hread. by rewrite Hread.
Qed.

Lemma kvListIterator_NextN_reads (n : nat) (i : kvListIterator.t)
  (k : kvStorageBackend.t Doc) :
  0 <= i.(kvListIterator.currentIndex) + 1 ->
  (forall j, (j < n)%nat ->
     exists key value,
       List.nth_error i.(kvListIterator.keys)
         (Z.to_nat (i.(kvListIterator.currentIndex) + 1) + j) = Some key /\
       readable faults k key value) ->
  in_int64 i.(kvListIterator.offset) ->
  i.(kvListIterator.offset) + Z.of_nat n <= int64_max ->
  exists i',
    kvListIterator_NextN faults n i k = (Ok (true, i'), k) /\
    i'.(kvListIterator.keys) = i.(kvListIterator.keys) /\
    i'.(kvListIterator.listRV) = i.(kvListIterator.listRV) /\
    i'.(kvListIterator.currentIndex) =
      i.(kvListIterator.currentIndex) + Z.of_nat n /\
    i'.(kvListIterator.offset) = i.(kvListIterator.offset) + Z.of_nat n.
Proof.
  revert i. induction n as [|n IH]; intros i Hidx Hread Hoff Hmax.
  - exists i. simpl. unfold_M. repeat split; lia.
  - destruct (Hread 0%nat ltac:(lia)) as (key & value & Hnth & Hr).
    rewrite Nat.add_0_r in Hnth.
    pose proof (kvListIterator_Next_reads i k key value Hidx Hnth Hr) as Hnext.
    set (i1 := kvListIterator.mk _ _ _ _ _ _ _) in Hnext.
    assert (Hw : wrap64 (i.(kvListIterator.offset) + 1) =
                 i.(kvListIterator.offset) + 1).
    { apply wrap64_small. unfold in_int64, int64_min, int64_max in *. lia. }
    destruct (IH i1) as (i' & Hrun & Hk & Hl & Hc & Ho).
    + subst i1. simpl. lia.
    + intros j Hj. destruct (Hread (S j) ltac:(lia)) as (key' & v' & Hn' & Hr').
      exists key', v'. split; [|done]. subst i1. simpl.
      replace (Z.to_nat (i.(kvListIterator.currentIndex) + 1 + 1) + j)%nat
        with (Z.to_nat (i.(kvListIterator.currentIndex) + 1) + S j)%nat
        by lia.
      done.
    + subst i1. simpl. rewrite Hw.
      unfold in_int64, int64_min, int64_max in *. lia.
    + subst i1. simpl. rewrite Hw. lia.
    + exists i'. split.
      * simpl. unfold_M. rewrite Hnext. exact Hrun.
      * subst i1. simpl in *. rewrite Hw in Ho. repeat split; try done; lia.
Qed.

(** The iterator after [n] reads, and its token. *)
Lemma kvListIterator_NextN_token (keys : list MetaDataKey.t)
  (listRV offset : Z) (n : nat) (k : kvStorageBackend.t Doc) :
  (n <= length keys)%nat ->
  (forall j key, List.nth_error keys j = Some key -> (j < n)%nat ->
     exists value, readable faults k key value) ->
  0 <= offset ->
  offset + Z.of_nat n <= int64_max ->
  exists i',
    kvListIterator_NextN faults n (newListIterator keys listRV offset) k =
      (Ok (true, i'), k) /\
    i'.(kvListIterator.currentIndex) = Z.of_nat n - 1 /\
    kvListIterator_token i' =
      ContinueToken.mk (offset + Z.of_nat n) listRV false.
Proof.
  intros Hn Hread Hoff Hmax.
  destruct (kvListIterator_NextN_reads n (newListIterator keys listRV offset) k)
    as (i' & Hrun & Hk & Hl & Hc & Ho); simpl; try done.
  - intros j Hj.
    destruct (List.nth_error keys j) as [key|] eqn:Hnth.
    + destruct (Hread j key Hnth Hj) as [value Hv]. by exists key, value.
    + apply nth_error_None in Hnth. lia.
  - unfold in_int64, int64_min, int64_max in *. lia.
  - exists i'. split; [exact Hrun|]. split; [simpl in Hc; lia|].
    unfold kvListIterator_token. simpl in *. by rewrite Ho, Hl.
Qed.

(** X12: the token of the list iterator counts the entries read.  On the
    iterator that [ListIterator] hands out, [n] calls of [Next] over
    entries whose payloads can be read all return true and leave the
    iterator on the [n]-th entry; the continuation token then carries the
    start offset plus [n] and the list version, which no call of [Next]
    changes. *)
Theorem kvListIterator_token_counts_reads (keys : list MetaDataKey.t)
  (listRV offset : Z) (n : nat) (k : kvStorageBackend.t Doc) :
  (n <= length keys)%nat ->
  (forall j key, List.nth_error keys j = Some key -> (j < n)%nat ->
     exists value, readable faults k key value) ->
  0 <= offset ->
  offset + Z.of_nat n <= int64_max ->
  exists i',
    kvListIterator_NextN faults n (newListIterator keys listRV offset) k =
      (Ok (true, i'), k) /\
    i'.(kvListIterator.currentIndex) = Z.of_nat n - 1 /\
    kvListIterator_token i' =
      ContinueToken.mk (offset + Z.of_nat n) listRV false.
Proof.
  intros Hn Hread Hoff Hmax.
  by apply kvListIterator_NextN_token.
Qed.


End ListMore.

Section SnapshotMore.

Context {Doc : Type}.
Variable Validate : WriteEvent.t -> option error.
Variable BuildDocument : ResourceKey.t -> Z -> bytes -> error + Doc.
Variable faults : Faults.t.

Lemma kv_put_split {E : Type} (cmp : E -> E -> comparison) (e : E)
  (l : list E) :
  exists l1 l2,
    kv_put cmp e l = (l1 ++ e :: l2)%list /\
    (l = (l1 ++ l2)%list \/
     exists e', l = (l1 ++ e' :: l2)%list /\ cmp e e' = Eq).
Proof.
  induction l as [|x l IH]; simpl.
  - exists [], []. split; [done|by left].
  - destruct (cmp e x) eqn:Hc.
    + exists [], l. split; [done|]. right. by exists x.
    + exists [], (x :: l). split; [done|by left].
    + destruct IH as (l1 & l2 & Hput & Hl).
      exists (x :: l1), l2. rewrite Hput. split; [done|].
      destruct Hl as [->|(e' & -> & He')]; [by left|].
      right. by exists e'.
Qed.

(** A record that is not visible at [rv] has no part in the scan at
    [rv]. *)
Lemma scan_ignores_invisible (K1 K2 : list MetaDataKey.t)
  (new : MetaDataKey.t) (req : RequestKey.t) (rv : Z) :
  visibleAt rv new = false ->
  listResourceKeysAtRevision (K1 ++ new :: K2) req rv =
  listResourceKeysAtRevision (K1 ++ K2) req rv.
Proof.
  intros Hinv. unfold listResourceKeysAtRevision.
  assert (Hcur : forall key,
            currentAt (K1 ++ new :: K2) rv key = currentAt (K1 ++ K2) rv key).
  { intros key. unfold currentAt. f_equal.
    rewrite !forallb_app. simpl. by rewrite Hinv, andb_false_r. }
  rewrite !List.filter_app. simpl.
  replace (currentAt (K1 ++ new :: K2) rv new) with false.
  2:{ unfold currentAt. by rewrite Hinv. }
  rewrite andb_false_r. simpl.
  f_equal; apply List.filter_ext; intros key; by rewrite Hcur.
Qed.

(** X14: a list version is a stable snapshot.  A list call pinned to a
    positive version [rv] that the generator has already handed out, by
    its token or by the request's resource version, is handed the same
    page before and after a later write completes: the write's records
    carry a newer version and the scan at [rv] does not see them. *)
Theorem ListIterator_snapshot_survives_write
  (GetContinueToken : string -> error + ContinueToken.t)
  (req : ListRequest.t) (key : ResourceKey.t) (k : kvStorageBackend.t Doc)
  (offset rv : Z) (event : WriteEvent.t) (written : Z) :
  req.(ListRequest.Options) = Some (Some key) ->
  capacityOk req ->
  listCursor GetContinueToken req offset rv ->
  faults.(Faults.meta_List) (requestKeyOf key) = None ->
  0 < rv <= k.(kvStorageBackend.snowflake) ->
  let out := WriteEvent Validate BuildDocument faults event k in
  out.1 = Ok written ->
  exists keys,
    listVisits GetContinueToken faults req k (newListIterator keys rv offset) /\
    listVisits GetContinueToken faults req out.2
      (newListIterator keys rv offset) /\
    forall entry, In entry keys ->
      entry.(MetaDataKey.ResourceVersion) <= rv.
Proof.
  intros Hopt Hcap Hcur Hfault Hrv out Hok.
  destruct (WriteEvent_Ok_inv Validate BuildDocument faults event k written
              Hok) as (Hw & action & doc & Hacc & Hdoc & Hrun).
  pose proof (ListIterator_page_run faults GetContinueToken req key k offset rv
                Hopt Hcap Hcur Hfault) as Hbefore.
  pose proof (ListIterator_page_run faults GetContinueToken req key out.2 offset
                rv Hopt Hcap Hcur Hfault) as Hafter.
  destruct (Z.ltb_spec 0 rv); [|lia].
  assert (Hscan :
    listResourceKeysAtRevision (metaKeys out.2) (requestKeyOf key) rv =
    listResourceKeysAtRevision (metaKeys k) (requestKeyOf key) rv).
  { subst out. rewrite Hrun. unfold metaKeys, putEvent, putMeta, putData.
    simpl.
    set (obj := MetaDataObj.mk (metaKeyOf event written action)
                  (MetaData.mk doc)).
    destruct (kv_put_split
                (fun a b => MetaDataKey_compare a.(MetaDataObj.Key)
                              b.(MetaDataObj.Key))
                obj k.(kvStorageBackend.metaStore))
      as (l1 & l2 & Hput & Hold).
    rewrite Hput, map_app. simpl.
    assert (Hinv : visibleAt rv (metaKeyOf event written action) = false).
    { unfold visibleAt. simpl.
      destruct (Z.eqb_spec rv 0); [lia|].
      destruct (Z.leb_spec written rv); [lia|done]. }
    destruct Hold as [->|(e' & -> & He')].
    - rewrite map_app. by apply scan_ignores_invisible.
    - rewrite map_app. simpl.
      apply MetaDataKey_compare_Eq in He'. simpl in He'. by rewrite <- He'. }
  rewrite Hscan in Hafter.
  eexists. split; [exact Hbefore|]. split; [exact Hafter|].
  intros entry Hin. unfold pageOf in Hin.
  assert (Hpart : forall {A : Type} (n : nat) (l : list A) (x : A),
            In x (List.firstn n l) \/ In x (List.skipn n l) -> In x l).
  { intros A n l x Hx. rewrite <- (firstn_skipn n l). by apply in_or_app. }
  assert (Hin1 := Hpart _ _ _ _ (or_introl Hin)).
  assert (Hin2 := Hpart _ _ _ _ (or_intror Hin1)).
  clear Hin Hin1. rename Hin2 into Hin.
  unfold listResourceKeysAtRevision in Hin.
  apply filter_In in Hin as [_ Hp].
  apply andb_true_iff in Hp as [Hp _]. apply andb_true_iff in Hp as [_ Hc].
  unfold currentAt in Hc. apply andb_true_iff in Hc as [Hv _].
  unfold visibleAt in Hv.
  destruct (Z.eqb_spec rv 0); [lia|]. simpl in Hv. by apply Z.leb_le.
Qed.

End SnapshotMore.

Section IteratorMore.

Context {Doc : Type}.
Variable GetFolder : bytes -> error + string.
Variable faults : Faults.t.

(** X15: the accessors of the list iterator are only safe on an entry.
    After a call of [Next] that returns true, [Namespace], [Name],
    [Folder] and [ResourceVersion] answer the fields of the entry just
    read.  On the iterator as [ListIterator] hands it out, before the
    first [Next], the first three panic with an index out of range, where
    the history iterator's [Namespace] and [Name] answer the empty
    string. *)
Theorem kvListIterator_accessors :
  (forall (i i' : kvListIterator.t) (k k' : kvStorageBackend.t Doc),
     kvListIterator_Next faults i k = (Ok (true, i'), k') ->
     exists key,
       List.nth_error i.(kvListIterator.keys)
         (Z.to_nat (i.(kvListIterator.currentIndex) + 1)) = Some key /\
       kvListIterator_Namespace i' = Ok key.(MetaDataKey.Namespace) /\
       kvListIterator_Name i' = Ok key.(MetaDataKey.Name) /\
       kvListIterator_Folder i' = Ok key.(MetaDataKey.Folder) /\
       kvListIterator_ResourceVersion i' =
         key.(MetaDataKey.ResourceVersion)) /\
  (forall keys listRV offset,
     let i := newListIterator keys listRV offset in
     kvListIterator_Namespace i = Panic "index out of range" /\
     kvListIterator_Name i = Panic "index out of range" /\
     kvListIterator_Folder i = Panic "index out of range") /\
  (forall keys listRV sortAscending,
     let i := newHistoryIterator keys listRV sortAscending in
     kvHistoryIterator_Namespace i = "" /\ kvHistoryIterator_Name i = "").
Proof.
  split; [|split; [done|done]].
  intros i i' k k' Hnext. unfold kvListIterator_Next in Hnext.
  destruct (Z.leb_spec (Z.of_nat (length i.(kvListIterator.keys)))
              (i.(kvListIterator.currentIndex) + 1)) as [|Hlt];
    [unfold_M; congruence|].
  destruct (Z.ltb_spec (i.(kvListIterator.currentIndex) + 1) 0) as [|Hge];
    [unfold_M; congruence|].
  destruct (List.nth_error _ _) as [key|] eqn:Hnth; [|unfold_M; congruence].
  exists key. split; [done|].
  unfold dataStore_Get in Hnext. unfold_M.
  assert (Hacc : forall rv err value offset,
    let it := kvListIterator.mk i.(kvListIterator.keys)
                (i.(kvListIterator.currentIndex) + 1)
                i.(kvListIterator.listRV) offset rv err value in
    slice_index it.(kvListIterator.keys) it.(kvListIterator.currentIndex) =
      Ok key).
  { intros rv err value offset. simpl. unfold slice_index.
    destruct (Z.ltb_spec (i.(kvListIterator.currentIndex) + 1) 0); [lia|].
    destruct (Z.leb_spec (Z.of_nat (length i.(kvListIterator.keys)))
                (i.(kvListIterator.currentIndex) + 1)); [lia|].
    simpl. by rewrite Hnth. }
  destruct (match faults.(Faults.data_Get) _ with
            | Some e => _ | None => _ end) as [err|data];
    [congruence|].
  destruct (io_ReadAll data) as [err|value]; [congruence|].
  injection Hnext as <- _.
  unfold kvListIterator_Namespace, kvListIterator_Name,
    kvListIterator_Folder, kvListIterator_ResourceVersion.
  by rewrite Hacc.
Qed.

(** X16: the history iterator reports a failed read.  When [Next] cannot
    fetch the record, read its payload or take the folder out of it, it
    returns false and [Error] returns that failure; when it succeeds it
    returns true, [Error] returns nil and [Value], [Folder],
    [ResourceVersion] and the continuation token are those of the entry;
    past the last entry it returns false and leaves [Error] as it was. *)
Theorem kvHistoryIterator_Next_outcomes (i : kvHistoryIterator.t)
  (k : kvStorageBackend.t Doc) :
  let idx := i.(kvHistoryIterator.currentIndex) + 1 in
  (Z.of_nat (length i.(kvHistoryIterator.keys)) <= idx ->
   exists i',
     kvHistoryIterator_Next GetFolder faults i k = (Ok (false, i'), k) /\
     kvHistoryIterator_Error i' = kvHistoryIterator_Error i /\
     kvHistoryIterator_token i' = None) /\
  (forall key, 0 <= idx ->
     List.nth_error i.(kvHistoryIterator.keys) (Z.to_nat idx) = Some key ->
     let got := (dataStore_Get faults key k).1 in
     (forall e,
        got = Ok (inl e) \/
        (exists data, got = Ok (inr data) /\ io_ReadAll data = inl e) \/
        (exists data value,
           got = Ok (inr data) /\ io_ReadAll data = inr value /\
           GetFolder value = inl e) ->
        exists i',
          kvHistoryIterator_Next GetFolder faults i k = (Ok (false, i'), k) /\
          kvHistoryIterator_Error i' = Some e) /\
     (forall data value folder,
        got = Ok (inr data) -> io_ReadAll data = inr value ->
        GetFolder value = inr folder ->
        exists i',
          kvHistoryIterator_Next GetFolder faults i k = (Ok (true, i'), k) /\
          kvHistoryIterator_Error i' = None /\
          kvHistoryIterator_Value i' = value /\
          kvHistoryIterator_Folder i' = folder /\
          kvHistoryIterator_ResourceVersion i' =
            key.(DataKey.ResourceVersion) /\
          kvHistoryIterator_token i' =
            Some (ContinueToken.mk key.(DataKey.ResourceVersion)
                    key.(DataKey.ResourceVersion)
                    i.(kvHistoryIterator.sortAscending)))).
Proof.
  intros idx. split.
  - intros Hend. unfold kvHistoryIterator_Next. fold idx.
    destruct (Z.leb_spec (Z.of_nat (length i.(kvHistoryIterator.keys))) idx);
      [|lia].
    eexists. split; [reflexivity|]. split; [done|].
    unfold kvHistoryIterator_token. simpl.
    destruct (Z.leb_spec (Z.of_nat (length i.(kvHistoryIterator.keys))) idx);
      [|lia].
    by rewrite orb_true_r.
  - intros key Hidx Hnth got.
    assert (Hlen : (Z.to_nat idx < length i.(kvHistoryIterator.keys))%nat).
    { apply nth_error_Some. by rewrite Hnth. }
    assert (Hstate : forall r k',
              dataStore_Get faults key k = (r, k') -> k' = k).
    { intros r k' Hget. unfold dataStore_Get in Hget. unfold_M. congruence. }
    subst got.
    destruct (dataStore_Get faults key k) as [r k'] eqn:Hget.
    rewrite (Hstate _ _ eq_refl) in *. simpl.
    assert (Hrun : kvHistoryIterator_Next GetFolder faults i k =
      match r with
      | Ok (inl err) =>
          (Ok (false,
               kvHistoryIterator.mk i.(kvHistoryIterator.keys) idx
                 i.(kvHistoryIterator.listRV)
                 i.(kvHistoryIterator.sortAscending)
                 key.(DataKey.ResourceVersion) (Some err)
                 i.(kvHistoryIterator.value) i.(kvHistoryIterator.folder)),
           k)
      | Ok (inr data) =>
          match io_ReadAll data with
          | inl err =>
              (Ok (false,
                   kvHistoryIterator.mk i.(kvHistoryIterator.keys) idx
                     i.(kvHistoryIterator.listRV)
                     i.(kvHistoryIterator.sortAscending)
                     key.(DataKey.ResourceVersion) (Some err) []
                     i.(kvHistoryIterator.folder)), k)
          | inr value =>
              match GetFolder value with
              | inl err =>
                  (Ok (false,
                       kvHistoryIterator.mk i.(kvHistoryIterator.keys) idx
                         i.(kvHistoryIterator.listRV)
                         i.(kvHistoryIterator.sortAscending)
                         key.(DataKey.ResourceVersion) (Some err) value
                         i.(kvHistoryIterator.folder)), k)
              | inr folder =>
                  (Ok (true,
                       kvHistoryIterator.mk i.(kvHistoryIterator.keys) idx
                         i.(kvHistoryIterator.listRV)
                         i.(kvHistoryIterator.sortAscending)
                         key.(DataKey.ResourceVersion) None value folder), k)
              end
          end
      | Fail e => (Fail e, k)
      | Panic msg => (Panic msg, k)
      end).
    { unfold kvHistoryIterator_Next. fold idx.
      destruct (Z.leb_spec (Z.of_nat (length i.(kvHistoryIterator.keys))) idx);
        [lia|].
      destruct (Z.ltb_spec idx 0); [lia|].
      rewrite Hnth. unfold_M. rewrite Hget.
      destruct r as [[err|data]|e|msg]; try done.
      destruct (io_ReadAll data) as [err|value]; [done|].
      by destruct (GetFolder value). }
    split.
    + intros e [->|[(data & -> & Hread)|(data & value & -> & Hread & Hf)]];
        rewrite Hrun; try rewrite Hread; try rewrite Hf;
        eexists; (split; [reflexivity|done]).
    + intros data value folder -> Hread Hf. rewrite Hrun, Hread, Hf.
      eexists. split; [reflexivity|]. repeat split.
      unfold kvHistoryIterator_token. simpl.
      destruct (Z.ltb_spec idx 0); [lia|].
      destruct (Z.leb_spec (Z.of_nat (length i.(kvHistoryIterator.keys))) idx);
        [lia|].
      simpl. by rewrite Hnth.
Qed.

End IteratorMore.

Section HistoryMore.

Context {Doc : Type}.
Variable faults : Faults.t.

(** X17: [ListHistory] wants all four parts of the key.  When the request
    names no key, or a key with an empty group, resource, namespace or
    name, the call fails at once: no version is minted, the token is not
    decoded, no store is read and the callback is not invoked.  The
    fields are checked in the order group, resource, namespace, name. *)
Theorem ListHistory_requires_full_key
  (GetContinueToken : string -> error + ContinueToken.t)
  (req : ListRequest.t) (fn : kvHistoryIterator.t -> M Doc (option error))
  (k : kvStorageBackend.t Doc) :
  let out := ListHistory GetContinueToken faults req fn k in
  match req.(ListRequest.Options) with
  | None | Some None =>
      out = (Fail (ErrorNew "missing options or key in ListRequest"), k)
  | Some (Some key) =>
      (key.(ResourceKey.Group) = "" ->
       out = (Fail (ErrorNew "group is required"), k)) /\
      (key.(ResourceKey.Group) <> "" -> key.(ResourceKey.Resource) = "" ->
       out = (Fail (ErrorNew "resource is required"), k)) /\
      (key.(ResourceKey.Group) <> "" -> key.(ResourceKey.Resource) <> "" ->
       key.(ResourceKey.Namespace) = "" ->
       out = (Fail (ErrorNew "namespace is required"), k)) /\
      (key.(ResourceKey.Group) <> "" -> key.(ResourceKey.Resource) <> "" ->
       key.(ResourceKey.Namespace) <> "" -> key.(ResourceKey.Name) = "" ->
       out = (Fail (ErrorNew "name is required"), k))
  end.
Proof.
  intros out. subst out. unfold ListHistory.
  destruct (req.(ListRequest.Options)) as [[key|]|]; try done.
  repeat split.
  - intros Hg. by rewrite decide_True.
  - intros Hg Hr. rewrite decide_False by done. by rewrite decide_True.
  - intros Hg Hr Hn. rewrite !decide_False by done. by rewrite decide_True.
  - intros Hg Hr Hn Hm. rewrite !decide_False by done.
    by rewrite decide_True.
Qed.

(** X18: Exact matching needs an explicit version.  A history request, live
    or trash, with version match Exact and a resource version that is not
    positive fails with the error that asks for an explicit version; the
    callback is not invoked, although a version was minted and the data
    store scanned. *)
Theorem ListHistory_exact_needs_version
  (GetContinueToken : string -> error + ContinueToken.t)
  (req : ListRequest.t) (key : ResourceKey.t) (k : kvStorageBackend.t Doc)
  (lastSeenRV : Z) (sortAscending : bool) :
  namesObject req key ->
  capacityOk req ->
  historyCursor GetContinueToken req lastSeenRV sortAscending ->
  faults.(Faults.data_Keys) (requestKeyOf key) = None ->
  req.(ListRequest.VersionMatchV2) = ResourceVersionMatchV2_Exact ->
  req.(ListRequest.ResourceVersion) <= 0 ->
  forall fn,
    ListHistory GetContinueToken faults req fn k =
    (Fail (ErrorNew
       "expecting an explicit resource version query when using Exact matching"),
     tick k).
Proof.
  intros Hnames Hcap Hcur Hfault Hexact Hrv.
  pose proof (ListHistory_visits faults GetContinueToken req key k lastSeenRV
                sortAscending Hnames Hcap Hcur Hfault) as Hrun.
  assert (Hm : forall keys,
            filterVersionMatch req keys =
            inl (ErrorNew
              "expecting an explicit resource version query when using Exact matching")).
  { intros keys. unfold filterVersionMatch. rewrite Hexact.
    by destruct (Z.leb_spec req.(ListRequest.ResourceVersion) 0); [|lia]. }
  unfold historyCandidates in Hrun.
  destruct (isTrash req.(ListRequest.Source)); by rewrite Hm in Hrun.
Qed.

(** X19: the version match of a live history listing.  For a request
    outside trash mode with a positive resource version and no
    continuation token, the callback is handed exactly the object's
    revisions that the match mode selects: the revision at that version
    for Exact, those at or above it for NotOlderThan, those at or below it
    otherwise; deleted revisions and what precedes them are not hidden. *)
Theorem ListHistory_version_match
  (GetContinueToken : string -> error + ContinueToken.t)
  (req : ListRequest.t) (key : ResourceKey.t) (k : kvStorageBackend.t Doc) :
  namesObject req key ->
  capacityOk req ->
  faults.(Faults.data_Keys) (requestKeyOf key) = None ->
  req.(ListRequest.NextPageToken) = "" ->
  isTrash req.(ListRequest.Source) = false ->
  0 < req.(ListRequest.ResourceVersion) ->
  let rv := req.(ListRequest.ResourceVersion) in
  let sortAscending := isNotOlderThan req.(ListRequest.VersionMatchV2) in
  exists keys,
    historyVisits GetContinueToken faults req k
      (newHistoryIterator keys (k.(kvStorageBackend.snowflake) + 1)
         sortAscending) /\
    sortedBy sortAscending keys /\
    forall entry,
      In entry keys <->
      In entry (historyOf key k) /\
      match req.(ListRequest.VersionMatchV2) with
      | ResourceVersionMatchV2_Exact => entry.(DataKey.ResourceVersion) = rv
      | ResourceVersionMatchV2_NotOlderThan =>
          rv <= entry.(DataKey.ResourceVersion)
      | _ => entry.(DataKey.ResourceVersion) <= rv
      end.
Proof.
  intros Hnames Hcap Hfault Htok Htrash Hrv rv sortAscending.
  assert (Hcur : historyCursor GetContinueToken req 0 sortAscending)
    by by left.
  pose proof (ListHistory_visits faults GetContinueToken req key k 0
                sortAscending Hnames Hcap Hcur Hfault) as Hrun.
  unfold historyCandidates in Hrun. rewrite Htrash in Hrun.
  assert (Hlive : forall keys, liveHistory req keys = keys).
  { intros keys. unfold liveHistory.
    by destruct (Z.eqb_spec req.(ListRequest.ResourceVersion) 0); [lia|]. }
  assert (Hm : exists matched,
    filterVersionMatch req (historyOf key k) = inr matched /\
    forall entry,
      In entry matched <->
      In entry (historyOf key k) /\
      match req.(ListRequest.VersionMatchV2) with
      | ResourceVersionMatchV2_Exact => entry.(DataKey.ResourceVersion) = rv
      | ResourceVersionMatchV2_NotOlderThan =>
          rv <= entry.(DataKey.ResourceVersion)
      | _ => entry.(DataKey.ResourceVersion) <= rv
      end).
  { unfold filterVersionMatch. fold rv.
    destruct (Z.ltb_spec 0 rv); [|lia].
    destruct (Z.leb_spec rv 0); [lia|].
    destruct (req.(ListRequest.VersionMatchV2));
      eexists; (split; [reflexivity|]); intros entry;
      rewrite filter_In; try rewrite Z.leb_le; try rewrite Z.eqb_eq; done. }
  destruct Hm as (matched & Hmatched & Hiff).
  rewrite Hmatched, Hlive, pageKeys_zero in Hrun.
  eexists. split; [exact Hrun|]. split; [apply sortKeys_sorted|].
  intros entry. rewrite <- Hiff. split; intros Hin.
  - by apply (Permutation_in _ (Permutation_sym
               (sortKeys_Permutation sortAscending matched))).
  - by apply (Permutation_in _ (sortKeys_Permutation sortAscending matched)).
Qed.


Lemma latestDeleteRV_attained (keys : list DataKey.t) (start : Z) :
  let latest :=
    List.fold_left
      (fun latest key =>
         if isDeleted key.(DataKey.Action) &&
            (latest <? key.(DataKey.ResourceVersion))
         then key.(DataKey.ResourceVersion) else latest)
      keys start in
  latest = start \/
  exists deleted,
    In deleted keys /\ deleted.(DataKey.Action) = DataActionDeleted /\
    deleted.(DataKey.ResourceVersion) = latest /\ start < latest.
Proof.
  revert start. induction keys as [|x l IH]; intros start; simpl; [by left|].
  match goal with
  | |- context [List.fold_left _ l ?n] => set (next := n)
  end.
  destruct (IH next) as [Heq|(d & Hin & Hdel & Hrv & Hlt)].
  - rewrite Heq. subst next.
    destruct (isDeleted x.(DataKey.Action)) eqn:Hd; simpl; [|by left].
    destruct (Z.ltb_spec start x.(DataKey.ResourceVersion)); [|by left].
    right. exists x. split; [by left|].
    split; [by destruct (x.(DataKey.Action))|]. done.
  - right. exists d. split; [by right|]. split; [done|]. split; [done|].
    subst next.
    destruct (isDeleted x.(DataKey.Action) &&
              (start <? x.(DataKey.ResourceVersion))) eqn:Hc; [|done].
    apply andb_true_iff in Hc as [_ Hc]. apply Z.ltb_lt in Hc. lia.
Qed.

(** X20: the live window keeps everything since the last delete.  For a
    live-mode request without resource version, with a version match
    other than Exact and no continuation token, an object's revision is
    handed to the callback if and only if it is newer than every Deleted
    revision of the object (resource versions being positive): nothing
    written since the last deletion is left out. *)
Theorem ListHistory_live_window_exact
  (GetContinueToken : string -> error + ContinueToken.t)
  (req : ListRequest.t) (key : ResourceKey.t) (k : kvStorageBackend.t Doc) :
  namesObject req key ->
  capacityOk req ->
  faults.(Faults.data_Keys) (requestKeyOf key) = None ->
  req.(ListRequest.NextPageToken) = "" ->
  isTrash req.(ListRequest.Source) = false ->
  isExact req.(ListRequest.VersionMatchV2) = false ->
  req.(ListRequest.ResourceVersion) = 0 ->
  let sortAscending := isNotOlderThan req.(ListRequest.VersionMatchV2) in
  exists keys,
    historyVisits GetContinueToken faults req k
      (newHistoryIterator keys (k.(kvStorageBackend.snowflake) + 1)
         sortAscending) /\
    forall entry,
      In entry keys <->
      In entry (historyOf key k) /\
      forall deleted,
        In deleted (historyOf key k) ->
        deleted.(DataKey.Action) = DataActionDeleted ->
        0 < deleted.(DataKey.ResourceVersion) ->
        deleted.(DataKey.ResourceVersion) < entry.(DataKey.ResourceVersion).
Proof.
  intros Hnames Hcap Hfault Htok Htrash Hexact Hrv sortAscending.
  assert (Hcur : historyCursor GetContinueToken req 0 sortAscending)
    by by left.
  pose proof (ListHistory_visits faults GetContinueToken req key k 0
                sortAscending Hnames Hcap Hcur Hfault) as Hrun.
  assert (Hev : exactHasVersion req).
  { unfold exactHasVersion. by rewrite Hexact. }
  destruct (filterVersionMatch_inr req (historyOf key k) Hev)
    as (matched & Hm & _ & Hsame).
  specialize (Hsame Hrv). subst matched.
  unfold historyCandidates in Hrun.
  rewrite Htrash, Hm, pageKeys_zero in Hrun.
  eexists. split; [exact Hrun|].
  intros entry. split.
  - intros Hin.
    apply (Permutation_in _ (Permutation_sym (sortKeys_Permutation _ _)))
      in Hin.
    assert (Hin' : In entry (historyOf key k)).
    { unfold liveHistory in Hin.
      destruct (_ && _); [|done].
      destruct (0 <? _); [|done]. by apply filter_In in Hin as [? _]. }
    split; [done|]. intros deleted Hd Hdel Hpos.
    by apply (liveHistory_after_deletes req (historyOf key k) deleted entry).
  - intros [Hin Hnewer].
    apply (Permutation_in _ (sortKeys_Permutation _ _)).
    unfold liveHistory. rewrite Hrv, Htrash, Hexact. simpl.
    destruct (Z.ltb_spec 0 (latestDeleteRV (historyOf key k))) as [Hpos|];
      [|done].
    apply filter_In. split; [done|]. apply Z.ltb_lt.
    destruct (latestDeleteRV_attained (historyOf key k) 0)
      as [Hz|(d & Hd & Hdel & Hdrv & _)].
    + fold (latestDeleteRV (historyOf key k)) in Hz. lia.
    + fold (latestDeleteRV (historyOf key k)) in Hdrv.
      rewrite <- Hdrv. apply Hnewer; [done|done|lia].
Qed.

(** X21: a history page resumes right after its token's entry.  Take the
    listing of a request in the direction of its token and without
    [lastSeenRV], with distinct resource versions.  With a token that
    carries the version of one of its entries, the callback is handed
    exactly the entries that follow that one, in the same order. *)
Theorem ListHistory_resumes_after_token
  (GetContinueToken : string -> error + ContinueToken.t)
  (req : ListRequest.t) (key : ResourceKey.t) (k : kvStorageBackend.t Doc)
  (token : ContinueToken.t) :
  namesObject req key ->
  capacityOk req ->
  faults.(Faults.data_Keys) (requestKeyOf key) = None ->
  exactHasVersion req ->
  req.(ListRequest.NextPageToken) <> "" ->
  GetContinueToken req.(ListRequest.NextPageToken) = inr token ->
  let listRV := k.(kvStorageBackend.snowflake) + 1 in
  let sortAscending := token.(ContinueToken.SortAscending) in
  exists unpaged,
    historyVisits (decodes_to (ContinueToken.mk 0 0 sortAscending)) faults
      (withToken req "-") k
      (newHistoryIterator unpaged listRV sortAscending) /\
    forall before boundary after,
      unpaged = (before ++ boundary :: after)%list ->
      NoDup (List.map DataKey.ResourceVersion unpaged) ->
      token.(ContinueToken.ResourceVersion) =
        boundary.(DataKey.ResourceVersion) ->
      boundary.(DataKey.ResourceVersion) <> 0 ->
      historyVisits GetContinueToken faults req k
        (newHistoryIterator after listRV sortAscending).
Proof.
  intros Hnames Hcap Hfault Hexact Hne Hdec listRV sortAscending.
  destruct (historyCandidates_inr faults req key k Hexact)
    as [candidates Hc].
  assert (Hcur : historyCursor GetContinueToken req
                   token.(ContinueToken.ResourceVersion) sortAscending).
  { right. split; [done|]. by exists token. }
  pose proof (ListHistory_visits faults GetContinueToken req key k
                token.(ContinueToken.ResourceVersion) sortAscending
                Hnames Hcap Hcur Hfault) as Hrun.
  rewrite Hc in Hrun.
  pose proof (ListHistory_visits faults
                (decodes_to (ContinueToken.mk 0 0 sortAscending))
                (withToken req "-") key k 0 sortAscending) as Hrun0.
  change (historyCandidates faults (withToken req "-") key k)
    with (historyCandidates faults req key k) in Hrun0.
  rewrite Hc, pageKeys_zero in Hrun0.
  exists (sortKeys sortAscending candidates). split.
  - apply Hrun0; [exact Hnames|exact Hcap| |exact Hfault].
    right. split; [done|]. by eexists.
  - intros before boundary after Hsplit Hnodup Hrv Hnz.
    rewrite pageKeys_beyond in Hrun by congruence.
    rewrite Hsplit, Hrv in Hrun.
    rewrite exclusive_cursor_resumes in Hrun; [exact Hrun| |].
    + rewrite <- Hsplit. apply sortKeys_sorted.
    + by rewrite <- Hsplit.
Qed.

End HistoryMore.

Section HistoryCursor.

Context {Doc : Type}.
Variable faults : Faults.t.

Lemma filterVersionMatch_In (req : ListRequest.t) (keys : list DataKey.t) :
  exactHasVersion req ->
  exists matched,
    filterVersionMatch req keys = inr matched /\
    (forall entry,
       In entry matched <-> In entry keys /\ versionMatches req entry) /\
    (NoDup keys -> NoDup matched) /\
    (req.(ListRequest.ResourceVersion) = 0 -> matched = keys).
Proof.
  intros Hexact. unfold exactHasVersion in Hexact.
  unfold filterVersionMatch, versionMatches.
  assert (Hnd : forall p, NoDup keys -> NoDup (List.filter p keys)).
  { intros p H. by apply NoDup_ListNoDup, List.NoDup_filter, NoDup_ListNoDup. }
  destruct (req.(ListRequest.VersionMatchV2)); cbv zeta.
  - destruct (Z.ltb_spec 0 req.(ListRequest.ResourceVersion)).
    + eexists. split; [reflexivity|]. split; [|split; [apply Hnd|lia]].
      intros entry. rewrite filter_In, Z.leb_le. tauto.
    + eexists. split; [reflexivity|]. split; [|done].
      intros entry. split; [|tauto]. intros Hin. split; [done|lia].
  - destruct (Z.ltb_spec 0 req.(ListRequest.ResourceVersion)).
    + eexists. split; [reflexivity|]. split; [|split; [apply Hnd|lia]].
      intros entry. rewrite filter_In, Z.leb_le. tauto.
    + eexists. split; [reflexivity|]. split; [|done].
      intros entry. split; [|tauto]. intros Hin. split; [done|lia].
  - specialize (Hexact eq_refl).
    destruct (Z.leb_spec req.(ListRequest.ResourceVersion) 0); [lia|].
    eexists. split; [reflexivity|]. split; [|split; [apply Hnd|lia]].
    intros entry. by rewrite filter_In, Z.eqb_eq.
  - destruct (Z.ltb_spec 0 req.(ListRequest.ResourceVersion)).
    + eexists. split; [reflexivity|]. split; [|split; [apply Hnd|lia]].
      intros entry. rewrite filter_In, Z.leb_le. tauto.
    + eexists. split; [reflexivity|]. split; [|done].
      intros entry. split; [|tauto]. intros Hin. split; [done|lia].
Qed.

Lemma liveHistory_In (req : ListRequest.t) (keys : list DataKey.t)
  (entry : DataKey.t) :
  isTrash req.(ListRequest.Source) = false ->
  In entry (liveHistory req keys) <->
  In entry keys /\
  (req.(ListRequest.ResourceVersion) = 0 ->
   isExact req.(ListRequest.VersionMatchV2) = false ->
   forall deleted,
     In deleted keys ->
     deleted.(DataKey.Action) = DataActionDeleted ->
     0 < deleted.(DataKey.ResourceVersion) ->
     deleted.(DataKey.ResourceVersion) < entry.(DataKey.ResourceVersion)).
Proof.
  intros Htrash. unfold liveHistory. rewrite Htrash.
  destruct (Z.eqb_spec req.(ListRequest.ResourceVersion) 0) as [Hrv|Hrv];
    [|simpl; tauto].
  destruct (isExact req.(ListRequest.VersionMatchV2)) eqn:Hexact;
    [simpl; split; [intros H; split; [done|discriminate]|tauto]|].
  cbn [negb andb].
  pose proof (latestDeleteRV_fold keys 0) as [Hge Hall].
  pose proof (latestDeleteRV_attained keys 0) as Hatt.
  cbv zeta in Hall, Hatt, Hge.
  fold (latestDeleteRV keys) in Hall, Hatt, Hge.
  destruct (Z.ltb_spec 0 (latestDeleteRV keys)) as [Hpos|Hzero].
  - rewrite filter_In, Z.ltb_lt. split.
    + intros [Hin Hlt]. split; [done|].
      intros _ _ deleted Hd Ha _. specialize (Hall deleted Hd Ha). lia.
    + intros [Hin Hnew]. split; [done|].
      destruct Hatt as [Heq|(deleted & Hd & Ha & Hdrv & _)]; [lia|].
      rewrite <- Hdrv. apply Hnew; [done|done|done|done|lia].
  - split; [|tauto]. intros Hin. split; [done|].
    intros _ _ deleted Hd Ha Hdpos. specialize (Hall deleted Hd Ha). lia.
Qed.

Lemma latestDelete_Some (keys : list DataKey.t) (start : option DataKey.t) :
  is_Some start \/ keys <> [] ->
  is_Some
    (List.fold_left
       (fun latest key =>
          match latest with
          | None => Some key
          | Some l =>
              if l.(DataKey.ResourceVersion) <? key.(DataKey.ResourceVersion)
              then Some key else latest
          end)
       keys start).
Proof.
  revert start. induction keys as [|x keys IH]; intros start H.
  - destruct H as [H|H]; [exact H|done].
  - cbn [List.fold_left]. apply IH. left.
    destruct start as [l|]; [|by eexists].
    destruct (_ <? _); by eexists.
Qed.

Lemma historyOf_object (key : ResourceKey.t) (k : kvStorageBackend.t Doc)
  (a b : DataKey.t) :
  key.(ResourceKey.Group) <> "" -> key.(ResourceKey.Resource) <> "" ->
  key.(ResourceKey.Namespace) <> "" -> key.(ResourceKey.Name) <> "" ->
  In a (historyOf key k) -> In b (historyOf key k) ->
  a.(DataKey.ResourceVersion) = b.(DataKey.ResourceVersion) ->
  a.(DataKey.Action) = b.(DataKey.Action) ->
  a = b.
Proof.
  intros Hg Hr Hn Hm Ha Hb Hrv Hact.
  assert (Hfields : forall x, In x (historyOf key k) ->
            x.(DataKey.Namespace) = key.(ResourceKey.Namespace) /\
            x.(DataKey.Group) = key.(ResourceKey.Group) /\
            x.(DataKey.Resource) = key.(ResourceKey.Resource) /\
            x.(DataKey.Name) = key.(ResourceKey.Name)).
  { intros x Hx. unfold historyOf in Hx. apply filter_In in Hx as [_ Hx].
    unfold DataKey_matches, prefixMatch, requestKeyOf in Hx. simpl in Hx.
    rewrite !decide_False in Hx by done.
    repeat (apply andb_true_iff in Hx as [?%bool_decide_eq_true Hx]).
    apply bool_decide_eq_true in Hx. done. }
  destruct (Hfields a Ha) as (? & ? & ? & ?).
  destruct (Hfields b Hb) as (? & ? & ? & ?).
  destruct a, b. simpl in *. congruence.
Qed.

(** The entries that a history listing sorts and pages are the listed
    revisions of the object. *)
Lemma historyCandidates_listed (req : ListRequest.t) (key : ResourceKey.t)
  (k : kvStorageBackend.t Doc) :
  namesObject req key ->
  exactHasVersion req ->
  exists candidates,
    historyCandidates faults req key k = inr candidates /\
    (forall entry, In entry candidates <-> listed faults req key k entry) /\
    (NoDup (historyOf key k) -> NoDup candidates).
Proof.
  intros (Hopt & Hg & Hr & Hn & Hm) Hexact.
  unfold historyCandidates, listed.
  destruct (isTrash req.(ListRequest.Source)) eqn:Htrash.
  - set (deletedKeys :=
           List.filter (fun key => isDeleted key.(DataKey.Action))
             (historyOf key k)).
    set (trashKeys :=
           match latestLookup faults key k with
           | inl err =>
               if isErrNotFound err then
                 match latestDelete deletedKeys with
                 | Some latest => [latest]
                 | None => []
                 end
               else []
           | inr _ => []
           end).
    destruct (filterVersionMatch_In req trashKeys Hexact)
      as (matched & Hm' & Hin & Hnd & _).
    exists matched. split; [exact Hm'|].
    assert (Hdel : forall x, In x deletedKeys <->
              In x (historyOf key k) /\ x.(DataKey.Action) = DataActionDeleted).
    { intros x. unfold deletedKeys. rewrite filter_In.
      unfold isDeleted. by destruct (x.(DataKey.Action)); intuition. }
    assert (Htrashkeys : forall entry,
              In entry trashKeys <->
              In entry (historyOf key k) /\
              entry.(DataKey.Action) = DataActionDeleted /\
              (forall other, In other (historyOf key k) ->
                 other.(DataKey.Action) = DataActionDeleted ->
                 other.(DataKey.ResourceVersion) <=
                   entry.(DataKey.ResourceVersion)) /\
              latestLookup faults key k = inl ErrNotFound).
    { intros entry. subst trashKeys.
      destruct (latestLookup faults key k) as [err|live];
        [|split; [done|by intros (_ & _ & _ & ?)]].
      destruct (isErrNotFound err) eqn:Hnf.
      2:{ split; [done|]. intros (_ & _ & _ & [= ->]). done. }
      apply isErrNotFound_true in Hnf. subst err.
      destruct (latestDelete deletedKeys) as [latest|] eqn:Hl.
      - destruct (latestDelete_fold _ _ _ Hl) as ([?|Hlin] & _ & Hall);
          [done|].
        apply Hdel in Hlin as [Hlin Hlact].
        split.
        + intros [<-|[]]. repeat split; try done.
          intros other Ho Hoa. apply Hall. by apply Hdel.
        + intros (He & Hea & Hmax & _). left.
          apply (historyOf_object key k); try done; [|congruence].
          pose proof (Hmax latest Hlin Hlact).
          pose proof (Hall entry (proj2 (Hdel entry) (conj He Hea))).
          lia.
      - split; [done|]. intros (He & Hea & _).
        destruct (latestDelete_Some deletedKeys None) as [x Hx].
        { right. intros Hnil.
          pose proof (proj2 (Hdel entry) (conj He Hea)) as Hd.
          by rewrite Hnil in Hd. }
        unfold latestDelete in Hl. congruence. }
    split.
    + intros entry. rewrite Hin, Htrashkeys. tauto.
    + intros _. apply Hnd. subst trashKeys.
      destruct (latestLookup faults key k) as [err|live]; [|constructor].
      destruct (isErrNotFound err); [|constructor].
      destruct (latestDelete deletedKeys); [|constructor].
      apply NoDup_singleton.
  - destruct (filterVersionMatch_In req (historyOf key k) Hexact)
      as (matched & Hm' & Hin & Hnd & Hsame).
    rewrite Hm'. eexists. split; [reflexivity|]. split.
    + intros entry. rewrite (liveHistory_In req matched entry Htrash).
      rewrite Hin. split.
      * intros [[He Hv] Hlive]. split; [done|]. split; [done|].
        intros Hrv Hex. rewrite (Hsame Hrv) in Hlive. by apply Hlive.
      * intros (He & Hv & Hlive). split; [done|].
        intros Hrv Hex. rewrite (Hsame Hrv). by apply Hlive.
    + intros Hno. specialize (Hnd Hno). unfold liveHistory.
      destruct (_ && _ && _); [|done].
      destruct (0 <? _); [|done].
      by apply NoDup_ListNoDup, List.NoDup_filter, NoDup_ListNoDup.
Qed.

(** C7: a history listing that reaches its callback hands it entries
    sorted by RV in the direction of the request: ascending exactly for
    NotOlderThan when there is no continuation token, and the token's
    direction when there is one.  The entries are stored revisions of the
    object, none of them twice when the store holds none twice.  With a
    token that carries a non-zero [lastSeenRV] they are exactly the listed
    revisions that lie strictly beyond [lastSeenRV] in that direction;
    without [lastSeenRV], which is how the code reads a version of 0, they
    are all the listed revisions. *)
Theorem ListHistory_sorted_exclusive_cursor
  (GetContinueToken : string -> error + ContinueToken.t)
  (req : ListRequest.t)
  (key : ResourceKey.t) (k : kvStorageBackend.t Doc) (lastSeenRV : Z)
  (sortAscending : bool) :
  namesObject req key ->
  capacityOk req ->
  faults.(Faults.data_Keys) (requestKeyOf key) = None ->
  exactHasVersion req ->
  historyCursor GetContinueToken req lastSeenRV sortAscending ->
  let listRV := k.(kvStorageBackend.snowflake) + 1 in
  exists keys,
    historyVisits GetContinueToken faults req k
      (newHistoryIterator keys listRV sortAscending) /\
    sortedBy sortAscending keys /\
    (req.(ListRequest.NextPageToken) = "" ->
     sortAscending = isNotOlderThan req.(ListRequest.VersionMatchV2)) /\
    (NoDup (historyOf key k) -> NoDup keys) /\
    (lastSeenRV = 0 ->
     forall entry, In entry keys <-> listed faults req key k entry) /\
    (lastSeenRV <> 0 ->
     forall entry,
       In entry keys <->
       listed faults req key k entry /\
       if sortAscending
       then lastSeenRV < entry.(DataKey.ResourceVersion)
       else entry.(DataKey.ResourceVersion) < lastSeenRV).
Proof.
  intros Hnames Hcap Hfault Hexact Hcur listRV.
  destruct (historyCandidates_listed req key k Hnames Hexact)
    as (candidates & Hc & Hlisted & Hnd).
  pose proof (ListHistory_visits faults GetContinueToken req key k lastSeenRV
                sortAscending Hnames Hcap Hcur Hfault) as Hrun.
  rewrite Hc in Hrun.
  assert (Hsorted : forall entry,
            In entry (sortKeys sortAscending candidates) <->
            listed faults req key k entry).
  { intros entry. rewrite <- Hlisted. split.
    - apply Permutation_in. symmetry. apply sortKeys_Permutation.
    - apply Permutation_in, sortKeys_Permutation. }
  exists (pageKeys lastSeenRV sortAscending (sortKeys sortAscending candidates)).
  split; [exact Hrun|].
  split; [apply filter_sortedBy, sortKeys_sorted|].
  split.
  { intros Hnil. destruct Hcur as [(_ & _ & ->)|(Hne & _)]; done. }
  split.
  { intros Hno. unfold pageKeys.
    apply NoDup_ListNoDup, List.NoDup_filter, NoDup_ListNoDup.
    apply NoDup_ListNoDup.
    eapply Permutation_NoDup; [apply sortKeys_Permutation|].
    by apply NoDup_ListNoDup, Hnd. }
  split.
  { intros ->. rewrite pageKeys_zero. exact Hsorted. }
  intros Hne entry. rewrite (pageKeys_beyond _ _ _ Hne).
  rewrite filter_In, Hsorted. unfold beyond.
  destruct sortAscending; by rewrite Z.ltb_lt.
Qed.

End HistoryCursor.

(** C7 (counterexample): object [a] was created at 102, updated at 103,
    deleted at 104, created again at 105 and updated at 106.  A live-mode
    history request whose token decodes to resource version 0 in the
    descending direction is handed the two revisions since the deletion,
    106 and 105, although no revision lies strictly beyond 0 in that
    direction: the code reads a version of 0 as no cursor at all. *)
Lemma ListHistory_token_version_zero_keeps_all :
  let req :=
    sample_history "page-2" 0 ResourceVersionMatchV2_Unset
      ListRequest_HISTORY in
  let token := ContinueToken.mk 0 0 false in
  let codec := decodes_to token in
  let keys := [sample_dataKey "a" 106 DataActionUpdated;
               sample_dataKey "a" 105 DataActionCreated] in
  req.(ListRequest.NextPageToken) <> "" /\
  codec req.(ListRequest.NextPageToken) = inr token /\
  historyVisits codec no_faults req sample_recreated
    (newHistoryIterator keys 107 false) /\
  (forall entry, In entry keys ->
     ~ entry.(DataKey.ResourceVersion) < token.(ContinueToken.ResourceVersion)) /\
  List.filter (beyond false token.(ContinueToken.ResourceVersion)) keys = [].
Proof.
  intros req token codec keys.
  split; [discriminate|]. split; [reflexivity|]. split.
  { apply (ListHistory_visits no_faults codec req (sample_key "a")
             sample_recreated 0 false);
      [by repeat split|by vm_compute| |reflexivity].
    right. split; [discriminate|]. by exists token. }
  split; [|reflexivity].
  intros entry [<-|[<-|[]]]; vm_compute; discriminate.
Qed.

Lemma ListHistory_sorted_exclusive_cursor_witness :
  let req :=
    sample_history "page-2" 0 ResourceVersionMatchV2_Unset
      ListRequest_HISTORY in
  let codec := decodes_to (ContinueToken.mk 106 106 false) in
  let key := sample_key "a" in
  namesObject req key /\
  capacityOk req /\
  no_faults.(Faults.data_Keys) (requestKeyOf key) = None /\
  exactHasVersion req /\
  historyCursor codec req 106 false /\
  exists keys,
    historyVisits codec no_faults req sample_recreated
      (newHistoryIterator keys 107 false) /\
    sortedBy false keys /\
    (NoDup (historyOf key sample_recreated) -> NoDup keys) /\
    (forall entry,
       In entry keys <->
       listed no_faults req key sample_recreated entry /\
       entry.(DataKey.ResourceVersion) < 106) /\
    In (sample_dataKey "a" 105 DataActionCreated) keys /\
    ~ In (sample_dataKey "a" 106 DataActionUpdated) keys.
Proof.
  intros req codec key.
  assert (Hnames : namesObject req key) by (by repeat split).
  assert (Hcap : capacityOk req) by (by vm_compute).
  assert (Hev : exactHasVersion req) by (intros Hexact; discriminate Hexact).
  assert (Hcur : historyCursor codec req 106 false).
  { right. split; [done|]. by eexists. }
  repeat (split;
    [first [exact Hnames|exact Hcap|exact Hcur|exact Hev|reflexivity]|]).
  destruct (ListHistory_sorted_exclusive_cursor no_faults codec req key
              sample_recreated 106 false Hnames Hcap eq_refl Hev Hcur)
    as (keys & H1 & H2 & _ & H4 & _ & H6).
  assert (Hpage : forall entry,
            In entry keys <->
            listed no_faults req key sample_recreated entry /\
            entry.(DataKey.ResourceVersion) < 106)
    by (apply H6; discriminate).
  exists keys. split; [exact H1|]. split; [exact H2|]. split; [exact H4|].
  split; [exact Hpage|]. split.
  - apply Hpage. split; [|reflexivity].
    split; [vm_compute; tauto|]. split; [discriminate|].
    intros _ _ deleted Hin Hdel _. vm_compute in Hin.
    repeat (destruct Hin as [<-|Hin]; [first [discriminate Hdel|reflexivity]|]).
    destruct Hin.
  - intros [_ Hlt]%Hpage. vm_compute in Hlt. discriminate Hlt.
Defined.

Section StatsMore.

Context {Doc : Type}.
Variable faults : Faults.t.

Lemma scanStats_step (res : gmap string (gmap string bool))
  (rvs : gmap string Z) (dataKey : DataKey.t) (rest : Seq2 DataKey.t) :
  scanStats res rvs (inr dataKey :: rest) =
  scanStats
    (<[statsKey dataKey :=
         <[dataKey.(DataKey.Name) :=
             negb (isDeleted dataKey.(DataKey.Action))]>
           (default ∅ (res !! statsKey dataKey))]> res)
    (<[statsKey dataKey := dataKey.(DataKey.ResourceVersion)]> rvs) rest.
Proof.
  simpl. destruct (res !! statsKey dataKey) as [names|] eqn:Hres; simpl.
  - by rewrite Hres.
  - rewrite lookup_insert_eq. simpl. by rewrite !insert_insert_eq.
Qed.

Lemma scanStats_scan (scanned : list DataKey.t)
  (res : gmap string (gmap string bool)) (rvs : gmap string Z) :
  exists res' rvs',
    scanStats res rvs (List.map inr scanned) = inr (res', rvs') /\
    (forall key name,
       liveOf res' key name =
       match lastOf (fun dataKey =>
                       bool_decide (statsKey dataKey = key) &&
                       bool_decide (dataKey.(DataKey.Name) = name))
               (fun dataKey => negb (isDeleted dataKey.(DataKey.Action)))
               scanned with
       | Some live => Some live
       | None => liveOf res key name
       end) /\
    (forall key,
       is_Some (res' !! key) <->
       is_Some (res !! key) \/
       exists dataKey, In dataKey scanned /\ statsKey dataKey = key) /\
    (forall key,
       rvs' !! key =
       match lastOf (fun dataKey => bool_decide (statsKey dataKey = key))
               DataKey.ResourceVersion scanned with
       | Some rv => Some rv
       | None => rvs !! key
       end).
Proof.
  revert res rvs. induction scanned as [|x l IH]; intros res rvs.
  - exists res, rvs. simpl. repeat split; try done.
    + by left.
    + intros [?|(? & [] & _)]. done.
  - cbn [List.map]. rewrite scanStats_step.
    destruct (IH (<[statsKey x :=
                      <[x.(DataKey.Name) :=
                          negb (isDeleted x.(DataKey.Action))]>
                        (default ∅ (res !! statsKey x))]> res)
                 (<[statsKey x := x.(DataKey.ResourceVersion)]> rvs))
      as (res' & rvs' & Hscan & Hlive & Hdom & Hrv).
    exists res', rvs'. split; [exact Hscan|]. split; [|split].
    + intros key name. rewrite Hlive. simpl.
      destruct (lastOf _ _ l); [done|].
      unfold liveOf.
      destruct (decide (statsKey x = key)) as [<-|Hne].
      * rewrite lookup_insert_eq. rewrite bool_decide_eq_true_2 by done.
        simpl.
        destruct (decide (x.(DataKey.Name) = name)) as [<-|Hnn].
        -- rewrite lookup_insert_eq. by rewrite bool_decide_eq_true_2.
        -- rewrite lookup_insert_ne by done.
           rewrite bool_decide_eq_false_2 by done.
           by destruct (res !! statsKey x).
      * rewrite lookup_insert_ne by done.
        by rewrite bool_decide_eq_false_2.
    + intros key. rewrite Hdom. split.
      * intros [Hs|(dk & Hin & Hk)].
        -- destruct (decide (statsKey x = key)) as [<-|Hne].
           ++ right. exists x. split; [by left|done].
           ++ left. by rewrite lookup_insert_ne in Hs.
        -- right. exists dk. split; [by right|done].
      * intros [Hs|(dk & [<-|Hin] & Hk)].
        -- left. destruct (decide (statsKey x = key)) as [<-|Hne].
           ++ rewrite lookup_insert_eq. by eexists.
           ++ by rewrite lookup_insert_ne.
        -- left. rewrite <- Hk, lookup_insert_eq. by eexists.
        -- right. by exists dk.
    + intros key. rewrite Hrv. simpl.
      destruct (lastOf _ _ l); [done|].
      destruct (decide (statsKey x = key)) as [<-|Hne].
      * rewrite lookup_insert_eq. by rewrite bool_decide_eq_true_2.
      * rewrite lookup_insert_ne by done. by rewrite bool_decide_eq_false_2.
Qed.

Lemma strings_Split_noSlash (s : string) :
  noSlash s = true -> strings_Split slash s = [s].
Proof.
  induction s as [|c s IH]; simpl; [done|].
  intros [Hc Hs]%andb_true_iff. apply negb_true_iff in Hc. rewrite Hc.
  by rewrite (IH Hs).
Qed.

Lemma strings_Split_app (a b : string) :
  noSlash a = true ->
  strings_Split slash (a ++ String slash b) = a :: strings_Split slash b.
Proof.
  induction a as [|c a IH]; simpl.
  - done.
  - intros [Hc Hs]%andb_true_iff. apply negb_true_iff in Hc. rewrite Hc.
    by rewrite (IH Hs).
Qed.

Lemma strings_Split_statsKey (dataKey : DataKey.t) :
  slashFree dataKey ->
  strings_Split slash (statsKey dataKey) =
  [dataKey.(DataKey.Namespace); dataKey.(DataKey.Group);
   dataKey.(DataKey.Resource)].
Proof.
  intros (Hns & Hg & Hr).
  change (statsKey dataKey)
    with (dataKey.(DataKey.Namespace) ++
          String slash (dataKey.(DataKey.Group) ++
                        String slash dataKey.(DataKey.Resource)))%string.
  rewrite !strings_Split_app by done.
  by rewrite strings_Split_noSlash.
Qed.

Lemma statsKey_inGroupResource (dataKey dataKey' : DataKey.t) :
  slashFree dataKey -> slashFree dataKey' ->
  bool_decide (statsKey dataKey' = statsKey dataKey) =
  inGroupResource dataKey.(DataKey.Namespace) dataKey.(DataKey.Group)
    dataKey.(DataKey.Resource) dataKey'.
Proof.
  intros Hs Hs'. unfold inGroupResource.
  destruct (decide (statsKey dataKey' = statsKey dataKey)) as [Heq|Hne].
  - rewrite bool_decide_eq_true_2 by done.
    pose proof (f_equal (strings_Split slash) Heq) as Hsplit.
    rewrite !strings_Split_statsKey in Hsplit by done.
    injection Hsplit as -> -> ->.
    by rewrite !bool_decide_eq_true_2.
  - rewrite bool_decide_eq_false_2 by done. symmetry.
    apply not_true_iff_false. intros H.
    apply andb_true_iff in H as [[H1 H2]%andb_true_iff H3].
    apply bool_decide_eq_true in H1, H2, H3.
    apply Hne. unfold statsKey. by rewrite H1, H2, H3.
Qed.

Lemma statsKey_fields (dataKey dataKey' : DataKey.t) :
  slashFree dataKey -> slashFree dataKey' ->
  statsKey dataKey' = statsKey dataKey ->
  dataKey'.(DataKey.Namespace) = dataKey.(DataKey.Namespace) /\
  dataKey'.(DataKey.Group) = dataKey.(DataKey.Group) /\
  dataKey'.(DataKey.Resource) = dataKey.(DataKey.Resource).
Proof.
  intros Hs Hs' Heq.
  pose proof (f_equal (strings_Split slash) Heq) as Hsplit.
  rewrite !strings_Split_statsKey in Hsplit by done.
  by injection Hsplit as -> -> ->.
Qed.

Lemma lastOf_ext {A : Type} (sel sel' : DataKey.t -> bool)
  (f : DataKey.t -> A) (scanned : list DataKey.t) :
  (forall dataKey, In dataKey scanned -> sel dataKey = sel' dataKey) ->
  lastOf sel f scanned = lastOf sel' f scanned.
Proof.
  induction scanned as [|x l IH]; simpl; [done|]. intros H.
  rewrite IH by (intros; apply H; by right).
  by rewrite (H x) by (by left).
Qed.

Lemma lastOf_Some {A : Type} (sel : DataKey.t -> bool)
  (f : DataKey.t -> A) (scanned : list DataKey.t) (a : A) :
  lastOf sel f scanned = Some a ->
  exists dataKey, In dataKey scanned /\ sel dataKey = true /\ f dataKey = a.
Proof.
  induction scanned as [|x l IH]; simpl; [done|].
  destruct (lastOf sel f l) as [a'|] eqn:Hl.
  - intros [= <-]. destruct (IH eq_refl) as (dk & Hin & Hsel & Hf).
    exists dk. split; [by right|done].
  - destruct (sel x) eqn:Hx; [|done]. intros [= <-].
    exists x. split; [by left|done].
Qed.

Lemma lastOf_is_Some {A : Type} (sel : DataKey.t -> bool)
  (f : DataKey.t -> A) (scanned : list DataKey.t) (dataKey : DataKey.t) :
  In dataKey scanned -> sel dataKey = true ->
  is_Some (lastOf sel f scanned).
Proof.
  induction scanned as [|x l IH]; simpl; [done|].
  intros [->|Hin] Hsel.
  - destruct (lastOf sel f l); [by eexists|]. rewrite Hsel. by eexists.
  - destruct (IH Hin Hsel) as [a ->]. by eexists.
Qed.

Lemma countLive_fold (l : list (string * bool)) (count : Z) :
  0 <= count -> count + Z.of_nat (length l) < 2 ^ 63 ->
  List.fold_left
    (fun count entry => if entry.2 : bool then wrap64 (count + 1) else count)
    l count =
  count + Z.of_nat (length (List.filter snd l)).
Proof.
  revert count. induction l as [|[n b] l IH]; intros count H0 Hb.
  - simpl. lia.
  - cbn [List.fold_left List.filter length snd] in *. destruct b.
    + rewrite wrap64_small
        by (unfold in_int64, int64_min, int64_max; cbn [length] in Hb; lia).
      cbn [length] in *. rewrite IH by lia. lia.
    + cbn [length] in *. rewrite IH by lia. lia.
Qed.

Lemma statsRows_spec (minCount : Z) (rvs : gmap string Z)
  (entries : list (string * gmap string bool)) :
  (forall key names, In (key, names) entries ->
     exists dataKey, slashFree dataKey /\ key = statsKey dataKey) ->
  NoDup (entries.*1) ->
  forall stats, exists rows,
    statsRows minCount rvs entries stats = Some (stats ++ rows)%list /\
    NoDup (List.map ResourceStats.NamespacedResource rows) /\
    forall row, In row rows <->
      exists dataKey names,
        In (statsKey dataKey, names) entries /\ slashFree dataKey /\
        minCount < countLive names /\
        row = ResourceStats.mk
                (NamespacedResource.mk dataKey.(DataKey.Namespace)
                   dataKey.(DataKey.Group) dataKey.(DataKey.Resource))
                (countLive names) (default 0 (rvs !! statsKey dataKey)).
Proof.
  induction entries as [|[key names] l IH]; intros Hsplit Hnd stats.
  - exists []. split; [simpl; by rewrite app_nil_r|]. split; [constructor|].
    intros row. split; [done|]. by intros (? & ? & [] & _).
  - destruct (Hsplit key names (or_introl eq_refl)) as (dk & Hfree & ->).
    assert (Hl : forall key names, In (key, names) l ->
              exists dataKey, slashFree dataKey /\ key = statsKey dataKey)
      by (intros; eapply Hsplit; right; eassumption).
    cbn [fmap list_fmap fst] in Hnd. apply NoDup_cons in Hnd as [Hnotin Hnd].
    cbn [statsRows]. rewrite (strings_Split_statsKey dk Hfree).
    destruct (countLive names <=? minCount) eqn:Hc.
    + destruct (IH Hl Hnd stats) as (rows & Hrows & Hrnd & Hin).
      exists rows. split; [done|]. split; [done|].
      intros row. rewrite Hin. split.
      * intros (dk' & names' & H1 & H2).
        exists dk', names'. split; [by right|done].
      * intros (dk' & names' & [[= Hk <-]|H1] & H2 & H3 & H4).
        -- apply Z.leb_le in Hc. lia.
        -- by exists dk', names'.
    + destruct (IH Hl Hnd (stats ++
                  [ResourceStats.mk
                     (NamespacedResource.mk dk.(DataKey.Namespace)
                        dk.(DataKey.Group) dk.(DataKey.Resource))
                     (countLive names)
                     (default 0 (rvs !! statsKey dk))])%list)
        as (rows & Hrows & Hrnd & Hin).
      exists (ResourceStats.mk
                (NamespacedResource.mk dk.(DataKey.Namespace)
                   dk.(DataKey.Group) dk.(DataKey.Resource))
                (countLive names) (default 0 (rvs !! statsKey dk)) :: rows).
      split; [by rewrite Hrows, <- app_assoc|]. split.
      * cbn [List.map]. apply NoDup_cons. split; [|done].
        intros Hdup%list_elem_of_In.
        apply in_map_iff in Hdup as (row & Hrow & Hinrow).
        apply Hin in Hinrow as (dk' & names' & H1 & H2 & H3 & ->).
        cbn in Hrow. injection Hrow as Hns Hg Hr.
        apply Hnotin. apply list_elem_of_fmap.
        exists (statsKey dk', names'). split; [|by apply list_elem_of_In].
        cbn. unfold statsKey. by rewrite Hns, Hg, Hr.
      * intros row. cbn [In]. rewrite Hin. split.
        -- intros [<-|(dk' & names' & H1 & H2)].
           ++ exists dk, names. split; [by left|].
              apply Z.leb_gt in Hc. split; [done|]. split; [lia|done].
           ++ exists dk', names'. split; [by right|done].
        -- intros (dk' & names' & [[= Hk <-]|H1] & H2 & H3 & H4).
           ++ left. subst row.
              pose proof (f_equal (strings_Split slash) Hk) as Hs.
              rewrite !strings_Split_statsKey in Hs by done.
              injection Hs as -> -> ->. by rewrite Hk.
           ++ right. by exists dk', names'.
Qed.

Lemma countLive_names (names : gmap string bool) :
  Z.of_nat (length (map_to_list names)) < 2 ^ 63 ->
  countLive names =
  Z.of_nat (length (List.filter snd (map_to_list names))).
Proof.
  intros H. unfold countLive. rewrite countLive_fold by lia. lia.
Qed.

(** X22: for a scan that does not fail over keys whose namespace, group and
    resource hold no slash, [GetResourceStats] returns, without touching
    the state, one row per scanned group/resource that has more than
    [minCount] live names: a name is live when the last scanned key of the
    name is not a deletion, [Count] is the number of live names, and
    [ResourceVersion] is the version of the last scanned key of the
    group/resource. *)
Theorem GetResourceStats_rows (namespace : string) (minCount : Z)
  (k : kvStorageBackend.t Doc) :
  faults.(Faults.data_Keys) (RequestKey.mk namespace "" "" "") = None ->
  (forall dataKey, In dataKey (scannedUnder namespace k) ->
     slashFree dataKey) ->
  Z.of_nat (length (scannedUnder namespace k)) < 2 ^ 63 ->
  exists rows,
    GetResourceStats faults namespace minCount k = (Ok rows, k) /\
    NoDup (List.map ResourceStats.NamespacedResource rows) /\
    forall ns g r count rv,
      In (ResourceStats.mk (NamespacedResource.mk ns g r) count rv) rows <->
      minCount < count /\
      lastVersion (scannedUnder namespace k) ns g r = Some rv /\
      exists live,
        NoDup live /\
        (forall name,
           In name live <->
           lastLive (scannedUnder namespace k) ns g r name = Some true) /\
        count = Z.of_nat (length live).
Proof.
  intros Hkeys Hfree Hlen.
  set (scanned := scannedUnder namespace k) in *.
  destruct (scanStats_scan scanned ∅ ∅)
    as (res & rvs & Hscan & Hlive & Hdom & Hrv).
  assert (Hent : forall key names, In (key, names) (map_to_list res) ->
            exists dataKey, slashFree dataKey /\ key = statsKey dataKey).
  { intros key names Hin%list_elem_of_In%elem_of_map_to_list.
    destruct (proj1 (Hdom key)) as [[? Hemp]|(dk & Hdk & <-)];
      [by eexists|by rewrite lookup_empty in Hemp|].
    exists dk. split; [by apply Hfree|done]. }
  destruct (statsRows_spec minCount rvs (map_to_list res) Hent
              (NoDup_fst_map_to_list res) [])
    as (rows & Hrows & Hrnd & Hin).
  exists rows. split; [|split; [done|]].
  { unfold GetResourceStats, dataStore_Keys. unfold_M. rewrite Hkeys.
    fold (scannedUnder namespace k). fold scanned.
    rewrite Hscan, Hrows. done. }
  (* what the tables hold, in terms of the scanned keys *)
  assert (Hgroup : forall dk, In dk scanned ->
            forall x, In x scanned ->
              bool_decide (statsKey x = statsKey dk) =
              inGroupResource dk.(DataKey.Namespace) dk.(DataKey.Group)
                dk.(DataKey.Resource) x).
  { intros dk Hdk x Hx. apply statsKey_inGroupResource; by apply Hfree. }
  assert (Hsome : forall dk, In dk scanned ->
            is_Some (lastVersion scanned dk.(DataKey.Namespace)
                       dk.(DataKey.Group) dk.(DataKey.Resource))).
  { intros dk Hdk. apply (lastOf_is_Some _ _ _ dk Hdk).
    unfold inGroupResource. by rewrite !bool_decide_eq_true_2. }
  assert (Hrv' : forall dk, In dk scanned ->
            rvs !! statsKey dk =
            lastVersion scanned dk.(DataKey.Namespace) dk.(DataKey.Group)
              dk.(DataKey.Resource)).
  { intros dk Hdk. rewrite Hrv. unfold lastVersion.
    rewrite (lastOf_ext _ _ _ _ (Hgroup dk Hdk)).
    destruct (Hsome dk Hdk) as [rv Hsrv]. unfold lastVersion in Hsrv.
    by rewrite Hsrv. }
  assert (Hlive' : forall dk, In dk scanned -> forall name,
            liveOf res (statsKey dk) name =
            lastLive scanned dk.(DataKey.Namespace) dk.(DataKey.Group)
              dk.(DataKey.Resource) name).
  { intros dk Hdk name. rewrite Hlive. unfold lastLive.
    rewrite (lastOf_ext _
               (fun x => inGroupResource dk.(DataKey.Namespace)
                           dk.(DataKey.Group) dk.(DataKey.Resource) x &&
                         bool_decide (x.(DataKey.Name) = name)))
      by (intros x Hx; by rewrite (Hgroup dk Hdk x Hx)).
    destruct (lastOf _ _ scanned); [done|].
    unfold liveOf. by rewrite lookup_empty. }
  assert (Hcount : forall dk names, In dk scanned ->
            res !! statsKey dk = Some names ->
            exists live,
              NoDup live /\
              (forall name,
                 In name live <->
                 lastLive scanned dk.(DataKey.Namespace) dk.(DataKey.Group)
                   dk.(DataKey.Resource) name = Some true) /\
              countLive names = Z.of_nat (length live)).
  { intros dk names Hdk Hres.
    assert (Hsize : (length (map_to_list names) <= length scanned)%nat).
    { transitivity (length (List.map DataKey.Name scanned));
        [|by rewrite length_map].
      rewrite <- (length_fmap fst (map_to_list names)).
      apply submseteq_length, NoDup_submseteq;
        [apply NoDup_fst_map_to_list|].
      intros name ([n b] & -> & Hnb%elem_of_map_to_list)%list_elem_of_fmap.
      cbn. pose proof (Hlive' dk Hdk n) as Hl.
      unfold liveOf in Hl. rewrite Hres, Hnb in Hl. symmetry in Hl.
      apply lastOf_Some in Hl as (x & Hx & Hsel & _).
      apply andb_true_iff in Hsel as [_ Hname%bool_decide_eq_true].
      apply list_elem_of_In, in_map_iff. by exists x. }
    exists ((List.filter snd (map_to_list names)).*1).
    split; [|split].
    - eapply NoDup_fmap_fst.
      + intros n b b' H1%list_elem_of_In%filter_In
          H2%list_elem_of_In%filter_In.
        destruct H1 as [H1%list_elem_of_In%elem_of_map_to_list _],
                 H2 as [H2%list_elem_of_In%elem_of_map_to_list _].
        congruence.
      + apply NoDup_ListNoDup, List.NoDup_filter, NoDup_ListNoDup,
          NoDup_map_to_list.
    - intros name. rewrite <- (Hlive' dk Hdk name). unfold liveOf.
      rewrite Hres. rewrite <- list_elem_of_In, list_elem_of_fmap. split.
      + intros ([n b] & -> & [Hn Hb]%list_elem_of_In%filter_In).
        cbn in *. subst b.
        by apply list_elem_of_In, elem_of_map_to_list in Hn.
      + intros Hn. exists (name, true). split; [done|].
        apply list_elem_of_In, filter_In. split; [|done].
        by apply list_elem_of_In, elem_of_map_to_list.
    - rewrite countLive_names by lia. by rewrite length_fmap. }
  intros ns g r count rv. rewrite Hin. split.
  - intros (dk & names & Hent' & Hdkfree & Hmin & [= -> -> -> -> ->]).
    pose proof Hent' as Hres%list_elem_of_In%elem_of_map_to_list.
    destruct (proj1 (Hdom (statsKey dk))) as [[? Hemp]|(dk' & Hdk' & Hk)];
      [by eexists|by rewrite lookup_empty in Hemp|].
    destruct (statsKey_fields dk dk' Hdkfree (Hfree dk' Hdk') Hk)
      as (Hns & Hg & Hr).
    rewrite <- Hk in Hres |- *. rewrite <- Hns, <- Hg, <- Hr.
    destruct (Hcount dk' names Hdk' Hres) as (live & Hnd & Hl & Hc).
    split; [done|]. split.
    + rewrite (Hrv' dk' Hdk'). by destruct (Hsome dk' Hdk') as [v ->].
    + exists live. by rewrite <- Hc.
  - intros (Hmin & Hlast & live & Hnd & Hl & ->).
    pose proof Hlast as (dk & Hdk & Hsel & Hdkrv)%lastOf_Some.
    apply andb_true_iff in Hsel as [[Hns Hg]%andb_true_iff Hr].
    apply bool_decide_eq_true in Hns, Hg, Hr. subst ns g r.
    destruct (proj2 (Hdom (statsKey dk))) as [names Hres];
      [right; by exists dk|].
    destruct (Hcount dk names Hdk Hres) as (live' & Hnd' & Hl' & Hc).
    assert (Hsame : length live = length live').
    { apply Permutation_length, NoDup_Permutation; [done..|].
      intros name. rewrite !list_elem_of_In, Hl, Hl'. done. }
    exists dk, names. split; [by apply list_elem_of_In, elem_of_map_to_list|].
    split; [by apply Hfree|]. rewrite Hc, <- Hsame. split; [done|].
    rewrite (Hrv' dk Hdk).
    by rewrite Hlast.
Qed.

End StatsMore.

Section WatchMore.

Context {Doc : Type}.
Variable Validate : WriteEvent.t -> option error.
Variable BuildDocument : ResourceKey.t -> Z -> bytes -> error + Doc.
Variable faults : Faults.t.

(** X23: the watch goroutine delivers a prefix of the notifier's events, in
    order and one for one, each with the key, folder and versions of its
    event, the change type of its action and the payload fetched for it;
    it closes the channel exactly when every event was delivered, and
    otherwise stops at the first event whose payload cannot be fetched or
    read, silently and without closing.  It never changes the stores. *)
Theorem WatchWriteEvents_delivers_prefix (notifierEvents : list Event.t)
  (k : kvStorageBackend.t Doc) :
  exists sent closed delivered rest,
    WatchWriteEvents_loop faults notifierEvents k = (Ok (sent, closed), k) /\
    notifierEvents = (delivered ++ rest)%list /\
    Forall2 (delivers faults k) delivered sent /\
    (closed = true -> rest = []) /\
    (closed = false ->
     exists event rest', rest = event :: rest' /\ fetched faults k event = None).
Proof.
  induction notifierEvents as [|event l IH].
  - exists [], true, [], []. repeat split; try done.
  - destruct IH as (sent & closed & delivered & rest & Hrun & Hl & Hd & Hc & Ho).
    cbn [WatchWriteEvents_loop]. unfold_M.
    fold (eventDataKey event).
    destruct (fetched faults k event) as [data|] eqn:Hf.
    + unfold fetched in Hf. unfold dataStore_Get in *. unfold_M.
      cbn [fst] in Hf.
      destruct (match Faults.data_Get faults (eventDataKey event) with
                | Some e => inl e | None => _ end) as [e|dataReader] eqn:Hg;
        [done|].
      destruct (io_ReadAll dataReader) as [e|data'] eqn:Hr; [done|].
      injection Hf as ->. rewrite Hrun.
      eexists _, closed, (event :: delivered), rest.
      split; [reflexivity|]. split; [by rewrite Hl|].
      split; [|done].
      constructor; [|done].
      unfold delivers, fetched, dataStore_Get. unfold_M. cbn [fst].
      cbn [WrittenEvent.Key WrittenEvent.EventType WrittenEvent.Folder
           WrittenEvent.Value WrittenEvent.ResourceVersion
           WrittenEvent.PreviousRV WrittenEvent.Timestamp].
      rewrite Hg, Hr. done.
    + exists [], false, [], (event :: l).
      split.
      * unfold fetched in Hf. unfold dataStore_Get in *. unfold_M.
        cbn [fst] in Hf.
        destruct (match Faults.data_Get faults (eventDataKey event) with
                  | Some e => inl e | None => _ end) as [e|dataReader];
          [done|].
        by destruct (io_ReadAll dataReader).
      * split; [done|]. split; [constructor|]. split; [done|].
        intros _. by exists event, l.
Qed.

(** X24: a write is watched as it was written.  After a [WriteEvent] that
    returns version [rv], the event appended to the event log, handed to
    the watch goroutine, is delivered with the key, change type, folder,
    payload and previous version of the written event and with [rv]; the
    timestamp is [rv] divided by the nanoseconds of a second. *)
Theorem WatchWriteEvents_after_WriteEvent (event : WriteEvent.t)
  (k : kvStorageBackend.t Doc) (rv : Z) :
  let out := WriteEvent Validate BuildDocument faults event k in
  out.1 = Ok rv ->
  (forall action,
     faults.(Faults.data_Get) (dataKeyOf event rv action) = None /\
     faults.(Faults.data_Read) (dataKeyOf event rv action) = None) ->
  exists logged,
    out.2.(kvStorageBackend.eventStore) =
      (k.(kvStorageBackend.eventStore) ++ [logged])%list /\
    WatchWriteEvents_loop faults [logged] out.2 =
      (Ok ([WrittenEvent.mk event.(WriteEvent.Key)
              event.(WriteEvent.EventType) event.(WriteEvent.Folder)
              event.(WriteEvent.Value) rv event.(WriteEvent.PreviousRV)
              (Z.quot rv Second_Nanoseconds)], true), out.2).
Proof.
  intros out Hok Hdg.
  destruct (WriteEvent_Ok_inv Validate BuildDocument faults event k rv Hok)
    as (Hrv & action & doc & Hacc & Hdoc & Hrun).
  subst out. rewrite Hrun. cbn [snd].
  exists (eventOf event rv action). split; [done|].
  assert (Htype : watchEventType action = event.(WriteEvent.EventType)).
  { destruct Hacc as [_ Hacc].
    destruct (event.(WriteEvent.EventType)); try done.
    - by destruct Hacc as [-> _].
    - by subst action.
    - by subst action. }
  cbn [WatchWriteEvents_loop]. unfold dataStore_Get. unfold_M.
  cbn [eventOf Event.Namespace Event.Group Event.Resource Event.Name
       Event.ResourceVersion Event.Action Event.Folder Event.PreviousRV].
  fold (dataKeyOf event rv action).
  destruct (Hdg action) as [-> Hread].
  cbn [putEvent putMeta putData kvStorageBackend.dataStore].
  rewrite find_kv_put. cbn [io_ReadAll]. rewrite Hread, Htype.
  by destruct (event.(WriteEvent.Key)).
Qed.

End WatchMore.

Section ListingErrors.

Context {Doc : Type}.
Variable faults : Faults.t.

(** X25: the failures of the listings that come before the callback.
    [ListIterator] without options or key fails with the backend
    unchanged; a token that does not decode makes [ListIterator] and
    [ListHistory] fail with the wrapped decoding error, again with the
    backend unchanged; a scan that fails makes them return the store's
    error as it is, after a version was minted.  The callback is invoked
    in none of these cases. *)
Theorem listings_fail_before_callback
  (GetContinueToken : string -> error + ContinueToken.t)
  (req : ListRequest.t) (k : kvStorageBackend.t Doc) :
  (req.(ListRequest.Options) = None \/
   req.(ListRequest.Options) = Some None ->
   forall cb,
     ListIterator GetContinueToken faults req cb k =
     (Fail (ErrorNew "missing options or key in ListRequest"), k)) /\
  (forall key err,
     req.(ListRequest.NextPageToken) <> "" ->
     GetContinueToken req.(ListRequest.NextPageToken) = inl err ->
     (req.(ListRequest.Options) = Some (Some key) ->
      forall cb,
        ListIterator GetContinueToken faults req cb k =
        (Fail (ErrorWrap "invalid continue token" err), k)) /\
     (namesObject req key ->
      forall fn,
        ListHistory GetContinueToken faults req fn k =
        (Fail (ErrorWrap "invalid continue token" err), k))) /\
  (forall key e,
     capacityOk req ->
     (req.(ListRequest.NextPageToken) = "" \/
      exists token,
        GetContinueToken req.(ListRequest.NextPageToken) = inr token) ->
     (req.(ListRequest.Options) = Some (Some key) ->
      faults.(Faults.meta_List) (requestKeyOf key) = Some e ->
      forall cb,
        ListIterator GetContinueToken faults req cb k = (Fail e, tick k)) /\
     (namesObject req key ->
      faults.(Faults.data_Keys) (requestKeyOf key) = Some e ->
      forall fn,
        ListHistory GetContinueToken faults req fn k = (Fail e, tick k))).
Proof.
  split; [|split].
  - intros [Hopt|Hopt] cb; unfold ListIterator; by rewrite Hopt.
  - intros key err Hne Hdec. split.
    + intros Hopt cb. unfold ListIterator. rewrite Hopt.
      rewrite decide_False by done. by rewrite Hdec.
    + intros (Hopt & Hg & Hr & Hn & Hm) fn. unfold ListHistory.
      rewrite Hopt. rewrite !decide_False by done. by rewrite Hdec.
  - intros key e Hcap Htok.
    unfold capacityOk in Hcap.
    assert (Hnn : (Z.min defaultListBufferSize
                     (wrap64 (req.(ListRequest.Limit) + 1)) <? 0) = false)
      by (apply Z.ltb_ge; lia).
    split.
    + intros Hopt Hfault cb. unfold ListIterator. rewrite Hopt.
      unfold snowflake_Generate, metaStore_ListResourceKeysAtRevision.
      unfold requestKeyOf in Hfault.
      destruct Htok as [Hnil|[token Hdec]].
      * rewrite decide_True by done. unfold_M. cbv beta iota.
        rewrite Hnn. cbn [kvStorageBackend.snowflake]. by rewrite Hfault.
      * destruct (decide (req.(ListRequest.NextPageToken) = ""));
          [|rewrite Hdec]; unfold_M; cbv beta iota; rewrite Hnn;
          cbn [kvStorageBackend.snowflake]; by rewrite Hfault.
    + intros (Hopt & Hg & Hr & Hn & Hm) Hfault fn. unfold ListHistory.
      rewrite Hopt. rewrite !decide_False by done.
      unfold snowflake_Generate, dataStore_Keys.
      unfold requestKeyOf in Hfault.
      destruct Htok as [Hnil|[token Hdec]].
      * rewrite decide_True by done. unfold_M. cbv beta iota.
        rewrite Hnn. cbn [kvStorageBackend.snowflake]. by rewrite Hfault.
      * destruct (decide (req.(ListRequest.NextPageToken) = ""));
          [|rewrite Hdec]; unfold_M; cbv beta iota; rewrite Hnn;
          cbn [kvStorageBackend.snowflake]; by rewrite Hfault.
Qed.

End ListingErrors.

(** ** The further properties at the sample states *)

Ltac versions_bounded :=
  repeat split; intros x Hx; vm_compute in Hx;
  repeat (destruct Hx as [<-|Hx]; [by vm_compute|]); destruct Hx.

Lemma WriteEvent_rejected_before_persistence_witness :
  let event := sample_event WatchEvent_BOOKMARK "a" in
  let out :=
    WriteEvent sample_Validate sample_BuildDocument no_faults event
      sample_two in
  sample_Validate event = None /\
  out.1 = Fail (ErrorNew ("invalid event type: " ++
                          WatchEvent_Type_decimal WatchEvent_BOOKMARK)) /\
  sameStores sample_two out.2.
Proof.
  intros event out. split; [reflexivity|].
  destruct (WriteEvent_rejected_before_persistence sample_Validate
              sample_BuildDocument no_faults event sample_two eq_refl)
    as [Htype _].
  exact (Htype eq_refl).
Defined.

Lemma WriteEvent_update_delete_unguarded_witness :
  let event := sample_event WatchEvent_DELETED "never-created" in
  let out :=
    WriteEvent sample_Validate sample_BuildDocument meta_Get_down event
      sample_empty in
  sample_Validate event = None /\
  DataActionDeleted <> DataActionCreated /\
  event.(WriteEvent.EventType) = watchEventType DataActionDeleted /\
  latestLookup meta_Get_down event.(WriteEvent.Key) sample_empty =
    inl backend_failure /\
  out.1 = Ok 101 /\
  In (dataKeyOf event 101 DataActionDeleted, event.(WriteEvent.Value))
     out.2.(kvStorageBackend.dataStore).
Proof.
  intros event out.
  assert (Hnc : DataActionDeleted <> DataActionCreated) by discriminate.
  split; [reflexivity|]. split; [exact Hnc|]. split; [reflexivity|].
  split; [reflexivity|].
  pose proof (WriteEvent_update_delete_unguarded sample_Validate
                sample_BuildDocument meta_Get_down event sample_empty
                DataActionDeleted event.(WriteEvent.Value)
                eq_refl Hnc eq_refl eq_refl eq_refl eq_refl eq_refl) as H.
  cbv zeta in H. destruct H as (Hok & Hin & _).
  split; [exact Hok|exact Hin].
Defined.

Lemma WriteEvent_append_only_witness :
  let event := sample_event WatchEvent_MODIFIED "a" in
  let out :=
    WriteEvent sample_Validate sample_BuildDocument no_faults event
      sample_two in
  versionsBounded sample_two /\
  versionsBounded out.2 /\
  (forall rec, In rec sample_two.(kvStorageBackend.dataStore) ->
     In rec out.2.(kvStorageBackend.dataStore)) /\
  (forall obj, In obj sample_two.(kvStorageBackend.metaStore) ->
     In obj out.2.(kvStorageBackend.metaStore)).
Proof.
  intros event out.
  assert (Hb : versionsBounded sample_two) by versions_bounded.
  split; [exact Hb|].
  destruct (WriteEvent_append_only sample_Validate sample_BuildDocument
              no_faults event sample_two Hb) as (H1 & H2 & H3 & _).
  split; [exact H1|]. split; [exact H2|exact H3].
Defined.

Lemma ReadResource_after_WriteEvent_witness :
  let event := sample_event WatchEvent_MODIFIED "a" in
  let out :=
    WriteEvent sample_Validate sample_BuildDocument no_faults event
      sample_two in
  versionsBounded sample_two /\
  out.1 = Ok 103 /\
  event.(WriteEvent.EventType) <> WatchEvent_DELETED /\
  (ReadResource no_faults (ReadRequest.mk (Some (sample_key "a")) 0)
     out.2).1 =
    Ok (BackendReadResponse.mk (Some (sample_key "a")) 103
          [Byte.x7b; Byte.x7d] "folder" None).
Proof.
  intros event out.
  assert (Hb : versionsBounded sample_two) by versions_bounded.
  assert (Hnd : event.(WriteEvent.EventType) <> WatchEvent_DELETED)
    by discriminate.
  split; [exact Hb|]. split; [reflexivity|]. split; [exact Hnd|].
  exact (ReadResource_after_WriteEvent sample_Validate sample_BuildDocument
           no_faults event sample_two 103 Hb eq_refl Hnd eq_refl
           (fun _ => conj eq_refl eq_refl) 0 (or_introl eq_refl)).
Defined.




Lemma ListIterator_page_witness :
  let req := sample_list "" 0 1 in
  let codec := decodes_to (ContinueToken.mk 0 0 false) in
  req.(ListRequest.Options) = Some (Some (sample_key "")) /\
  capacityOk req /\
  listCursor codec req 0 0 /\
  listVisits codec no_faults req sample_two
    (newListIterator [sample_metaKey "a" 102; sample_metaKey "b" 101] 103 0).
Proof.
  intros req codec.
  assert (Hcap : capacityOk req) by (by vm_compute).
  assert (Hcur : listCursor codec req 0 0) by (by left).
  split; [reflexivity|]. split; [exact Hcap|]. split; [exact Hcur|].
  exact (ListIterator_page no_faults codec req (sample_key "") sample_two
           0 0 eq_refl Hcap Hcur eq_refl).
Defined.

Lemma listings_panic_on_negative_capacity_witness :
  let req := sample_list "" 0 (-2) in
  let codec := decodes_to (ContinueToken.mk 0 0 false) in
  in_int64 req.(ListRequest.Limit) /\
  (req.(ListRequest.Limit) < -1 \/ req.(ListRequest.Limit) = int64_max) /\
  forall cb,
    ListIterator codec no_faults req cb sample_two =
    (Panic "makeslice: cap out of range", tick sample_two).
Proof.
  intros req codec.
  assert (Hin : in_int64 req.(ListRequest.Limit)) by (by vm_compute).
  assert (Hneg : req.(ListRequest.Limit) < -1 \/
                 req.(ListRequest.Limit) = int64_max)
    by (left; reflexivity).
  split; [exact Hin|]. split; [exact Hneg|].
  exact (proj1 (listings_panic_on_negative_capacity no_faults codec req
                  (sample_key "") sample_two eq_refl Hin Hneg eq_refl)).
Defined.

Lemma kvListIterator_token_counts_reads_witness :
  let keys := [sample_metaKey "a" 102; sample_metaKey "b" 101] in
  (2 <= length keys)%nat /\
  exists i',
    kvListIterator_NextN no_faults 2 (newListIterator keys 103 0)
      sample_two = (Ok (true, i'), sample_two) /\
    i'.(kvListIterator.currentIndex) = 1 /\
    kvListIterator_token i' = ContinueToken.mk 2 103 false.
Proof.
  intros keys.
  assert (Hread : forall j key, List.nth_error keys j = Some key ->
            (j < 2)%nat ->
            exists value, readable no_faults sample_two key value).
  { intros j key Hnth Hj. exists [Byte.x7b; Byte.x7d].
    destruct j as [|[|j]]; [| |lia];
      injection Hnth as <-; reflexivity. }
  split; [simpl; lia|].
  exact (kvListIterator_token_counts_reads no_faults keys 103 0 2 sample_two
           ltac:(simpl; lia) Hread ltac:(lia) ltac:(by vm_compute)).
Defined.


Lemma ListIterator_snapshot_survives_write_witness :
  let req := sample_list "" 102 1 in
  let codec := decodes_to (ContinueToken.mk 0 0 false) in
  let out :=
    WriteEvent sample_Validate sample_BuildDocument no_faults
      (sample_event WatchEvent_ADDED "c") sample_two in
  capacityOk req /\
  listCursor codec req 0 102 /\
  0 < 102 <= sample_two.(kvStorageBackend.snowflake) /\
  out.1 = Ok 103 /\
  exists keys,
    listVisits codec no_faults req sample_two (newListIterator keys 102 0) /\
    listVisits codec no_faults req out.2 (newListIterator keys 102 0) /\
    forall entry, In entry keys ->
      entry.(MetaDataKey.ResourceVersion) <= 102.
Proof.
  intros req codec out.
  assert (Hcap : capacityOk req) by (by vm_compute).
  assert (Hcur : listCursor codec req 0 102) by (by left).
  assert (Hrv : 0 < 102 <= sample_two.(kvStorageBackend.snowflake))
    by (by vm_compute).
  split; [exact Hcap|]. split; [exact Hcur|]. split; [exact Hrv|].
  split; [reflexivity|].
  exact (ListIterator_snapshot_survives_write sample_Validate
           sample_BuildDocument no_faults codec req (sample_key "")
           sample_two 0 102 (sample_event WatchEvent_ADDED "c") 103
           eq_refl Hcap Hcur eq_refl Hrv eq_refl).
Defined.

Lemma ListHistory_exact_needs_version_witness :
  let req :=
    sample_history "" 0 ResourceVersionMatchV2_Exact ListRequest_HISTORY in
  let codec := decodes_to (ContinueToken.mk 0 0 false) in
  let key := sample_key "a" in
  namesObject req key /\
  capacityOk req /\
  historyCursor codec req 0 false /\
  req.(ListRequest.ResourceVersion) <= 0 /\
  forall fn,
    ListHistory codec no_faults req fn sample_recreated =
    (Fail (ErrorNew
       "expecting an explicit resource version query when using Exact matching"),
     tick sample_recreated).
Proof.
  intros req codec key.
  assert (Hnames : namesObject req key) by (by repeat split).
  assert (Hcap : capacityOk req) by (by vm_compute).
  assert (Hcur : historyCursor codec req 0 false) by (by left).
  assert (Hrv : req.(ListRequest.ResourceVersion) <= 0) by (by vm_compute).
  split; [exact Hnames|]. split; [exact Hcap|]. split; [exact Hcur|].
  split; [exact Hrv|].
  exact (ListHistory_exact_needs_version no_faults codec req key
           sample_recreated 0 false Hnames Hcap Hcur eq_refl eq_refl Hrv).
Defined.

Lemma ListHistory_version_match_witness :
  let req :=
    sample_history "" 104 ResourceVersionMatchV2_NotOlderThan
      ListRequest_HISTORY in
  let codec := decodes_to (ContinueToken.mk 0 0 false) in
  let key := sample_key "a" in
  namesObject req key /\
  capacityOk req /\
  0 < req.(ListRequest.ResourceVersion) /\
  exists keys,
    historyVisits codec no_faults req sample_recreated
      (newHistoryIterator keys 107 true) /\
    sortedBy true keys /\
    forall entry,
      In entry keys <->
      In entry (historyOf key sample_recreated) /\
      104 <= entry.(DataKey.ResourceVersion).
Proof.
  intros req codec key.
  assert (Hnames : namesObject req key) by (by repeat split).
  assert (Hcap : capacityOk req) by (by vm_compute).
  assert (Hrv : 0 < req.(ListRequest.ResourceVersion)) by (by vm_compute).
  split; [exact Hnames|]. split; [exact Hcap|]. split; [exact Hrv|].
  exact (ListHistory_version_match no_faults codec req key sample_recreated
           Hnames Hcap eq_refl eq_refl eq_refl Hrv).
Defined.

Lemma ListHistory_live_window_exact_witness :
  let req :=
    sample_history "" 0 ResourceVersionMatchV2_Unset ListRequest_HISTORY in
  let codec := decodes_to (ContinueToken.mk 0 0 false) in
  let key := sample_key "a" in
  namesObject req key /\
  capacityOk req /\
  isExact req.(ListRequest.VersionMatchV2) = false /\
  req.(ListRequest.ResourceVersion) = 0 /\
  exists keys,
    historyVisits codec no_faults req sample_recreated
      (newHistoryIterator keys 107 false) /\
    forall entry,
      In entry keys <->
      In entry (historyOf key sample_recreated) /\
      forall deleted,
        In deleted (historyOf key sample_recreated) ->
        deleted.(DataKey.Action) = DataActionDeleted ->
        0 < deleted.(DataKey.ResourceVersion) ->
        deleted.(DataKey.ResourceVersion) < entry.(DataKey.ResourceVersion).
Proof.
  intros req codec key.
  assert (Hnames : namesObject req key) by (by repeat split).
  assert (Hcap : capacityOk req) by (by vm_compute).
  split; [exact Hnames|]. split; [exact Hcap|]. split; [reflexivity|].
  split; [reflexivity|].
  exact (ListHistory_live_window_exact no_faults codec req key
           sample_recreated Hnames Hcap eq_refl eq_refl eq_refl eq_refl
           eq_refl).
Defined.

Lemma ListHistory_resumes_after_token_witness :
  let req :=
    sample_history "page-2" 0 ResourceVersionMatchV2_Unset
      ListRequest_HISTORY in
  let token := ContinueToken.mk 106 106 false in
  let codec := decodes_to token in
  let key := sample_key "a" in
  namesObject req key /\
  capacityOk req /\
  exactHasVersion req /\
  req.(ListRequest.NextPageToken) <> "" /\
  codec req.(ListRequest.NextPageToken) = inr token /\
  exists unpaged,
    historyVisits (decodes_to (ContinueToken.mk 0 0 false)) no_faults
      (withToken req "-") sample_recreated
      (newHistoryIterator unpaged 107 false) /\
    forall before boundary after,
      unpaged = (before ++ boundary :: after)%list ->
      NoDup (List.map DataKey.ResourceVersion unpaged) ->
      106 = boundary.(DataKey.ResourceVersion) ->
      boundary.(DataKey.ResourceVersion) <> 0 ->
      historyVisits codec no_faults req sample_recreated
        (newHistoryIterator after 107 false).
Proof.
  intros req token codec key.
  assert (Hnames : namesObject req key) by (by repeat split).
  assert (Hcap : capacityOk req) by (by vm_compute).
  assert (Hev : exactHasVersion req) by (intros Hexact; discriminate Hexact).
  assert (Hne : req.(ListRequest.NextPageToken) <> "") by discriminate.
  split; [exact Hnames|]. split; [exact Hcap|]. split; [exact Hev|].
  split; [exact Hne|]. split; [reflexivity|].
  exact (ListHistory_resumes_after_token no_faults codec req key
           sample_recreated token Hnames Hcap eq_refl Hev Hne eq_refl).
Defined.

Lemma GetResourceStats_rows_witness :
  let scanned := scannedUnder "default" sample_deleted in
  (forall dataKey, In dataKey scanned -> slashFree dataKey) /\
  Z.of_nat (length scanned) < 2 ^ 63 /\
  exists rows,
    GetResourceStats no_faults "default" 0 sample_deleted =
      (Ok rows, sample_deleted) /\
    NoDup (List.map ResourceStats.NamespacedResource rows) /\
    forall ns g r count rv,
      In (ResourceStats.mk (NamespacedResource.mk ns g r) count rv) rows <->
      0 < count /\
      lastVersion scanned ns g r = Some rv /\
      exists live,
        NoDup live /\
        (forall name,
           In name live <-> lastLive scanned ns g r name = Some true) /\
        count = Z.of_nat (length live).
Proof.
  intros scanned.
  assert (Hfree : forall dataKey, In dataKey scanned -> slashFree dataKey).
  { intros dataKey Hin. vm_compute in Hin.
    repeat (destruct Hin as [<-|Hin]; [by vm_compute|]). destruct Hin. }
  assert (Hlen : Z.of_nat (length scanned) < 2 ^ 63) by (by vm_compute).
  split; [exact Hfree|]. split; [exact Hlen|].
  exact (GetResourceStats_rows no_faults "default" 0 sample_deleted eq_refl
           Hfree Hlen).
Defined.

Lemma WatchWriteEvents_after_WriteEvent_witness :
  let event := sample_event WatchEvent_MODIFIED "a" in
  let out :=
    WriteEvent sample_Validate sample_BuildDocument no_faults event
      sample_two in
  out.1 = Ok 103 /\
  exists logged,
    out.2.(kvStorageBackend.eventStore) =
      (sample_two.(kvStorageBackend.eventStore) ++ [logged])%list /\
    WatchWriteEvents_loop no_faults [logged] out.2 =
      (Ok ([WrittenEvent.mk (sample_key "a") WatchEvent_MODIFIED "folder"
              [Byte.x7b; Byte.x7d] 103 0 0], true), out.2).
Proof.
  intros event out. split; [reflexivity|].
  exact (WatchWriteEvents_after_WriteEvent sample_Validate
           sample_BuildDocument no_faults event sample_two 103 eq_refl
           (fun _ => conj eq_refl eq_refl)).
Defined.
